(** * Kobo to SharePoint direct transfer: a shallow embedding of
    [kobo_sharepoint_media.py] and the properties of its transfer core.

    The development follows the class [DirectMediaTransfer]:
    - Python values, exceptions and the string primitives the methods use;
    - the library functions the methods call ([re], [json.loads],
      [datetime.strptime], [os.path.splitext]), modelled on the patterns
      and formats that occur in the source;
    - the methods themselves, in the order of the source file;
    - the methods that talk to the two servers about folders and form
      data, the choice of the upload folder in [run], the constructor and
      the check of the environment in [main];
    - the properties, one section per component.

    Conventions.  A Python [str] is a Rocq [string]; a character is one of
    the 256 code points of Latin-1 and the character classes below are the
    ones CPython assigns to these code points.  Python integers are [Z];
    [int] and the JSON decoder read at most 4300 digits, the limit the
    interpreter starts with.
    Console output ([print]) is not modelled, and neither is the size in
    MiB, a float that is computed only to be printed.  An exception is a
    value of [exn]; code that may raise returns a [result].  Interrupts
    ([KeyboardInterrupt]) are no exceptions in this sense: no handler of
    the source catches them. *)

From Stdlib Require Import ZArith List String Ascii Bool Lia DecimalString.
From stdpp Require Import gmap strings.
Import ListNotations.
Open Scope string_scope.
Open Scope Z_scope.

(** ** Exceptions *)

Inductive exn : Type :=
  | JSONDecodeError
  | ValueError
  | TypeError
  | AttributeError
  | KeyError
  | RecursionError
  | OverflowError
  | RequestException.

(** [json.JSONDecodeError] is a subclass of [ValueError]. *)
Definition is_ValueError (e : exn) : bool :=
  match e with
  | ValueError | JSONDecodeError => true
  | _ => false
  end.

Definition is_JSONDecodeError (e : exn) : bool :=
  match e with
  | JSONDecodeError => true
  | _ => false
  end.

Inductive result (A : Type) : Type :=
  | Ok (a : A)
  | Raise (e : exn).
Arguments Ok {A} a.
Arguments Raise {A} e.

Definition rbind {A B : Type} (m : result A) (k : A -> result B) : result B :=
  match m with
  | Ok a => k a
  | Raise e => Raise e
  end.

(** [try: m  except Exception: h] *)
Definition try_except {A : Type} (m : result A) (h : exn -> result A) : result A :=
  match m with
  | Ok a => Ok a
  | Raise e => h e
  end.

Declare Scope result_scope.
Delimit Scope result_scope with result.
Notation "x <- m ;; k" := (rbind m (fun x => k))
  (at level 100, m at next level, right associativity) : result_scope.

(** ** Characters *)

Module Py.

Definition ord (c : ascii) : N := N_of_ascii c.
Definition chr (n : N) : ascii := ascii_of_N n.

Definition in_ranges (rs : list (N * N)) (c : ascii) : bool :=
  existsb (fun r => (fst r <=? ord c)%N && (ord c <=? snd r)%N) rs.

(** [str.isalnum] on one character. *)
Definition isalnum : ascii -> bool :=
  in_ranges [(48, 57); (65, 90); (97, 122); (170, 170); (178, 179);
             (181, 181); (185, 186); (188, 190); (192, 214); (216, 246);
             (248, 255)]%N.

(** [str.isspace]; also the characters removed by [str.strip()] and the
    class [\s] of [re]. *)
Definition isspace : ascii -> bool :=
  in_ranges [(9, 13); (28, 32); (133, 133); (160, 160)]%N.

(** The class [\d] of [re] and the digits accepted by [int]. *)
Definition isdecimal : ascii -> bool := in_ranges [(48, 57)]%N.

(** The class [\w] of [re]: alphanumeric or underscore. *)
Definition isword (c : ascii) : bool := isalnum c || (c =? "_")%char.

(** [str.isprintable] on one character, used by [repr]. *)
Definition isprintable : ascii -> bool :=
  in_ranges [(32, 126); (161, 172); (174, 255)]%N.

(** [str.lower] on one character. *)
Definition lower_char (c : ascii) : ascii :=
  if in_ranges [(65, 90); (192, 214); (216, 222)]%N c
  then chr (ord c + 32) else c.

(** The double quote and the backslash, by code point. *)
Definition dquote : ascii := "034"%char.
Definition backslash : ascii := "092"%char.
Definition squote : ascii := "039"%char.

(** ** Strings *)

Definition str1 (c : ascii) : string := String c EmptyString.

(** [len(s)] *)
Definition len (s : string) : Z := Z.of_nat (String.length s).

Fixpoint map_chars (f : ascii -> ascii) (s : string) : string :=
  match s with
  | EmptyString => EmptyString
  | String c s' => String (f c) (map_chars f s')
  end.

(** ["".join(c for c in s if p c)] *)
Fixpoint filter_chars (p : ascii -> bool) (s : string) : string :=
  match s with
  | EmptyString => EmptyString
  | String c s' => if p c then String c (filter_chars p s') else filter_chars p s'
  end.

Fixpoint forall_chars (p : ascii -> bool) (s : string) : bool :=
  match s with
  | EmptyString => true
  | String c s' => p c && forall_chars p s'
  end.

(** [c in chars] for a character [c]. *)
Fixpoint char_in (c : ascii) (chars : string) : bool :=
  match chars with
  | EmptyString => false
  | String d chars' => (c =? d)%char || char_in c chars'
  end.

Definition lower (s : string) : string := map_chars lower_char s.

(** [s[n:]] and [s[:n]] for [n >= 0]. *)
Fixpoint drop (n : nat) (s : string) : string :=
  match n, s with
  | O, _ => s
  | S n', String _ s' => drop n' s'
  | S _, EmptyString => EmptyString
  end.

Fixpoint take (n : nat) (s : string) : string :=
  match n, s with
  | S n', String c s' => String c (take n' s')
  | _, _ => EmptyString
  end.

(** [s[1:-1]] *)
Definition slice_1_m1 (s : string) : string :=
  take (String.length s - 2) (drop 1 s).

(** [s.startswith(p)] *)
Definition startswith (p s : string) : bool := String.prefix p s.

(** [s.endswith(suf)] *)
Definition endswith (suf s : string) : bool :=
  (String.length suf <=? String.length s)%nat
  && String.eqb (drop (String.length s - String.length suf) s) suf.

(** [needle in s] *)
Fixpoint contains (needle s : string) : bool :=
  String.prefix needle s
  || match s with
     | EmptyString => false
     | String _ s' => contains needle s'
     end.

(** [s.split(sep)] for a one-character separator: never empty. *)
Fixpoint split (sep : ascii) (s : string) : list string :=
  match s with
  | EmptyString => [EmptyString]
  | String c s' =>
      if (c =? sep)%char then EmptyString :: split sep s'
      else match split sep s' with
           | p :: ps => String c p :: ps
           | [] => [str1 c]
           end
  end.

(** [s.replace(old, new)] for a non-empty [old]: occurrences are replaced
    from the left and do not overlap; [skip] counts the characters of the
    occurrence just replaced that are still to be passed over. *)
Fixpoint replace_from (old new : string) (skip : nat) (s : string) : string :=
  match s with
  | EmptyString => EmptyString
  | String c s' =>
      match skip with
      | S k => replace_from old new k s'
      | O =>
          if String.prefix old s
          then new +:+ replace_from old new (String.length old - 1) s'
          else String c (replace_from old new 0 s')
      end
  end.

Definition replace (old new s : string) : string := replace_from old new 0 s.

Fixpoint lstrip_by (p : ascii -> bool) (s : string) : string :=
  match s with
  | EmptyString => EmptyString
  | String c s' => if p c then lstrip_by p s' else s
  end.

Fixpoint rstrip_by (p : ascii -> bool) (s : string) : string :=
  match s with
  | EmptyString => EmptyString
  | String c s' =>
      match rstrip_by p s' with
      | EmptyString => if p c then EmptyString else str1 c
      | r => String c r
      end
  end.

(** [s.strip()] *)
Definition strip (s : string) : string := rstrip_by isspace (lstrip_by isspace s).

(** [s.rstrip(chars)] *)
Definition rstrip (chars s : string) : string :=
  rstrip_by (fun c => char_in c chars) s.

(** [sep.join(l)] *)
Fixpoint join (sep : string) (l : list string) : string :=
  match l with
  | [] => EmptyString
  | [x] => x
  | x :: l' => x +:+ sep +:+ join sep l'
  end.

(** [l[-1]] of a non-empty list. *)
Definition last_item (l : list string) : string := List.last l EmptyString.

(** [str(n)] for an integer. *)
Definition str_of_int (n : Z) : string := NilZero.string_of_int (Z.to_int n).

(** ** [int(s)]

    Surrounding whitespace is ignored, one sign is allowed, and the digits
    may be grouped by single underscores.  A text of more than
    [max_str_digits] digits is refused, whatever the digits are. *)

Definition max_str_digits : nat := 4300.

Definition count_digits (s : string) : nat :=
  String.length (filter_chars isdecimal s).

Definition int_space : ascii -> bool :=
  in_ranges [(9, 13); (32, 32); (133, 133); (160, 160)]%N.

Definition digit_val (c : ascii) : Z := Z.of_N (ord c) - 48.

(** The value of a run of decimal digits. *)
Fixpoint digits_val (acc : Z) (s : string) : Z :=
  match s with
  | EmptyString => acc
  | String c s' => digits_val (10 * acc + digit_val c) s'
  end.

(** [prev_digit] tells whether the previous character was a digit, which
    is where an underscore may stand. *)
Fixpoint int_digits (acc : Z) (prev_digit : bool) (s : string) : option Z :=
  match s with
  | EmptyString => if prev_digit then Some acc else None
  | String c s' =>
      if isdecimal c then int_digits (10 * acc + digit_val c) true s'
      else if (c =? "_")%char && prev_digit then
        match s' with
        | String d _ => if isdecimal d then int_digits acc false s' else None
        | EmptyString => None
        end
      else None
  end.

Definition int (s : string) : result Z :=
  let s := rstrip_by int_space (lstrip_by int_space s) in
  let parsed :=
    match s with
    | String "-" s' => option_map Z.opp (int_digits 0 false s')
    | String "+" s' => int_digits 0 false s'
    | _ => int_digits 0 false s
    end in
  match parsed with
  | Some n => if (max_str_digits <? count_digits s)%nat then Raise ValueError else Ok n
  | None => Raise ValueError
  end.

(** ** [os.path.splitext] (POSIX)

    The extension starts at the last dot of the last path component,
    unless only dots stand between the start of that component and it. *)

(** Position of the last occurrence of [c] in [s], counted from 1;
    0 when there is none ([s.rfind(c) + 1]). *)
Fixpoint rfind1 (c : ascii) (s : string) : nat :=
  match s with
  | EmptyString => O
  | String d s' =>
      match rfind1 c s' with
      | O => if (d =? c)%char then 1%nat else O
      | S k => S (S k)
      end
  end.

Definition is_dot (c : ascii) : bool := (c =? ".")%char.

Definition splitext (p : string) : string * string :=
  let sep_index := rfind1 "/" p in
  let dot_index := rfind1 "." p in
  if (sep_index <? dot_index)%nat then
    (* the characters from the start of the component up to the last dot *)
    let before := take (dot_index - 1 - sep_index) (drop sep_index p) in
    if forall_chars is_dot before then (p, EmptyString)
    else (take (dot_index - 1) p, drop (dot_index - 1) p)
  else (p, EmptyString).

End Py.

(** ** Python values

    The values a submission record or a decoded JSON text holds.  A dict
    keeps its keys in insertion order (the order [items()] iterates in),
    so it is an association list with distinct keys.  A float is carried
    by the two observations the program makes of it: its truth value and
    its text. *)

#[local] Set Warnings "-register-all".
Inductive pyval : Type :=
  | PNone
  | PBool (b : bool)
  | PInt (n : Z)
  | PFloat (nonzero : bool) (text : string)
  | PStr (s : string)
  | PList (l : list pyval)
  | PDict (d : list (string * pyval)).

Module Val.

(** [bool(v)] *)
Definition truthy (v : pyval) : bool :=
  match v with
  | PNone => false
  | PBool b => b
  | PInt n => negb (n =? 0)
  | PFloat nonzero _ => nonzero
  | PStr s => negb (String.eqb s EmptyString)
  | PList l => match l with [] => false | _ => true end
  | PDict d => match d with [] => false | _ => true end
  end.

(** [d.get(k)] *)
Fixpoint dict_get (d : list (string * pyval)) (k : string) : option pyval :=
  match d with
  | [] => None
  | (k', v) :: d' => if String.eqb k' k then Some v else dict_get d' k
  end.

(** [d[k] = v]: an existing key keeps its place. *)
Fixpoint dict_set (d : list (string * pyval)) (k : string) (v : pyval)
  : list (string * pyval) :=
  match d with
  | [] => [(k, v)]
  | (k', v') :: d' =>
      if String.eqb k' k then (k', v) :: d' else (k', v') :: dict_set d' k v
  end.

(** [isinstance(v, dict)] *)
Definition is_dict (v : pyval) : bool :=
  match v with PDict _ => true | _ => false end.

(** [key in v] for a string [key] *)
Definition contains_key (key : string) (v : pyval) : result bool :=
  match v with
  | PDict d => Ok (match dict_get d key with Some _ => true | None => false end)
  | PList l =>
      Ok (existsb (fun x => match x with
                            | PStr s => String.eqb s key
                            | _ => false
                            end) l)
  | PStr s => Ok (Py.contains key s)
  | _ => Raise TypeError
  end.

(** [v[key]] for a string [key] *)
Definition getitem (v : pyval) (key : string) : result pyval :=
  match v with
  | PDict d =>
      match dict_get d key with
      | Some x => Ok x
      | None => Raise KeyError
      end
  | _ => Raise TypeError
  end.

(** [v.get(key, default)], a method of dicts only *)
Definition get (v : pyval) (key : string) (default : pyval) : result pyval :=
  match v with
  | PDict d =>
      match dict_get d key with
      | Some x => Ok x
      | None => Ok default
      end
  | _ => Raise AttributeError
  end.

(** [repr] of a string: single quotes unless the text holds a single
    quote and no double quote; backslash, the chosen quote and the
    characters that are not printable are escaped. *)

Definition hex_digit (n : N) : ascii :=
  if (n <? 10)%N then Py.chr (48 + n) else Py.chr (87 + n).

Definition repr_char (quote c : ascii) : string :=
  if (c =? quote)%char || (c =? Py.backslash)%char
  then String Py.backslash (Py.str1 c)
  else if (c =? "009")%char then String Py.backslash "t"
  else if (c =? "010")%char then String Py.backslash "n"
  else if (c =? "013")%char then String Py.backslash "r"
  else if Py.isprintable c then Py.str1 c
  else String Py.backslash
         (String "x" (String (hex_digit (Py.ord c / 16))
                        (Py.str1 (hex_digit (Py.ord c mod 16))))).

Fixpoint repr_chars (quote : ascii) (s : string) : string :=
  match s with
  | EmptyString => EmptyString
  | String c s' => repr_char quote c +:+ repr_chars quote s'
  end.

Definition repr_str (s : string) : string :=
  let quote :=
    if Py.contains (Py.str1 Py.squote) s && negb (Py.contains (Py.str1 Py.dquote) s)
    then Py.dquote else Py.squote in
  String quote (repr_chars quote s +:+ Py.str1 quote).

Fixpoint repr (v : pyval) : string :=
  match v with
  | PNone => "None"
  | PBool true => "True"
  | PBool false => "False"
  | PInt n => Py.str_of_int n
  | PFloat _ text => text
  | PStr s => repr_str s
  | PList l => "[" +:+ Py.join ", " (map repr l) +:+ "]"
  | PDict d =>
      "{" +:+ Py.join ", "
                (map (fun kv => match kv with
                                | (k, x) => repr_str k +:+ ": " +:+ repr x
                                end) d) +:+ "}"
  end.

(** [str(v)] *)
Definition str (v : pyval) : string :=
  match v with
  | PStr s => s
  | _ => repr v
  end.

End Val.

(** ** Regular expressions

    The patterns of the source use character classes, literals,
    concatenation, alternation and the greedy operators [?], [+] and
    [{m,n}].  [rmatch r s] lists, in the order a backtracking matcher
    tries them, the texts that can remain after [r] has matched a prefix
    of [s]; the head of the list is the match [re] reports. *)

Module Re.

Inductive regex : Type :=
  | Chr (p : ascii -> bool)
  | Cat (r1 r2 : regex)
  | Alt (r1 r2 : regex)
  | Opt (r : regex)
  | Plus (r : regex).

Definition is_char (c : ascii) : ascii -> bool := fun d => (d =? c)%char.

(** A literal text. *)
Fixpoint Lit (first : ascii) (more : string) : regex :=
  match more with
  | EmptyString => Chr (is_char first)
  | String c more' => Cat (Chr (is_char first)) (Lit c more')
  end.

(** [r{1,n+1}] *)
Fixpoint UpTo (n : nat) (r : regex) : regex :=
  match n with
  | O => r
  | S n' => Cat r (Opt (UpTo n' r))
  end.

(** [r+]: one match of [r] by [step], then as many more as can be had;
    a round that consumes nothing is not repeated. *)
Fixpoint iterate (step : string -> list string) (fuel : nat) (s : string)
  : list string :=
  match fuel with
  | O => []
  | S fuel' =>
      flat_map
        (fun s' =>
           ((if (String.length s' <? String.length s)%nat
             then iterate step fuel' s' else []) ++ [s'])%list)
        (step s)
  end.

Fixpoint rmatch (r : regex) (s : string) : list string :=
  match r with
  | Chr p =>
      match s with
      | String c s' => if p c then [s'] else []
      | EmptyString => []
      end
  | Cat r1 r2 => flat_map (rmatch r2) (rmatch r1 s)
  | Alt r1 r2 => (rmatch r1 s ++ rmatch r2 s)%list
  | Opt r1 => (rmatch r1 s ++ [s])%list
  | Plus r1 => iterate (rmatch r1) (S (String.length s)) s
  end.

(** The texts a pattern matches, for reference. *)
Inductive matches : regex -> string -> Prop :=
  | matches_chr p c : p c = true -> matches (Chr p) (String c EmptyString)
  | matches_cat r1 r2 s1 s2 :
      matches r1 s1 -> matches r2 s2 -> matches (Cat r1 r2) (s1 +:+ s2)
  | matches_alt_l r1 r2 s : matches r1 s -> matches (Alt r1 r2) s
  | matches_alt_r r1 r2 s : matches r2 s -> matches (Alt r1 r2) s
  | matches_opt_none r : matches (Opt r) EmptyString
  | matches_opt_some r s : matches r s -> matches (Opt r) s
  | matches_plus_one r s : matches r s -> matches (Plus r) s
  | matches_plus_more r s1 s2 :
      matches r s1 -> matches (Plus r) s2 -> matches (Plus r) (s1 +:+ s2).

(** [re.match(r, s)]: the text matched at the start of [s], and the rest. *)
Definition match_prefix (r : regex) (s : string) : option (string * string) :=
  match rmatch r s with
  | rest :: _ => Some (Py.take (String.length s - String.length rest) s, rest)
  | [] => None
  end.

(** [re.findall(r, s)] for a pattern without groups that matches no empty
    text: the matches from left to right, each search resuming where the
    last match ended. *)
Fixpoint findall_from (r : regex) (skip : nat) (s : string) : list string :=
  match s with
  | EmptyString => []
  | String _ s' =>
      match skip with
      | S k => findall_from r k s'
      | O =>
          match match_prefix r s with
          | Some (m, _) => m :: findall_from r (String.length m - 1) s'
          | None => findall_from r 0 s'
          end
      end
  end.

Definition findall (r : regex) (s : string) : list string := findall_from r 0 s.

(** [re.search(r, s)]: the leftmost match. *)
Fixpoint search (r : regex) (s : string) : option string :=
  match match_prefix r s with
  | Some (m, _) => Some m
  | None =>
      match s with
      | EmptyString => None
      | String _ s' => search r s'
      end
  end.

(** [re.sub(r, repl, s)] under the same provisos as [findall]. *)
Fixpoint sub_from (r : regex) (repl : string) (skip : nat) (s : string) : string :=
  match s with
  | EmptyString => EmptyString
  | String c s' =>
      match skip with
      | S k => sub_from r repl k s'
      | O =>
          match match_prefix r s with
          | Some (m, _) => repl +:+ sub_from r repl (String.length m - 1) s'
          | None => String c (sub_from r repl 0 s')
          end
      end
  end.

Definition sub (r : regex) (repl s : string) : string := sub_from r repl 0 s.

End Re.

(** ** [json.loads]

    The decoder of the standard library on a [str]: leading and trailing
    JSON whitespace is skipped, one value is scanned, and anything left
    over is an error.  Nesting is bounded by the interpreter's recursion
    limit; the model raises [RecursionError] when arrays and objects are
    nested [max_depth] deep.  A [\uXXXX] escape above U+00FF denotes a
    character outside Latin-1 and is kept as the six characters of the
    escape.  A float keeps the text of its literal.  An integer literal is
    read by [int], which refuses more than [Py.max_str_digits] digits
    with a [ValueError] that is no [JSONDecodeError]. *)

Module Json.

Definition max_depth : nat := 1000.

Definition is_ws (c : ascii) : bool :=
  (c =? " ")%char || (c =? "009")%char || (c =? "010")%char || (c =? "013")%char.

Definition skip_ws (s : string) : string := Py.lstrip_by is_ws s.

Definition hex_val (c : ascii) : option N :=
  let n := Py.ord c in
  if (48 <=? n)%N && (n <=? 57)%N then Some (n - 48)%N
  else if (97 <=? n)%N && (n <=? 102)%N then Some (n - 87)%N
  else if (65 <=? n)%N && (n <=? 70)%N then Some (n - 55)%N
  else None.

Definition hex4 (a b c d : ascii) : option N :=
  match hex_val a, hex_val b, hex_val c, hex_val d with
  | Some x, Some y, Some z, Some w => Some (((x * 16 + y) * 16 + z) * 16 + w)%N
  | _, _, _, _ => None
  end.

(** The character a one-letter escape stands for. *)
Definition simple_escape (c : ascii) : option ascii :=
  if (c =? Py.dquote)%char then Some Py.dquote
  else if (c =? Py.backslash)%char then Some Py.backslash
  else if (c =? "/")%char then Some "/"%char
  else if (c =? "b")%char then Some "008"%char
  else if (c =? "f")%char then Some "012"%char
  else if (c =? "n")%char then Some "010"%char
  else if (c =? "r")%char then Some "013"%char
  else if (c =? "t")%char then Some "009"%char
  else None.

(** [scanstring]: the text after an opening quote, up to the closing
    quote; control characters are refused (strict mode). *)
Fixpoint scanstring (s : string) : result (string * string) :=
  match s with
  | EmptyString => Raise JSONDecodeError
  | String c s1 =>
      if (c =? Py.dquote)%char then Ok (EmptyString, s1)
      else if (c =? Py.backslash)%char then
        match s1 with
        | EmptyString => Raise JSONDecodeError
        | String e s2 =>
            if (e =? "u")%char then
              match s2 with
              | String h1 (String h2 (String h3 (String h4 s3))) =>
                  match hex4 h1 h2 h3 h4 with
                  | Some cp =>
                      match scanstring s3 with
                      | Ok (text, rest) =>
                          if (cp <? 256)%N then Ok (String (Py.chr cp) text, rest)
                          else Ok (String c (String e (String h1 (String h2
                                     (String h3 (String h4 text))))), rest)
                      | Raise err => Raise err
                      end
                  | None => Raise JSONDecodeError
                  end
              | _ => Raise JSONDecodeError
              end
            else
              match simple_escape e with
              | Some ch =>
                  match scanstring s2 with
                  | Ok (text, rest) => Ok (String ch text, rest)
                  | Raise err => Raise err
                  end
              | None => Raise JSONDecodeError
              end
        end
      else if (Py.ord c <? 32)%N then Raise JSONDecodeError
      else
        match scanstring s1 with
        | Ok (text, rest) => Ok (String c text, rest)
        | Raise err => Raise err
        end
  end.

(** The number pattern of the decoder, group by group: the integer part
    (an optional minus sign, then either 0 or a digit from 1 to 9 and any
    digits), the optional fraction (a dot and digits) and the optional
    exponent (e or E, an optional sign, digits). *)
Definition digit : Re.regex := Re.Chr Py.isdecimal.
Definition digit19 : Re.regex :=
  Re.Chr (fun c => Py.isdecimal c && negb (c =? "0")%char).
Definition number_int : Re.regex :=
  Re.Cat (Re.Opt (Re.Chr (Re.is_char "-")))
         (Re.Alt (Re.Chr (Re.is_char "0"))
                 (Re.Cat digit19 (Re.Opt (Re.Plus digit)))).
Definition number_frac : Re.regex :=
  Re.Cat (Re.Chr (Re.is_char ".")) (Re.Plus digit).
Definition number_exp : Re.regex :=
  Re.Cat (Re.Chr (fun c => (c =? "e")%char || (c =? "E")%char))
         (Re.Cat (Re.Opt (Re.Chr (fun c => (c =? "-")%char || (c =? "+")%char)))
                 (Re.Plus digit)).

(** An optional group: its text (empty when it does not take part). *)
Definition match_opt (r : Re.regex) (s : string) : string * string :=
  match Re.match_prefix r s with
  | Some (m, rest) => (m, rest)
  | None => (EmptyString, s)
  end.

(** Whether the float a literal denotes is not zero.  The literal has
    the digits [mant] and the decimal exponent [exp10]; a double is zero
    when the digits are, and when the value is so small that it rounds to
    zero, which is at [2^-1075] and below. *)
Definition float_nonzero (mant exp10 : Z) : bool :=
  negb (mant =? 0)
  && negb ((exp10 <? 0) && (mant * 2 ^ 1075 <=? 10 ^ (- exp10))).

Definition signed_digits (s : string) : Z :=
  match s with
  | String "-" s' => - Py.digits_val 0 s'
  | String "+" s' => Py.digits_val 0 s'
  | _ => Py.digits_val 0 s
  end.

Definition number_value (integer frac exp : string) : pyval :=
  if String.eqb frac EmptyString && String.eqb exp EmptyString
  then PInt (signed_digits integer)
  else
    let mant := Z.abs (signed_digits (integer +:+ Py.drop 1 frac)) in
    let exp10 := signed_digits (Py.drop 1 exp) - Py.len (Py.drop 1 frac) in
    PFloat (float_nonzero mant exp10) (integer +:+ frac +:+ exp).

(** The scalars other than strings: [null], [true], [false], a number,
    [NaN], [Infinity], [-Infinity], in the order the scanner tries them. *)
Definition scan_scalar (s : string) : result (pyval * string) :=
  if String.prefix "null" s then Ok (PNone, Py.drop 4 s)
  else if String.prefix "true" s then Ok (PBool true, Py.drop 4 s)
  else if String.prefix "false" s then Ok (PBool false, Py.drop 5 s)
  else
    match Re.match_prefix number_int s with
    | Some (integer, rest) =>
        let (frac, rest) := match_opt number_frac rest in
        let (exp, rest) := match_opt number_exp rest in
        if String.eqb frac EmptyString && String.eqb exp EmptyString
           && (Py.max_str_digits <? Py.count_digits integer)%nat
        then Raise ValueError
        else Ok (number_value integer frac exp, rest)
    | None =>
        if String.prefix "NaN" s then Ok (PFloat true "nan", Py.drop 3 s)
        else if String.prefix "Infinity" s then Ok (PFloat true "inf", Py.drop 8 s)
        else if String.prefix "-Infinity" s then Ok (PFloat true "-inf", Py.drop 9 s)
        else Raise JSONDecodeError
    end.

(** [scan_once]: one value at the start of [s], and the rest.  [depth] is
    the number of arrays and objects that may still be entered.  The
    loops over elements and members run on [fuel], the length of the text
    at hand: every round consumes at least one character. *)
Fixpoint scan_once (depth : nat) (s : string) : result (pyval * string) :=
  match s with
  | EmptyString => Raise JSONDecodeError
  | String c s1 =>
      if (c =? Py.dquote)%char then
        match scanstring s1 with
        | Ok (text, rest) => Ok (PStr text, rest)
        | Raise err => Raise err
        end
      else if (c =? "{")%char then
        match depth with
        | O => Raise RecursionError
        | S depth' =>
            let s2 := skip_ws s1 in
            match s2 with
            | String "}" rest => Ok (PDict [], rest)
            | _ =>
                (fix members (fuel : nat) (s : string) (pairs : list (string * pyval))
                   : result (pyval * string) :=
                   match fuel with
                   | O => Raise JSONDecodeError
                   | S fuel' =>
                       match s with
                       | String q s3 =>
                           if (q =? Py.dquote)%char then
                             match scanstring s3 with
                             | Ok (key, s4) =>
                                 match skip_ws s4 with
                                 | String ":" s5 =>
                                     match scan_once depth' (skip_ws s5) with
                                     | Ok (value, s6) =>
                                         let pairs := Val.dict_set pairs key value in
                                         match skip_ws s6 with
                                         | String "}" rest => Ok (PDict pairs, rest)
                                         | String "," s7 => members fuel' (skip_ws s7) pairs
                                         | _ => Raise JSONDecodeError
                                         end
                                     | Raise err => Raise err
                                     end
                                 | _ => Raise JSONDecodeError
                                 end
                             | Raise err => Raise err
                             end
                           else Raise JSONDecodeError
                       | EmptyString => Raise JSONDecodeError
                       end
                   end) (String.length s2) s2 []
            end
        end
      else if (c =? "[")%char then
        match depth with
        | O => Raise RecursionError
        | S depth' =>
            let s2 := skip_ws s1 in
            match s2 with
            | String "]" rest => Ok (PList [], rest)
            | _ =>
                (fix elements (fuel : nat) (s : string) (values : list pyval)
                   : result (pyval * string) :=
                   match fuel with
                   | O => Raise JSONDecodeError
                   | S fuel' =>
                       match scan_once depth' s with
                       | Ok (value, s3) =>
                           let values := (values ++ [value])%list in
                           match skip_ws s3 with
                           | String "]" rest => Ok (PList values, rest)
                           | String "," s4 => elements fuel' (skip_ws s4) values
                           | _ => Raise JSONDecodeError
                           end
                       | Raise err => Raise err
                       end
                   end) (String.length s2) s2 []
            end
        end
      else scan_scalar s
  end.

Definition loads (s : string) : result pyval :=
  match scan_once max_depth (skip_ws s) with
  | Ok (value, rest) =>
      if String.eqb (skip_ws rest) EmptyString then Ok value
      else Raise JSONDecodeError
  | Raise err => Raise err
  end.

End Json.

(** Test texts are written with a backquote where the Python text has a
    double quote; [qq] puts the double quotes in. *)
Definition qq (s : string) : string :=
  Py.map_chars (fun c => if (c =? "`")%char then Py.dquote else c) s.

(** ** [datetime.strptime] and [strftime]

    [strptime] turns the format into a pattern, directive by directive,
    matches it at the start of the text without regard to case, refuses
    text left over, and builds a date from the groups; a date that does
    not exist is a [ValueError].  Only the directives of the formats in
    [format_date] are modelled. *)

Module Datetime.

Inductive directive : Type :=
  | dY | dm | dd | dH | dM | dS | df      (* %Y %m %d %H %M %S %f *)
  | lit (c : ascii)                       (* a character of the format *)
  | space.                                (* whitespace in the format *)

Definition between (lo hi : ascii) : Re.regex :=
  Re.Chr (fun c => (Py.ord lo <=? Py.ord c)%N && (Py.ord c <=? Py.ord hi)%N).
Definition d : Re.regex := Re.Chr Py.isdecimal.
Definition ch (c : ascii) : Re.regex := Re.Chr (Re.is_char c).

(** The pattern of each directive, as the library's table has it. *)
Definition directive_regex (x : directive) : Re.regex :=
  match x with
  | dY => Re.Cat d (Re.Cat d (Re.Cat d d))
  | dm => Re.Alt (Re.Cat (ch "1") (between "0" "2"))
            (Re.Alt (Re.Cat (ch "0") (between "1" "9")) (between "1" "9"))
  | dd => Re.Alt (Re.Cat (ch "3") (between "0" "1"))
            (Re.Alt (Re.Cat (between "1" "2") d)
               (Re.Alt (Re.Cat (ch "0") (between "1" "9"))
                  (Re.Alt (between "1" "9") (Re.Cat (ch " ") (between "1" "9")))))
  | dH => Re.Alt (Re.Cat (ch "2") (between "0" "3"))
            (Re.Alt (Re.Cat (between "0" "1") d) d)
  | dM => Re.Alt (Re.Cat (between "0" "5") d) d
  | dS => Re.Alt (Re.Cat (ch "6") (between "0" "1"))
            (Re.Alt (Re.Cat (between "0" "5") d) d)
  | df => Re.UpTo 5 (between "0" "9")
  | lit c => Re.Chr (fun x => (Py.lower_char x =? Py.lower_char c)%char)
  | space => Re.Plus (Re.Chr Py.isspace)
  end.

Record fields : Type := mk_fields {
  year : Z; month : Z; day : Z;
  hour : Z; minute : Z; second : Z; fraction : Z
}.

Definition default_fields : fields := mk_fields 1900 1 1 0 0 0 0.

(** [int(text)] for the text of a group: digits, after a space at most. *)
Definition group_int (text : string) : Z :=
  Py.digits_val 0 (Py.lstrip_by Py.isspace text).

(** The fraction is padded with zeros on the right to six digits. *)
Definition fraction_int (text : string) : Z :=
  Py.digits_val 0 text * 10 ^ (6 - Py.len text).

Definition set_field (x : directive) (text : string) (f : fields) : fields :=
  match x with
  | dY => mk_fields (group_int text) (month f) (day f) (hour f) (minute f) (second f) (fraction f)
  | dm => mk_fields (year f) (group_int text) (day f) (hour f) (minute f) (second f) (fraction f)
  | dd => mk_fields (year f) (month f) (group_int text) (hour f) (minute f) (second f) (fraction f)
  | dH => mk_fields (year f) (month f) (day f) (group_int text) (minute f) (second f) (fraction f)
  | dM => mk_fields (year f) (month f) (day f) (hour f) (group_int text) (second f) (fraction f)
  | dS => mk_fields (year f) (month f) (day f) (hour f) (minute f) (group_int text) (fraction f)
  | df => mk_fields (year f) (month f) (day f) (hour f) (minute f) (second f) (fraction_int text)
  | lit _ | space => f
  end.

(** The ways the pattern of a format matches a prefix of [s], in the
    order a backtracking matcher finds them, each with its groups. *)
Fixpoint match_format (fmt : list directive) (s : string) (f : fields)
  : list (fields * string) :=
  match fmt with
  | [] => [(f, s)]
  | x :: fmt' =>
      flat_map
        (fun rest =>
           let text := Py.take (String.length s - String.length rest) s in
           match_format fmt' rest (set_field x text f))
        (Re.rmatch (directive_regex x) s)
  end.

Definition is_leap (y : Z) : bool :=
  (y mod 4 =? 0) && (negb (y mod 100 =? 0) || (y mod 400 =? 0)).

Definition days_in_month (y m : Z) : Z :=
  if m =? 2 then (if is_leap y then 29 else 28)
  else if (m =? 4) || (m =? 6) || (m =? 9) || (m =? 11) then 30
  else 31.

(** The constructor of [datetime] checks the ranges. *)
Definition valid (f : fields) : bool :=
  (1 <=? year f) && (year f <=? 9999)
  && (1 <=? month f) && (month f <=? 12)
  && (1 <=? day f) && (day f <=? days_in_month (year f) (month f))
  && (0 <=? hour f) && (hour f <=? 23)
  && (0 <=? minute f) && (minute f <=? 59)
  && (0 <=? second f) && (second f <=? 59)
  && (0 <=? fraction f) && (fraction f <=? 999999).

Definition strptime (s : string) (fmt : list directive) : result fields :=
  match match_format fmt s default_fields with
  | (f, rest) :: _ =>
      if String.eqb rest EmptyString then
        if valid f then Ok f else Raise ValueError
      else Raise ValueError
  | [] => Raise ValueError
  end.

(** A number in decimal, padded with zeros on the left to [width]. *)
Definition zero_padded (width : nat) (n : Z) : string :=
  let digits := Py.str_of_int n in
  Py.take (width - String.length digits) "0000" +:+ digits.

(** [dt.strftime(...)] with the format of [format_date], year, month and
    day with dashes between them, as the C library of the platform
    writes it: month and day in two digits, the year as it is, without
    zeros in front of a year below 1000. *)
Definition strftime_Y_m_d (dt : fields) : string :=
  Py.str_of_int (year dt) +:+ "-" +:+ zero_padded 2 (month dt)
  +:+ "-" +:+ zero_padded 2 (day dt).

End Datetime.

(** ** The object state and the network

    Of the attributes of [DirectMediaTransfer] the methods below read the
    site and drive identifiers and update the counters [stats] and the
    flag [current_form_naming_format], which only ever holds the texts
    "custom" and "fallback". *)

Record stats_t : Type := mk_stats {
  total_media : Z;
  transferred : Z;
  failed : Z;
  skipped : Z;
  total_size : Z
}.

Inductive naming : Type := custom | fallback.

Record DirectMediaTransfer : Type := mk_self {
  site_id : string;
  sp_drive_id : string;
  stats : stats_t;
  current_form_naming_format : naming
}.

Definition with_stats (f : stats_t -> stats_t) (self : DirectMediaTransfer)
  : DirectMediaTransfer :=
  mk_self (site_id self) (sp_drive_id self) (f (stats self))
          (current_form_naming_format self).

Definition with_naming (fmt : naming) (self : DirectMediaTransfer)
  : DirectMediaTransfer :=
  mk_self (site_id self) (sp_drive_id self) (stats self) fmt.

Definition add_total_media (k : Z) (s : stats_t) : stats_t :=
  mk_stats (total_media s + k) (transferred s) (failed s) (skipped s) (total_size s).
Definition add_transferred (k : Z) (s : stats_t) : stats_t :=
  mk_stats (total_media s) (transferred s + k) (failed s) (skipped s) (total_size s).
Definition add_failed (k : Z) (s : stats_t) : stats_t :=
  mk_stats (total_media s) (transferred s) (failed s + k) (skipped s) (total_size s).
Definition add_skipped (k : Z) (s : stats_t) : stats_t :=
  mk_stats (total_media s) (transferred s) (failed s) (skipped s + k) (total_size s).
Definition add_total_size (k : Z) (s : stats_t) : stats_t :=
  mk_stats (total_media s) (transferred s) (failed s) (skipped s) (total_size s + k).

(** The type [bytes]. *)
Abbreviation bytes := (list Byte.byte) (only parsing).

(** What the source answers to [kobo_session.get(url, stream=True)]. *)
Record kobo_response : Type := mk_kobo_response {
  raise_for_status : result unit;
  content_length : option string;            (* headers.get('content-length') *)
  content : result bytes;                    (* .content *)
  iter_content : Z -> list (result bytes)    (* .iter_content(chunk_size=...) *)
}.

(** What the destination answers to the creation of an upload session. *)
Record session_response : Type := mk_session_response {
  session_status_code : Z;
  session_json : result pyval                (* .json() *)
}.

(** The two servers.  Each call either returns or raises. *)
Record network : Type := mk_network {
  kobo_get : pyval -> result kobo_response;
  sp_put : string -> bytes -> result Z;      (* status code of the upload *)
  sp_post : string -> result session_response;
  requests_put : pyval -> list (string * string) -> bytes -> result Z
}.

(** The requests a method issues, in order (a ghost record). *)
Inductive request : Type :=
  | KoboGet (url : pyval)
  | ReadContent                              (* kobo_response.content *)
  | IterContent (chunk_size : Z)             (* kobo_response.iter_content *)
  | SpPut (url : string) (data : bytes)
  | SpPost (url : string)
  | ChunkPut (url : pyval) (headers : list (string * string)) (data : bytes).

(** ** Stateful code

    A computation reads and updates a state, issues requests, and returns
    or raises; the state reached and the requests issued are kept when it
    raises. *)

Definition M (S A : Type) : Type := S -> result A * S * list request.

Definition ret {S A : Type} (a : A) : M S A := fun s => (Ok a, s, []).

Definition raise {S A : Type} (e : exn) : M S A := fun s => (Raise e, s, []).

Definition bind {S A B : Type} (m : M S A) (k : A -> M S B) : M S B :=
  fun s =>
    match m s with
    | (Ok a, s1, log1) =>
        match k a s1 with
        | (r, s2, log2) => (r, s2, (log1 ++ log2)%list)
        end
    | (Raise e, s1, log1) => (Raise e, s1, log1)
    end.

(** [try: m  except Exception: h] *)
Definition catch {S A : Type} (m : M S A) (h : exn -> M S A) : M S A :=
  fun s =>
    match m s with
    | (Ok a, s1, log1) => (Ok a, s1, log1)
    | (Raise e, s1, log1) =>
        match h e s1 with
        | (r, s2, log2) => (r, s2, (log1 ++ log2)%list)
        end
    end.

Definition lift {S A : Type} (r : result A) : M S A := fun s => (r, s, []).

Definition get_state {S : Type} : M S S := fun s => (Ok s, s, []).

Definition modify {S : Type} (f : S -> S) : M S unit := fun s => (Ok tt, f s, []).

(** Issue a request and take the server's answer. *)
Definition call {S A : Type} (q : request) (answer : result A) : M S A :=
  fun s => (answer, s, [q]).

(** Run a computation on the first component of a larger state. *)
Definition on_self {T A : Type} (m : M DirectMediaTransfer A)
  : M (DirectMediaTransfer * T) A :=
  fun s =>
    match m (fst s) with
    | (r, self', log) => (r, (self', snd s), log)
    end.

Declare Scope M_scope.
Delimit Scope M_scope with M.
Notation "x <- m ;; k" := (bind m (fun x => k))
  (at level 100, m at next level, right associativity) : M_scope.
Notation "m ;;; k" := (bind m (fun _ => k))
  (at level 100, right associativity) : M_scope.

(** [status in codes] *)
Definition status_in (codes : list Z) (status : Z) : bool :=
  existsb (Z.eqb status) codes.

(** The parts of what a computation yields. *)
Definition returned {S A : Type} (out : result A * S * list request) : result A :=
  fst (fst out).
Definition state_after {S A : Type} (out : result A * S * list request) : S :=
  snd (fst out).
Definition requests_of {S A : Type} (out : result A * S * list request)
  : list request := snd out.

(** ** [stream_media_to_sharepoint] *)

Definition drive_root (self : DirectMediaTransfer) : string :=
  "https://graph.microsoft.com/v1.0/sites/" +:+ site_id self
  +:+ "/drives/" +:+ sp_drive_id self +:+ "/root:/".

(** The address of the file's content, and the address that creates an
    upload session for it. *)
Definition content_url (self : DirectMediaTransfer)
    (sharepoint_path filename : string) : string :=
  drive_root self +:+ sharepoint_path +:+ "/" +:+ filename +:+ ":/content".

Definition upload_session_url (self : DirectMediaTransfer)
    (sharepoint_path filename : string) : string :=
  drive_root self +:+ sharepoint_path +:+ "/" +:+ filename
  +:+ ":/createUploadSession".

(** [if content_length:] *)
Definition header_present (h : option string) : bool :=
  match h with
  | Some s => negb (String.eqb s EmptyString)
  | None => false
  end.

(** [int(content_length)] *)
Definition header_int (h : option string) : result Z :=
  match h with
  | Some s => Py.int s
  | None => Raise TypeError
  end.

(** [int(content_length) / (1024 * 1024)]: the quotient of two integers
    as a float.  The quotient is rounded to the nearest double, and one
    that rounds to [2^1024] or beyond is an [OverflowError]: that is a
    length of [2^1044 - 2^990] or more, in absolute value.  The float
    itself is only printed. *)
Definition float_bound : Z := 2 ^ 1044 - 2 ^ 990.

Definition size_mb (n : Z) : result unit :=
  if Z.abs n <? float_bound then Ok tt else Raise OverflowError.

Definition small_file_limit : Z := 4 * 1024 * 1024.
Definition chunk_size : Z := 320 * 1024.

Definition content_range (offset chunk_length file_size : Z) : string :=
  "bytes " +:+ Py.str_of_int offset +:+ "-"
  +:+ Py.str_of_int (offset + chunk_length - 1) +:+ "/" +:+ Py.str_of_int file_size.

Definition blen (b : bytes) : Z := Z.of_nat (List.length b).

(** The loop over the chunks of the body.  It returns [false] when it has
    left the method with [return False], [true] when it has run to its
    end. *)
Fixpoint upload_chunks (net : network) (upload_url : pyval) (file_size : Z)
    (chunks : list (result bytes)) (offset : Z) : M DirectMediaTransfer bool :=
  match chunks with
  | [] => ret true
  | next :: chunks' =>
      (chunk <- lift next ;;
       match chunk with
       | [] => upload_chunks net upload_url file_size chunks' offset
       | _ =>
           let chunk_length := blen chunk in
           let headers :=
             [("Content-Length", Py.str_of_int chunk_length);
              ("Content-Range", content_range offset chunk_length file_size)] in
           status <- call (ChunkPut upload_url headers chunk)
                          (requests_put net upload_url headers chunk) ;;
           if negb (status_in [200; 201; 202] status) then
             (modify (with_stats (add_failed 1)) ;;; ret false)
           else upload_chunks net upload_url file_size chunks' (offset + chunk_length)
       end)%M
  end.

(** The body of the [try] block. *)
Definition stream_media_body (net : network) (media_url : pyval)
    (sharepoint_path filename : string) : M DirectMediaTransfer bool :=
  (kobo_response <- call (KoboGet media_url) (kobo_get net media_url) ;;
   _ <- lift (raise_for_status kobo_response) ;;
   let content_length := content_length kobo_response in
   _ <- (if header_present content_length
         then (n <- lift (header_int content_length) ;; lift (size_mb n))
         else ret tt) ;;
   self <- get_state ;;
   let upload_url := content_url self sharepoint_path filename in
   small <- (if header_present content_length
             then (n <- lift (header_int content_length) ;; ret (n <? small_file_limit))
             else ret false) ;;
   if small then
     (content <- call ReadContent (content kobo_response) ;;
      status <- call (SpPut upload_url content) (sp_put net upload_url content) ;;
      if status_in [200; 201] status then
        (modify (with_stats (add_transferred 1)) ;;;
         modify (with_stats (add_total_size (blen content))) ;;;
         ret true)
      else
        (modify (with_stats (add_failed 1)) ;;; ret false))
   else
     (let session_url := upload_session_url self sharepoint_path filename in
      session_response <- call (SpPost session_url) (sp_post net session_url) ;;
      if negb (session_status_code session_response =? 200) then
        (content <- call ReadContent (content kobo_response) ;;
         status <- call (SpPut upload_url content) (sp_put net upload_url content) ;;
         if status_in [200; 201] status then
           (modify (with_stats (add_transferred 1)) ;;;
            modify (with_stats (add_total_size (blen content))) ;;;
            ret true)
         else
           (modify (with_stats (add_failed 1)) ;;; ret false))
      else
        (session <- lift (session_json session_response) ;;
         upload_url <- lift (Val.getitem session "uploadUrl") ;;
         file_size <- (if header_present content_length
                       then lift (header_int content_length) else ret 0) ;;
         chunks <- call (IterContent chunk_size)
                        (Ok (iter_content kobo_response chunk_size)) ;;
         completed <- upload_chunks net upload_url file_size chunks 0 ;;
         if completed then
           (modify (with_stats (add_transferred 1)) ;;;
            modify (with_stats (add_total_size file_size)) ;;;
            ret true)
         else ret false)))%M.

Definition stream_media_to_sharepoint (net : network) (media_url : pyval)
    (sharepoint_path filename : string) : M DirectMediaTransfer bool :=
  catch (stream_media_body net media_url sharepoint_path filename)
        (fun _ => (modify (with_stats (add_failed 1)) ;;; ret false)%M).

(** ** [extract_urls_fallback] and [parse_attachments] *)

(** The character class of the URL pattern: anything but whitespace, a
    comma, a single or double quote, a closing brace or a closing
    bracket. *)
Definition url_char (c : ascii) : bool :=
  negb (Py.isspace c || (c =? ",")%char || (c =? Py.squote)%char
        || (c =? Py.dquote)%char || (c =? "}")%char || (c =? "]")%char).

(** The pattern [https?://C+(?:\.C+)+] with [C] the class above. *)
Definition url_pattern : Re.regex :=
  Re.Cat (Re.Lit "h" "ttp")
    (Re.Cat (Re.Opt (Re.Chr (Re.is_char "s")))
       (Re.Cat (Re.Lit ":" "//")
          (Re.Cat (Re.Plus (Re.Chr url_char))
             (Re.Plus (Re.Cat (Re.Chr (Re.is_char ".")) (Re.Plus (Re.Chr url_char))))))).

(** [any(ext in text.lower() for ext in exts)] *)
Definition any_in_lower (exts : list string) (text : string) : bool :=
  existsb (fun ext => Py.contains ext (Py.lower text)) exts.

(** [url.split('/')[-1].split('?')[0] or default] *)
Definition url_filename (url default : string) : string :=
  let name := hd EmptyString (Py.split "?" (Py.last_item (Py.split "/" url))) in
  if String.eqb name EmptyString then default else name.

Definition extract_urls_fallback (text : string) : list pyval :=
  let found_urls := Re.findall url_pattern text in
  flat_map
    (fun url =>
       let url := Py.rstrip (Py.str1 Py.squote)
                    (Py.rstrip (Py.str1 Py.dquote)
                       (Py.rstrip (Py.str1 Py.backslash) url)) in
       if any_in_lower [".jpg"; ".jpeg"; ".png"; ".gif"; ".pdf"; ".mp4"] url
       then [PDict [("download_url", PStr url);
                    ("filename", PStr (url_filename url "media_file"))]]
       else [])
    found_urls.

(** The statements that follow a successful [json.loads]. *)
Definition ensure_list (attachments : pyval) : list pyval :=
  match attachments with
  | PDict _ => [attachments]
  | PList l => l
  | _ => []
  end.

Definition parse_attachments (attachments_str : string) : result (list pyval) :=
  if String.eqb attachments_str EmptyString
     || String.eqb (Py.strip attachments_str) EmptyString
     || String.eqb attachments_str "nan"
  then Ok []
  else
    try_except
      (let cleaned_str := Py.strip attachments_str in
       let q := Py.str1 Py.dquote in
       let cleaned_str :=
         if Py.startswith "[" cleaned_str && Py.endswith "]" cleaned_str
         then cleaned_str
         else if Py.startswith (q +:+ "[") cleaned_str
                 && Py.endswith ("]" +:+ q) cleaned_str
         then Py.slice_1_m1 cleaned_str
         else if Py.startswith q cleaned_str && Py.endswith q cleaned_str
         then Py.slice_1_m1 cleaned_str
         else cleaned_str in
       let cleaned_str := Py.replace (String Py.backslash q) q cleaned_str in
       let cleaned_str := Py.replace (String Py.backslash "/") "/" cleaned_str in
       match Json.loads cleaned_str with
       | Ok attachments => Ok (ensure_list attachments)
       | Raise e =>
           if is_JSONDecodeError e then
             let cleaned_str := Py.replace (Py.str1 Py.squote) q cleaned_str in
             match Json.loads cleaned_str with
             | Ok attachments => Ok (ensure_list attachments)
             | Raise e' =>
                 if is_JSONDecodeError e'
                 then Ok (extract_urls_fallback attachments_str)
                 else Raise e'
             end
           else Raise e
       end)
      (fun _ => Ok (extract_urls_fallback attachments_str)).

(** ** [sanitize_filename] and [get_download_url] *)

(** The class [[^\w.-]]. *)
Definition unsafe_char (c : ascii) : bool :=
  negb (Py.isword c || (c =? ".")%char || (c =? "-")%char).

Definition sanitize_filename (filename : string) : string :=
  let safe_filename := Re.sub (Re.Chr unsafe_char) "_" filename in
  if (100 <? Py.len safe_filename) then
    let (name, ext) := Py.splitext safe_filename in
    Py.take 95 name +:+ ext
  else safe_filename.

Definition url_keys : list string :=
  ["download_large_url"; "download_url"; "download_medium_url"].

Fixpoint first_url (keys : list string) (attachment : pyval) : result pyval :=
  match keys with
  | [] => Ok PNone
  | key :: keys' =>
      (present <- Val.contains_key key attachment ;;
       if present then
         (value <- Val.getitem attachment key ;;
          if Val.truthy value then Val.getitem attachment key
          else first_url keys' attachment)
       else first_url keys' attachment)%result
  end.

Definition get_download_url (attachment : pyval) : result pyval :=
  first_url url_keys attachment.

(** ** [format_date], [clean_text_for_filename] and [create_filename] *)

Definition date_formats : list (list Datetime.directive) :=
  let Y_m_d := [Datetime.dY; Datetime.lit "-"; Datetime.dm; Datetime.lit "-";
                Datetime.dd] in
  let H_M_S := [Datetime.dH; Datetime.lit ":"; Datetime.dM; Datetime.lit ":";
                Datetime.dS] in
  [ Y_m_d;
    [Datetime.dm; Datetime.lit "/"; Datetime.dd; Datetime.lit "/"; Datetime.dY];
    [Datetime.dd; Datetime.lit "/"; Datetime.dm; Datetime.lit "/"; Datetime.dY];
    (Y_m_d ++ [Datetime.space] ++ H_M_S)%list;
    (Y_m_d ++ [Datetime.lit "T"] ++ H_M_S)%list;
    (Y_m_d ++ [Datetime.lit "T"] ++ H_M_S ++ [Datetime.lit "."; Datetime.df])%list ].

(** [date_str.strip()], a method of [str] only. *)
Definition method_strip (v : pyval) : result string :=
  match v with
  | PStr s => Ok (Py.strip s)
  | _ => Raise AttributeError
  end.

(** The argument of [re.search] must be a string. *)
Definition as_str (v : pyval) : result string :=
  match v with
  | PStr s => Ok s
  | _ => Raise TypeError
  end.

(** The pattern [(\d{4})-(\d{2})-(\d{2})]. *)
Definition iso_date_pattern : Re.regex :=
  let d := Re.Chr Py.isdecimal in
  let dash := Re.Chr (Re.is_char "-") in
  Re.Cat d (Re.Cat d (Re.Cat d (Re.Cat d
    (Re.Cat dash (Re.Cat d (Re.Cat d (Re.Cat dash (Re.Cat d d)))))))).

(** The loop over the formats, then the search for a date in the text. *)
Fixpoint try_formats (date_str : pyval) (formats : list (list Datetime.directive))
  : result string :=
  match formats with
  | fmt :: formats' =>
      match (text <- method_strip date_str ;;
             dt <- Datetime.strptime text fmt ;;
             Ok (Datetime.strftime_Y_m_d dt))%result with
      | Ok formatted => Ok formatted
      | Raise e => if is_ValueError e then try_formats date_str formats' else Raise e
      end
  | [] =>
      (text <- as_str date_str ;;
       match Re.search iso_date_pattern text with
       | Some m =>
           (* the three groups are the characters 0-3, 5-6 and 8-9 *)
           Ok (Py.take 4 m +:+ "-" +:+ Py.take 2 (Py.drop 5 m)
               +:+ "-" +:+ Py.take 2 (Py.drop 8 m))
       | None => Ok EmptyString
       end)%result
  end.

Definition format_date (date_str : pyval) : string :=
  if negb (Val.truthy date_str) then EmptyString
  else
    match try_formats date_str date_formats with
    | Ok formatted => formatted
    | Raise _ => EmptyString
    end.

Definition filename_char (c : ascii) : bool :=
  Py.isalnum c || Py.char_in c "_-".

Definition clean_text_for_filename (text : pyval) : result string :=
  if negb (Val.truthy text) then Ok EmptyString
  else
    match text with
    | PStr s =>
        let cleaned :=
          Py.replace (Py.str1 Py.backslash) "_"
            (Py.replace "/" "_" (Py.replace " " "_" s)) in
        Ok (Py.filter_chars filename_char cleaned)
    | _ => Raise AttributeError
    end.

Definition safe_char (c : ascii) : bool :=
  Py.isalnum c || Py.char_in c "._-".

Definition nonempty (s : string) : bool := negb (String.eqb s EmptyString).

(** The body of the [try] block: the name, and the value given to the
    flag. *)
Definition create_filename_body (row_data : pyval) (row_num : Z)
    (base_filename date_column type_column : string) : result (string * naming) :=
  (date_value <- Val.get row_data date_column (PStr EmptyString) ;;
   receipt_type <- Val.get row_data type_column (PStr EmptyString) ;;
   let formatted_date := format_date date_value in
   clean_receipt_type <- clean_text_for_filename receipt_type ;;
   let file_ext :=
     let ext := snd (Py.splitext base_filename) in
     if nonempty ext then ext else ".jpg" in
   let (custom_name, fmt) :=
     if nonempty formatted_date && nonempty clean_receipt_type
     then (formatted_date +:+ "_" +:+ clean_receipt_type +:+ "_"
           +:+ Py.str_of_int row_num +:+ file_ext, custom)
     else ("row" +:+ Py.str_of_int row_num +:+ "_" +:+ base_filename, fallback) in
   Ok (Py.filter_chars safe_char custom_name, fmt))%result.

Definition create_filename (row_data : pyval) (row_num : Z)
    (base_filename date_column type_column : string)
    (self : DirectMediaTransfer) : string * DirectMediaTransfer :=
  match create_filename_body row_data row_num base_filename date_column type_column with
  | Ok (safe_name, fmt) => (safe_name, with_naming fmt self)
  | Raise _ =>
      ("row" +:+ Py.str_of_int row_num +:+ "_" +:+ base_filename,
       with_naming fallback self)
  end.

(** ** [is_file_already_uploaded]

    The catalog maps a form folder to the set of file names found in it.
    Neither [try] block of the method can raise: the second field of the
    split is only read when the last part holds a dot, and a split has a
    first field. *)

Definition row_suffix (filename : string) : string :=
  let parts := Py.split "_" filename in
  let row_num_part := Py.last_item parts in
  let row_num := hd EmptyString (Py.split "." row_num_part) in
  let file_ext :=
    if Py.contains "." row_num_part
    then "." +:+ nth 1 (Py.split "." row_num_part) EmptyString
    else EmptyString in
  "_" +:+ row_num +:+ file_ext.

Definition row_prefix (filename : string) : string :=
  let row_part := hd EmptyString (Py.split "_" filename) in
  let row_num := Py.drop 3 row_part in
  "row" +:+ row_num +:+ "_".

Definition is_file_already_uploaded (self : DirectMediaTransfer)
    (filename form_name : string) (existing_files : gmap string (gset string)) : bool :=
  match existing_files !! form_name with
  | Some files =>
      if bool_decide (filename ∈ files) then true
      else
        match current_form_naming_format self with
        | custom =>
            let parts := Py.split "_" filename in
            if (3 <=? List.length parts)%nat then
              existsb (fun existing_file => Py.endswith (row_suffix filename) existing_file)
                      (elements files)
            else false
        | fallback =>
            if Py.startswith "row" filename then
              existsb (fun existing_file => Py.startswith (row_prefix filename) existing_file)
                      (elements files)
              || bool_decide (filename ∈ files)
            else false
        end
  | None => false
  end.

(** ** [process_form_media]

    The submissions of the form are an argument: fetching them is the
    business of [fetch_form_data_safe].  [create_sharepoint_folder] only
    talks to the destination, catches its own exceptions, and its result
    is not used; its calls are left out.  The counters of the form,
    [form_stats], are a dict the loops update in place, so they are part
    of the state. *)

Record form_stats_t : Type := mk_form_stats {
  processed : Z;
  form_failed : Z;
  form_skipped : Z
}.

Definition add_processed (k : Z) (f : form_stats_t) : form_stats_t :=
  mk_form_stats (processed f + k) (form_failed f) (form_skipped f).
Definition add_form_failed (k : Z) (f : form_stats_t) : form_stats_t :=
  mk_form_stats (processed f) (form_failed f + k) (form_skipped f).
Definition add_form_skipped (k : Z) (f : form_stats_t) : form_stats_t :=
  mk_form_stats (processed f) (form_failed f) (form_skipped f + k).

(** An entry of [media_urls]. *)
Record media_t : Type := mk_media {
  media_url : pyval;
  media_filename : pyval
}.

Definition form_state : Type := (DirectMediaTransfer * form_stats_t)%type.

Definition on_form_stats (f : form_stats_t -> form_stats_t) : M form_state unit :=
  modify (fun s : form_state => (fst s, f (snd s))).

(** The loop over the parsed attachments. *)
Fixpoint media_of_attachments (attachments : list pyval) (row_num : Z)
  : result (list media_t) :=
  match attachments with
  | [] => Ok []
  | att :: attachments' =>
      (url <- get_download_url att ;;
       if Val.truthy url then
         (filename <- Val.get att "filename" (PStr ("media_" +:+ Py.str_of_int row_num)) ;;
          more <- media_of_attachments attachments' row_num ;;
          Ok (mk_media url filename :: more))
       else media_of_attachments attachments' row_num)%result
  end.

(** The URLs found in the text itself. *)
Definition media_of_text (value_str : string) (row_num : Z) : list media_t :=
  flat_map
    (fun url =>
       if any_in_lower [".jpg"; ".jpeg"; ".png"; ".pdf"; ".mp4"] url
       then [mk_media (PStr url)
               (PStr (url_filename url ("media_" +:+ Py.str_of_int row_num)))]
       else [])
    (Re.findall url_pattern value_str).

(** The media a field value refers to: the list [media_urls]. *)
Definition find_media (value_str : string) (row_num : Z) : result (list media_t) :=
  (media_urls <-
     (if Py.contains "[" value_str || Py.contains "{" value_str
      then (attachments <- parse_attachments value_str ;;
            media_of_attachments attachments row_num)
      else Ok []) ;;
   match media_urls with
   | [] => if Py.contains "http" value_str
           then Ok (media_of_text value_str row_num)
           else Ok []
   | _ => Ok media_urls
   end)%result.

(** [if existing_files and ...]: an empty catalog (or none) is false. *)
Definition catalog_given (existing_files : gmap string (gset string)) : bool :=
  negb (bool_decide (existing_files = ∅)).

(** The body of the loop over [media_urls], for one entry. *)
Definition process_media (net : network)
    (existing_files : gmap string (gset string))
    (safe_form_name col_folder : string) (submission : pyval) (row_num : Z)
    (media : media_t) : M form_state unit :=
  (on_self (modify (with_stats (add_total_media 1))) ;;;
   raw_name <- lift (as_str (media_filename media)) ;;
   let base_name := sanitize_filename raw_name in
   filename <- on_self (fun self =>
                 let (name, self') :=
                   create_filename submission row_num base_name "Date" "Receipt_Type" self in
                 (Ok name, self', [])) ;;
   state <- get_state ;;
   if catalog_given existing_files
      && is_file_already_uploaded (fst state) filename safe_form_name existing_files
   then
     (on_form_stats (add_form_skipped 1) ;;;
      on_self (modify (with_stats (add_skipped 1))))
   else
     (success <- on_self (stream_media_to_sharepoint net (media_url media)
                            col_folder filename) ;;
      if success then on_form_stats (add_processed 1)
      else on_form_stats (add_form_failed 1)))%M.

Fixpoint process_media_list (net : network)
    (existing_files : gmap string (gset string))
    (safe_form_name col_folder : string) (submission : pyval) (row_num : Z)
    (media_urls : list media_t) : M form_state unit :=
  match media_urls with
  | [] => ret tt
  | media :: media_urls' =>
      (process_media net existing_files safe_form_name col_folder
         submission row_num media ;;;
       process_media_list net existing_files safe_form_name col_folder
         submission row_num media_urls')%M
  end.

(** The classes [[^\w-]] and [[^\w\s-]]. *)
Definition not_word_dash (c : ascii) : bool :=
  negb (Py.isword c || (c =? "-")%char).
Definition not_word_space_dash (c : ascii) : bool :=
  negb (Py.isword c || Py.isspace c || (c =? "-")%char).

(** The body of the [try] block of one column. *)
Definition process_column (net : network)
    (existing_files : gmap string (gset string))
    (safe_form_name form_folder : string) (submission : pyval) (row_num : Z)
    (col_name : string) (col_value : pyval) : M form_state unit :=
  if negb (Val.truthy col_value) then ret tt
  else
    let value_str := Val.str col_value in
    if negb (any_in_lower ["http"; "attachment"; ".jpg"; ".jpeg"; ".png"; ".pdf"]
                          value_str)
    then ret tt
    else
      (media_urls <- lift (find_media value_str row_num) ;;
       match media_urls with
       | [] => ret tt
       | _ =>
           let col_folder_name :=
             Py.take 50 (Re.sub (Re.Chr not_word_dash) "_" col_name) in
           let col_folder := form_folder +:+ "/" +:+ col_folder_name in
           process_media_list net existing_files safe_form_name col_folder
             submission row_num media_urls
       end)%M.

(** The loop over the columns of a submission; an exception in a column
    moves on to the next one. *)
Fixpoint process_columns (net : network)
    (existing_files : gmap string (gset string))
    (safe_form_name form_folder : string) (submission : pyval) (row_num : Z)
    (items : list (string * pyval)) : M form_state unit :=
  match items with
  | [] => ret tt
  | (col_name, col_value) :: items' =>
      (catch (process_column net existing_files safe_form_name form_folder
                submission row_num col_name col_value)
             (fun _ => ret tt) ;;;
       process_columns net existing_files safe_form_name form_folder
         submission row_num items')%M
  end.

(** The loop over the submissions, numbered from [row_num]. *)
Fixpoint process_submissions (net : network)
    (existing_files : gmap string (gset string))
    (safe_form_name form_folder : string) (data : list pyval) (row_num : Z)
  : M form_state unit :=
  match data with
  | [] => ret tt
  | submission :: data' =>
      (match submission with
       | PDict items =>
           process_columns net existing_files safe_form_name form_folder
             submission row_num items
       | _ => ret tt
       end ;;;
       process_submissions net existing_files safe_form_name form_folder
         data' (row_num + 1))%M
  end.

(** The method proper.  With the submissions given as a list nothing
    outside the columns' [try] blocks can raise, so that the handler of
    the outer [try] has no part to play. *)
Definition process_form_media (net : network) (data : list pyval)
    (form_name main_folder : string)
    (existing_files : gmap string (gset string))
    (self : DirectMediaTransfer)
  : form_stats_t * DirectMediaTransfer * list request :=
  let self := with_naming fallback self in
  match data with
  | [] => (mk_form_stats 0 0 0, self, [])
  | first_submission :: _ =>
      let (test_filename, self) :=
        create_filename first_submission 1 "test.jpg" "Date" "Receipt_Type" self in
      let safe_form_name := Re.sub (Re.Chr not_word_space_dash) "_" form_name in
      let form_folder := main_folder +:+ "/" +:+ safe_form_name in
      match process_submissions net existing_files safe_form_name form_folder
              data 1 (self, mk_form_stats 0 0 0) with
      | (_, (self', form_stats), log) => (form_stats, self', log)
      end
  end.

(** ** Notions used to state the properties of the transfer *)

(** The length the source declares: none when the header is absent or
    empty, else the integer it spells. *)
Definition declared_length (h : option string) : result (option Z) :=
  if header_present h
  then match header_int h with
       | Ok n => Ok (Some n)
       | Raise e => Raise e
       end
  else Ok None.

(** The strategy a transfer follows shows in what it does right after the
    request to the source: it either reads the whole body, or asks the
    destination for an upload session. *)
Definition single_shot_path (log : list request) : bool :=
  match log with
  | KoboGet _ :: ReadContent :: _ => true
  | _ => false
  end.


(** The number of bytes sent in chunks by the requests of [log]. *)
Fixpoint chunk_bytes (log : list request) : Z :=
  match log with
  | [] => 0
  | ChunkPut _ _ data :: log' => blen data + chunk_bytes log'
  | _ :: log' => chunk_bytes log'
  end.

(** The same response with another declared length. *)
Definition with_content_length (h : option string) (r : kobo_response)
  : kobo_response :=
  mk_kobo_response (raise_for_status r) h (content r) (iter_content r).

(** The same network, the source answering [r] to every request. *)
Definition answering (r : kobo_response) (net : network) : network :=
  mk_network (fun _ => Ok r) (sp_put net) (sp_post net) (requests_put net).

(** The headers of a chunk of [chunk_length] bytes sent at [offset]. *)
Definition chunk_headers (offset chunk_length file_size : Z)
  : list (string * string) :=
  [("Content-Length", Py.str_of_int chunk_length);
   ("Content-Range",
    "bytes " +:+ Py.str_of_int offset +:+ "-"
    +:+ Py.str_of_int (offset + chunk_length - 1)
    +:+ "/" +:+ Py.str_of_int file_size)].

(** The chunk requests of [log] carry the byte ranges of a running
    offset that starts at [offset]: each range starts where the previous
    chunk ended. *)
Fixpoint running_ranges (offset file_size : Z) (log : list request) : Prop :=
  match log with
  | [] => True
  | ChunkPut _ headers data :: log' =>
      headers = chunk_headers offset (blen data) file_size
      /\ running_ranges (offset + blen data) file_size log'
  | _ :: log' => running_ranges offset file_size log'
  end.

(** Every chunk request of [log] sends one of [chunks], and not an empty
    one. *)
Definition sends_chunks_of (chunks : list (result bytes)) (log : list request)
  : Prop :=
  forall url headers data,
    In (ChunkPut url headers data) log -> In (Ok data) chunks /\ data <> [].

(** A declared length whose size in MiB is a float: its absolute value
    is below [float_bound]. *)
Definition size_is_float (len : option Z) : Prop :=
  forall n, len = Some n -> Z.abs n < float_bound.



(** A transfer that has failed after the requests of [log]. *)
Definition failed_after (self : DirectMediaTransfer) (log : list request)
  : result bool * DirectMediaTransfer * list request :=
  (Ok false, with_stats (add_failed 1) self, log).

(** What becomes of a transfer that, after the requests of [before],
    reads the whole body and uploads it in one request. *)
Definition whole_body_upload (net : network) (resp : kobo_response)
    (upload_url : string) (self : DirectMediaTransfer) (before : list request)
  : result bool * DirectMediaTransfer * list request :=
  match content resp with
  | Raise _ => failed_after self (before ++ [ReadContent])
  | Ok data =>
      let log := (before ++ [ReadContent; SpPut upload_url data])%list in
      match sp_put net upload_url data with
      | Raise _ => failed_after self log
      | Ok status =>
          if status_in [200; 201] status
          then (Ok true,
                with_stats (add_total_size (blen data))
                  (with_stats (add_transferred 1) self),
                log)
          else failed_after self log
      end
  end.

(** What becomes of a transfer that, after the requests of [before],
    sends the body in chunks to [chunk_url]. *)
Definition chunked_upload (net : network) (resp : kobo_response)
    (chunk_url : pyval) (file_size : Z) (self : DirectMediaTransfer)
    (before : list request)
  : result bool * DirectMediaTransfer * list request :=
  let loop :=
    upload_chunks net chunk_url file_size (iter_content resp chunk_size) 0 self in
  let log := (before ++ IterContent chunk_size :: requests_of loop)%list in
  match returned loop with
  | Ok true =>
      (Ok true,
       with_stats (add_total_size file_size) (with_stats (add_transferred 1) self),
       log)
  | _ => failed_after self log
  end.

(** [session_response.json()['uploadUrl']] *)
Definition upload_address (session : session_response) : result pyval :=
  (json <- session_json session ;; Val.getitem json "uploadUrl")%result.


(** The characters of a number in decimal. *)
Definition digit_or_minus (c : ascii) : bool :=
  Py.isdecimal c || (c =? "-")%char.

(** ** Sample data for the worked instances *)

Definition sample_self : DirectMediaTransfer :=
  mk_self "S" "D" (mk_stats 0 0 0 0 0) fallback.

Definition sample_body : bytes := [Byte.x01; Byte.x02; Byte.x03].

(** A source that declares the length [h] and serves three bytes. *)
Definition sample_response (h : option string) : kobo_response :=
  mk_kobo_response (Ok tt) h (Ok sample_body) (fun _ => [Ok sample_body]).

Definition sample_session (status : Z) : session_response :=
  mk_session_response status (Ok (PDict [("uploadUrl", PStr "http://up")])).

(** A source as above and a destination that answers an upload with
    [put_status], the creation of a session with [session_status] and a
    chunk with [chunk_status]. *)
Definition sample_network (h : option string)
    (put_status session_status chunk_status : Z) : network :=
  mk_network (fun _ => Ok (sample_response h))
             (fun _ _ => Ok put_status)
             (fun _ => Ok (sample_session session_status))
             (fun _ _ _ => Ok chunk_status).

(** ** Notions used to state the properties of the file names *)

(** The normalized date of a record: what [format_date] makes of the
    date field, and nothing when the record has no such field or is not
    a record. *)
Definition normalized_date (row_data : pyval) (date_column : string) : string :=
  match Val.get row_data date_column (PStr EmptyString) with
  | Ok date_value => format_date date_value
  | Raise _ => EmptyString
  end.

(** The normalized category: what [clean_text_for_filename] makes of the
    category field, and nothing when it cannot be cleaned. *)
Definition normalized_category (row_data : pyval) (type_column : string) : string :=
  match Val.get row_data type_column (PStr EmptyString) with
  | Ok receipt_type =>
      match clean_text_for_filename receipt_type with
      | Ok cleaned => cleaned
      | Raise _ => EmptyString
      end
  | Raise _ => EmptyString
  end.

(** The extension of a base file name, [.jpg] when it has none. *)
Definition extension_or_jpg (base_filename : string) : string :=
  let ext := snd (Py.splitext base_filename) in
  if nonempty ext then ext else ".jpg".

(** The characters [sanitize_filename] lets through. *)
Definition sanitized_char (c : ascii) : bool := negb (unsafe_char c).

(** ** Notions used to state the properties of the extraction *)

(** The value of [key] in an attachment when it is there and true. *)
Definition usable_url (d : list (string * pyval)) (key : string) : option pyval :=
  match Val.dict_get d key with
  | Some value => if Val.truthy value then Some value else None
  | None => None
  end.

(** The download address by order of preference: large, default, medium. *)
Definition preferred_url (d : list (string * pyval)) : option pyval :=
  match usable_url d "download_large_url" with
  | Some url => Some url
  | None =>
      match usable_url d "download_url" with
      | Some url => Some url
      | None => usable_url d "download_medium_url"
      end
  end.

(** The candidate an attachment record gives rise to, if any. *)
Definition candidate_of (row_num : Z) (d : list (string * pyval)) : list media_t :=
  match preferred_url d with
  | Some url =>
      [mk_media url
         (match Val.dict_get d "filename" with
          | Some name => name
          | None => PStr ("media_" +:+ Py.str_of_int row_num)
          end)]
  | None => []
  end.

(** The text [parse_attachments] decodes: the field value without the
    white space around it, without the double quotes around it unless it
    is an array as it stands, and with escaped double quotes and escaped
    slashes written plainly. *)
Definition unwrapped (attachments_str : string) : string :=
  let q := Py.str1 Py.dquote in
  let text := Py.strip attachments_str in
  let inner :=
    if Py.startswith "[" text && Py.endswith "]" text then text
    else if Py.startswith q text && Py.endswith q text then Py.slice_1_m1 text
    else text in
  Py.replace (String Py.backslash "/") "/"
    (Py.replace (String Py.backslash q) q inner).

(** The value the field stands for: what the unwrapped text decodes to,
    or, when that is no JSON, what it decodes to with double quotes for
    its single quotes. *)
Definition decoded (attachments_str : string) : option pyval :=
  match Json.loads (unwrapped attachments_str) with
  | Ok attachments => Some attachments
  | Raise e =>
      if is_JSONDecodeError e then
        match Json.loads (Py.replace (Py.str1 Py.squote) (Py.str1 Py.dquote)
                            (unwrapped attachments_str)) with
        | Ok attachments => Some attachments
        | Raise _ => None
        end
      else None
  end.

(** The brackets and braces that open an array or an object. *)
Definition opening (c : ascii) : bool := (c =? "[")%char || (c =? "{")%char.

(** A text that cannot nest arrays and objects deeper than a hundred
    levels, far from the depth at which the interpreter stops the
    decoder, and that names no character by its number. *)
Definition plain_json_text (s : string) : Prop :=
  (String.length (Py.filter_chars opening s) <= 100)%nat
  /\ Py.contains (String Py.backslash "u") s = false.

(** The markers a field value is screened for before it is parsed. *)
Definition media_markers : list string :=
  ["http"; "attachment"; ".jpg"; ".jpeg"; ".png"; ".pdf"].

(** ** Notions used to state the properties of the processing of a form *)

(** The scheme of the name [create_filename] derives for a record. *)
Definition scheme_of (row_data : pyval) : naming :=
  if nonempty (normalized_date row_data "Date")
     && nonempty (normalized_category row_data "Receipt_Type")
  then custom else fallback.

(** A form of two submissions, the first with a date and a category, the
    second without, each with one photo. *)
Definition sample_form : list pyval :=
  [PDict [("Date", PStr "2025-06-26"); ("Receipt_Type", PStr "Fuel");
          ("photo", PStr "http://x/a.jpg")];
   PDict [("photo", PStr "http://x/b.jpg")]].

(** A catalog that knows one file of the form, named by the fallback
    scheme for row 2. *)
Definition sample_catalog : gmap string (gset string) :=
  {[ "Form" := {[ "row2_old.jpg" ]} ]}.

(** ** The Graph and Kobo interfaces of the other methods

    The methods below talk to the two servers through plain requests: a
    request returns a response or raises, and a response has a status
    code, a body that [.json()] decodes or refuses, and a text.  The
    requests a method issues are recorded in order. *)

Record response : Type := mk_response {
  status_code : Z;
  json : result pyval;                       (* .json() *)
  text : string                              (* .text *)
}.

Record graph : Type := mk_graph {
  sp_get : string -> result response;        (* sp_session.get(url) *)
  sp_post_json : string -> pyval -> result response
                                             (* sp_session.post(url, json=...) *)
}.

Inductive graph_request : Type :=
  | SpGet (url : string)
  | SpPostJson (url : string) (body : pyval)
  | KoboSessionGet (url : string).

(** [for x in v]: the elements of a list, the keys of a dict, the
    characters of a text; other values of JSON cannot be iterated. *)
Definition iterate_value (v : pyval) : result (list pyval) :=
  match v with
  | PList l => Ok l
  | PDict d => Ok (map (fun kv => PStr (fst kv)) d)
  | PStr s => Ok (map (fun c => PStr (Py.str1 c)) (list_ascii_of_string s))
  | _ => Raise TypeError
  end.

(** [response.json().get('value', [])], ready for a [for] loop. *)
Definition items_of (r : response) : result (list pyval) :=
  (body <- json r ;;
   value <- Val.get body "value" (PList []) ;;
   iterate_value value)%result.

(** [item.get('folder')] as a condition. *)
Definition is_folder (item : pyval) : result bool :=
  (folder <- Val.get item "folder" PNone ;; Ok (Val.truthy folder))%result.

(** The address of the drive, and that of the children of a folder. *)
Definition drive (self : DirectMediaTransfer) : string :=
  "https://graph.microsoft.com/v1.0/sites/" +:+ site_id self
  +:+ "/drives/" +:+ sp_drive_id self.

Definition children_url (self : DirectMediaTransfer) (folder_path : string)
  : string :=
  drive self +:+ "/root:/" +:+ folder_path +:+ ":/children".

Definition root_children_url (self : DirectMediaTransfer) : string :=
  drive self +:+ "/root/children".

(** ** [create_sharepoint_folder] *)

Definition folder_data (folder_name : string) : pyval :=
  PDict [("name", PStr folder_name);
         ("folder", PDict []);
         ("@microsoft.graph.conflictBehavior", PStr "replace")].

(** [parts[:-1]] *)
Definition all_but_last (parts : list string) : list string := removelast parts.

(** The address the folder is created at: the children of its parent, or
    those of the root when it has no parent. *)
Definition create_url (self : DirectMediaTransfer) (parts : list string) : string :=
  let parent_path :=
    if (1 <? List.length parts)%nat then Py.join "/" (all_but_last parts)
    else EmptyString in
  if nonempty parent_path then children_url self parent_path
  else root_children_url self.

(** The loop over the parts of the path; [parts] are the parts still to
    come and [current_path] is the path made of the parts passed. *)
Fixpoint create_levels (g : graph) (self : DirectMediaTransfer)
    (folder_path : string) (all_parts parts : list string) (current_path : string)
  : result unit * list graph_request :=
  match parts with
  | [] => (Ok tt, [])
  | part :: parts' =>
      let current_path :=
        if nonempty current_path then current_path +:+ "/" +:+ part else part in
      if String.eqb current_path folder_path then
        let folder_name := Py.last_item all_parts in
        let url := create_url self all_parts in
        match sp_post_json g url (folder_data folder_name) with
        | Ok _ =>
            match create_levels g self folder_path all_parts parts' current_path with
            | (r, log) => (r, SpPostJson url (folder_data folder_name) :: log)
            end
        | Raise e => (Raise e, [SpPostJson url (folder_data folder_name)])
        end
      else create_levels g self folder_path all_parts parts' current_path
  end.

Definition create_sharepoint_folder (g : graph) (self : DirectMediaTransfer)
    (folder_path : string) : bool * list graph_request :=
  let url := drive self +:+ "/root:/" +:+ folder_path in
  match sp_get g url with
  | Raise _ => (false, [SpGet url])
  | Ok check_response =>
      if status_code check_response =? 200 then (true, [SpGet url])
      else
        let parts := Py.split "/" folder_path in
        match create_levels g self folder_path parts parts EmptyString with
        | (Ok _, log) => (true, SpGet url :: log)
        | (Raise _, log) => (false, SpGet url :: log)
        end
  end.

(** ** [fetch_form_data_safe]

    [csv.DictReader] is not modelled: [DictReader] stands for the rows it
    reads from a text, or the exception it raises. *)

Definition kobo_api : Type := string -> result response.   (* kobo_session.get *)

Definition data_url (form_uid : string) : string :=
  "https://kf.kobotoolbox.org/api/v2/assets/" +:+ form_uid +:+ "/data.json".
Definition export_url (form_uid : string) : string :=
  "https://kf.kobotoolbox.org/api/v2/assets/" +:+ form_uid +:+ "/data/?format=json".
Definition csv_url (form_uid : string) : string :=
  "https://kf.kobotoolbox.org/api/v2/assets/" +:+ form_uid +:+ "/data.csv".

(** What the method returns for a decoded body, if anything: the value
    under [results] of a dict that has the key, or a list as it is. *)
Definition results_of (data : pyval) : option pyval :=
  match data with
  | PDict d => Val.dict_get d "results"
  | PList _ => Some data
  | _ => None
  end.

(** One of the two JSON endpoints: the value to return, or nothing when
    the method is to go on with the next endpoint. *)
Definition try_json_endpoint (kobo_session_get : kobo_api) (url : string)
  : result (option pyval) :=
  (response <- kobo_session_get url ;;
   if status_code response =? 200 then
     match json response with
     | Ok data => Ok (results_of data)
     | Raise e => if is_JSONDecodeError e then Ok None else Raise e
     end
   else Ok None)%result.

Definition try_csv_endpoint (kobo_session_get : kobo_api)
    (DictReader : string -> result (list pyval)) (url : string) : result pyval :=
  (response <- kobo_session_get url ;;
   if status_code response =? 200 then
     (data <- DictReader (text response) ;; Ok (PList data))
   else Ok (PList []))%result.

Definition fetch_form_data_safe (kobo_session_get : kobo_api)
    (DictReader : string -> result (list pyval)) (form_uid : string)
  : pyval * list graph_request :=
  match try_json_endpoint kobo_session_get (data_url form_uid) with
  | Raise _ => (PList [], [KoboSessionGet (data_url form_uid)])
  | Ok (Some results) => (results, [KoboSessionGet (data_url form_uid)])
  | Ok None =>
      match try_json_endpoint kobo_session_get (export_url form_uid) with
      | Raise _ =>
          (PList [], [KoboSessionGet (data_url form_uid);
                      KoboSessionGet (export_url form_uid)])
      | Ok (Some results) =>
          (results, [KoboSessionGet (data_url form_uid);
                     KoboSessionGet (export_url form_uid)])
      | Ok None =>
          (match try_csv_endpoint kobo_session_get DictReader (csv_url form_uid) with
           | Ok data => data
           | Raise _ => PList []
           end,
           [KoboSessionGet (data_url form_uid);
            KoboSessionGet (export_url form_uid);
            KoboSessionGet (csv_url form_uid)])
      end
  end.

(** ** The upload folder of a run: the loop of [run] over the items of
    the root *)

(** [str.isdigit] on one character, and on a text. *)
Definition isdigit_char : ascii -> bool :=
  Py.in_ranges [(48, 57); (178, 179); (185, 185)]%N.

Definition isdigit (s : string) : bool :=
  nonempty s && Py.forall_chars isdigit_char s.

(** [a > b] on dates. *)
Definition datetime_key (f : Datetime.fields) : list Z :=
  [Datetime.year f; Datetime.month f; Datetime.day f; Datetime.hour f;
   Datetime.minute f; Datetime.second f; Datetime.fraction f].

Fixpoint lex_gt (a b : list Z) : bool :=
  match a, b with
  | x :: a', y :: b' => (y <? x) || ((x =? y) && lex_gt a' b')
  | _, _ => false
  end.

Definition datetime_gt (a b : Datetime.fields) : bool :=
  lex_gt (datetime_key a) (datetime_key b).

(** The format [%Y%m%d]. *)
Definition Ymd : list Datetime.directive := [Datetime.dY; Datetime.dm; Datetime.dd].

(** The date a folder name carries: the third of its underscore-separated
    parts, when it is made of eight digits that spell a date. *)
Definition folder_date (folder_name : string) : option Datetime.fields :=
  let parts := Py.split "_" folder_name in
  if (3 <=? List.length parts)%nat then
    let folder_date := nth 2 parts EmptyString in
    if (String.length folder_date =? 8)%nat && isdigit folder_date then
      match Datetime.strptime folder_date Ymd with
      | Ok folder_datetime => Some folder_datetime
      | Raise _ => None
      end
    else None
  else None.

(** The name of an item that is a folder of an earlier run, if it is
    one.  The name of a folder must be a text. *)
Definition kobo_folder_name (item : pyval) : result (option string) :=
  (folder <- Val.get item "folder" PNone ;;
   if Val.truthy folder then
     (name <- Val.get item "name" (PStr EmptyString) ;;
      match name with
      | PStr folder_name =>
          if Py.startswith "KoboMedia_Direct_" folder_name
          then Ok (Some folder_name) else Ok None
      | _ => Raise AttributeError
      end)
   else Ok None)%result.

(** The loop: [chosen] holds [existing_folder] and [latest_folder_date]. *)
Fixpoint select_folder (root_items : list pyval)
    (chosen : option (string * Datetime.fields))
  : result (option (string * Datetime.fields)) :=
  match root_items with
  | [] => Ok chosen
  | item :: root_items' =>
      (found <- kobo_folder_name item ;;
       match found with
       | Some folder_name =>
           match folder_date folder_name with
           | Some folder_datetime =>
               match chosen with
               | Some (_, latest_folder_date) =>
                   if datetime_gt folder_datetime latest_folder_date
                   then select_folder root_items' (Some (folder_name, folder_datetime))
                   else select_folder root_items' chosen
               | None =>
                   select_folder root_items' (Some (folder_name, folder_datetime))
               end
           | None => select_folder root_items' chosen
           end
       | None => select_folder root_items' chosen
       end)%result
  end.

(** The folder of an earlier run to go on with, if the root shows one. *)
Definition find_existing_folder (g : graph) (self : DirectMediaTransfer)
  : result (option string) * list graph_request :=
  let root_url := root_children_url self in
  (match sp_get g root_url with
   | Raise e => Raise e
   | Ok root_response =>
       if status_code root_response =? 200 then
         (root_items <- items_of root_response ;;
          chosen <- select_folder root_items None ;;
          Ok (option_map fst chosen))%result
       else Ok None
   end,
   [SpGet root_url]).

(** ** [get_existing_files_in_sharepoint]

    The catalog maps the name of a form folder to the set of the names
    found in it, names being texts, as [is_file_already_uploaded] reads
    it.  The names the destination reports for its items are texts; an
    item whose name is another value is outside the model, and the scan
    then ends as [NameNotText]. *)

Inductive scan (A : Type) : Type :=
  | Scanned (a : A)
  | Interrupted (e : exn)                    (* an exception ends the scan *)
  | NameNotText.
Arguments Scanned {A} a.
Arguments Interrupted {A} e.
Arguments NameNotText {A}.

(** [item.get('name', '')] *)
Definition text_name (item : pyval) : scan string :=
  match Val.get item "name" (PStr EmptyString) with
  | Ok (PStr name) => Scanned name
  | Ok _ => NameNotText
  | Raise e => Interrupted e
  end.

(** The loop over the items of a subfolder. *)
Fixpoint scan_subfolder_items (subfolder_items : list pyval)
    (form_files : gset string) : scan (gset string) :=
  match subfolder_items with
  | [] => Scanned form_files
  | subfile_item :: subfolder_items' =>
      match is_folder subfile_item with
      | Raise e => Interrupted e
      | Ok true => scan_subfolder_items subfolder_items' form_files
      | Ok false =>
          match text_name subfile_item with
          | Scanned filename =>
              scan_subfolder_items subfolder_items' ({[ filename ]} ∪ form_files)
          | Interrupted e => Interrupted e
          | NameNotText => NameNotText
          end
      end
  end.

(** The loop over the items of a form folder. *)
Fixpoint scan_form_items (g : graph) (self : DirectMediaTransfer)
    (main_folder form_name : string) (form_items : list pyval)
    (form_files : gset string) : scan (gset string) * list graph_request :=
  match form_items with
  | [] => (Scanned form_files, [])
  | file_item :: form_items' =>
      match text_name file_item with
      | Scanned item_name =>
          match is_folder file_item with
          | Raise e => (Interrupted e, [])
          | Ok true =>
              let subfolder_url :=
                children_url self
                  (main_folder +:+ "/" +:+ form_name +:+ "/" +:+ item_name) in
              match sp_get g subfolder_url with
              | Raise e => (Interrupted e, [SpGet subfolder_url])
              | Ok subfolder_response =>
                  if status_code subfolder_response =? 200 then
                    match items_of subfolder_response with
                    | Raise e => (Interrupted e, [SpGet subfolder_url])
                    | Ok subfolder_items =>
                        match scan_subfolder_items subfolder_items form_files with
                        | Scanned form_files' =>
                            match scan_form_items g self main_folder form_name
                                    form_items' form_files' with
                            | (r, log) => (r, SpGet subfolder_url :: log)
                            end
                        | Interrupted e => (Interrupted e, [SpGet subfolder_url])
                        | NameNotText => (NameNotText, [SpGet subfolder_url])
                        end
                    end
                  else
                    match scan_form_items g self main_folder form_name
                            form_items' form_files with
                    | (r, log) => (r, SpGet subfolder_url :: log)
                    end
              end
          | Ok false =>
              scan_form_items g self main_folder form_name form_items'
                ({[ item_name ]} ∪ form_files)
          end
      | Interrupted e => (Interrupted e, [])
      | NameNotText => (NameNotText, [])
      end
  end.

(** The files of one form folder: what is stored under its name. *)
Definition scan_form (g : graph) (self : DirectMediaTransfer)
    (main_folder form_name : string) : scan (gset string) * list graph_request :=
  let form_url := children_url self (main_folder +:+ "/" +:+ form_name) in
  match sp_get g form_url with
  | Raise e => (Interrupted e, [SpGet form_url])
  | Ok form_response =>
      if status_code form_response =? 200 then
        match items_of form_response with
        | Raise e => (Interrupted e, [SpGet form_url])
        | Ok form_items =>
            match scan_form_items g self main_folder form_name form_items ∅ with
            | (r, log) => (r, SpGet form_url :: log)
            end
        end
      else (Scanned ∅, [SpGet form_url])
  end.

(** The loop over the items of the main folder.  The catalog is returned
    as far as it has been built when the scan is interrupted. *)
Fixpoint scan_main_items (g : graph) (self : DirectMediaTransfer)
    (main_folder : string) (items : list pyval)
    (existing_files : gmap string (gset string))
  : scan unit * gmap string (gset string) * list graph_request :=
  match items with
  | [] => (Scanned tt, existing_files, [])
  | item :: items' =>
      match is_folder item with
      | Raise e => (Interrupted e, existing_files, [])
      | Ok false => scan_main_items g self main_folder items' existing_files
      | Ok true =>
          match text_name item with
          | Scanned form_name =>
              match scan_form g self main_folder form_name with
              | (Scanned form_files, log) =>
                  match scan_main_items g self main_folder items'
                          (<[ form_name := form_files ]> existing_files) with
                  | (r, existing_files', log') => (r, existing_files', (log ++ log')%list)
                  end
              | (Interrupted e, log) => (Interrupted e, existing_files, log)
              | (NameNotText, log) => (NameNotText, existing_files, log)
              end
          | Interrupted e => (Interrupted e, existing_files, [])
          | NameNotText => (NameNotText, existing_files, [])
          end
      end
  end.

(** The method returns the catalog whether the scan was completed or
    interrupted; [None] is for a scan that has met a name that is not a
    text. *)
Definition get_existing_files_in_sharepoint (g : graph)
    (self : DirectMediaTransfer) (main_folder : string)
  : option (gmap string (gset string)) * list graph_request :=
  let url := children_url self main_folder in
  match sp_get g url with
  | Raise _ => (Some ∅, [SpGet url])
  | Ok response =>
      if negb (status_code response =? 200) then (Some ∅, [SpGet url])
      else
        match items_of response with
        | Raise _ => (Some ∅, [SpGet url])
        | Ok items =>
            match scan_main_items g self main_folder items ∅ with
            | (NameNotText, _, log) => (None, SpGet url :: log)
            | (_, existing_files, log) => (Some existing_files, SpGet url :: log)
            end
        end
  end.

(** ** Further notions for the transfer engine *)

(** The bodies of the chunk requests of [log], in order. *)
Fixpoint chunk_data (log : list request) : list bytes :=
  match log with
  | [] => []
  | ChunkPut _ _ data :: log' => data :: chunk_data log'
  | _ :: log' => chunk_data log'
  end.

(** The chunks of a body that are not empty, in order. *)
Fixpoint nonempty_chunks (chunks : list (result bytes)) : list bytes :=
  match chunks with
  | [] => []
  | Ok (b :: chunk) :: chunks' => (b :: chunk) :: nonempty_chunks chunks'
  | _ :: chunks' => nonempty_chunks chunks'
  end.

(** The number of requests made to the source. *)
Fixpoint downloads (log : list request) : Z :=
  match log with
  | [] => 0
  | KoboGet _ :: log' => 1 + downloads log'
  | _ :: log' => downloads log'
  end.

(** The addresses of the drive that the requests of [log] write to: those
    of the uploads and of the upload sessions.  (The address of a chunk
    is the one the destination handed out for the session.) *)
Fixpoint written_addresses (log : list request) : list string :=
  match log with
  | [] => []
  | SpPut url _ :: log' => url :: written_addresses log'
  | SpPost url :: log' => url :: written_addresses log'
  | _ :: log' => written_addresses log'
  end.

(** A source that cannot be reached, and one that answers with an HTTP
    error. *)
Definition unreachable_source : network :=
  mk_network (fun _ => Raise RequestException)
             (fun _ _ => Ok 201)
             (fun _ => Ok (sample_session 200))
             (fun _ _ _ => Ok 202).

Definition refusing_source : network :=
  mk_network (fun _ => Ok (mk_kobo_response (Raise RequestException) None
                             (Ok sample_body) (fun _ => [Ok sample_body])))
             (fun _ _ => Ok 201)
             (fun _ => Ok (sample_session 200))
             (fun _ _ _ => Ok 202).

(** A destination that cannot be reached for the creation of an upload
    session. *)
Definition unreachable_sessions (h : option string) : network :=
  mk_network (fun _ => Ok (sample_response h))
             (fun _ _ => Ok 201)
             (fun _ => Raise RequestException)
             (fun _ _ _ => Ok 202).

(** A source that serves a body of two chunks with an empty one between
    them. *)
Definition two_chunk_response : kobo_response :=
  mk_kobo_response (Ok tt) None (Ok [Byte.x01; Byte.x02; Byte.x03])
    (fun _ => [Ok [Byte.x01; Byte.x02]; Ok []; Ok [Byte.x03]]).

Definition two_chunk_network : network :=
  mk_network (fun _ => Ok two_chunk_response)
             (fun _ _ => Ok 201)
             (fun _ => Ok (sample_session 200))
             (fun _ _ _ => Ok 202).

(** ** Further notions for the file names *)

(** The name as [sanitize_filename] has it before it looks at the
    length. *)
Definition substituted (filename : string) : string :=
  Re.sub (Re.Chr unsafe_char) "_" filename.

(** A run of [k] decimal digits. *)
Definition digits (k : nat) (s : string) : Prop :=
  String.length s = k /\ Py.forall_chars Py.isdecimal s = true.

(** A text of the shape of a date: four digits, two digits and two
    digits, with dashes between them. *)
Definition date_shaped (s : string) : Prop :=
  exists y m d, s = y +:+ "-" +:+ m +:+ "-" +:+ d
                /\ digits 4 y /\ digits 2 m /\ digits 2 d.

(** A date as the platform writes it for a year below 1000: the year in
    one to three digits, then two digits and two digits, with dashes
    between them. *)
Definition short_year_date (s : string) : Prop :=
  exists y m d, s = y +:+ "-" +:+ m +:+ "-" +:+ d
                /\ (exists k, (1 <= k <= 3)%nat /\ digits k y)
                /\ digits 2 m /\ digits 2 d.


(** A value that is a text. *)
Definition is_text (v : pyval) : bool :=
  match v with PStr _ => true | _ => false end.

(** ** Notions used to state what the processing of a form keeps *)

(** A computation keeps [R] when [R] relates every state it starts from
    to the state it ends in and the requests it has made, whether it
    returns or raises. *)
Definition keeps {S A : Type} (R : S -> S -> list request -> Prop) (m : M S A)
  : Prop :=
  forall s, R s (state_after (m s)) (requests_of (m s)).

(** The counters of the form move with those of the object, and the
    source is asked once for each transfer and each failure. *)
Definition counters_agree (s s' : form_state) (log : list request) : Prop :=
  let d (f : stats_t -> Z) := f (stats (fst s')) - f (stats (fst s)) in
  let df (f : form_stats_t -> Z) := f (snd s') - f (snd s) in
  d transferred = df processed
  /\ d failed = df form_failed
  /\ d skipped = df form_skipped
  /\ 0 <= df processed /\ 0 <= df form_failed /\ 0 <= df form_skipped
  /\ df processed + df form_failed + df form_skipped <= d total_media
  /\ downloads log = df processed + df form_failed.

(** Without a catalog nothing is skipped. *)
Definition skips_nothing (existing_files : gmap string (gset string))
    (s s' : form_state) (log : list request) : Prop :=
  catalog_given existing_files = false ->
  form_skipped (snd s') = form_skipped (snd s)
  /\ skipped (stats (fst s')) = skipped (stats (fst s)).

(** The identifiers stay, and what is written is written below the
    folder of the form. *)
Definition writes_below (form_folder : string)
    (s s' : form_state) (log : list request) : Prop :=
  site_id (fst s') = site_id (fst s)
  /\ sp_drive_id (fst s') = sp_drive_id (fst s)
  /\ Forall (fun url =>
               Py.startswith (drive_root (fst s) +:+ form_folder +:+ "/") url = true)
            (written_addresses log).

(** ** Notions used to state the properties of the folders and of the
    catalog *)

(** The name and the date of an item of the root that is a folder of an
    earlier run with a date in its name. *)
Definition dated_folder (item : pyval) : option (string * Datetime.fields) :=
  match kobo_folder_name item with
  | Ok (Some folder_name) =>
      match folder_date folder_name with
      | Some folder_datetime => Some (folder_name, folder_datetime)
      | None => None
      end
  | _ => None
  end.

(** The three addresses [fetch_form_data_safe] knows, in the order it
    asks them. *)
Definition endpoints (form_uid : string) : list graph_request :=
  [KoboSessionGet (data_url form_uid);
   KoboSessionGet (export_url form_uid);
   KoboSessionGet (csv_url form_uid)].

(** An item that shows as a file, or as a folder, of a given name. *)
Definition shows (item : pyval) (name : string) (folder : bool) : Prop :=
  text_name item = Scanned name /\ is_folder item = Ok folder.

(** A folder whose listing is answered, with items that show as the
    given entries. *)
Definition lists (g : graph) (url : string) (entries : list (string * bool))
  : Prop :=
  exists response items,
    sp_get g url = Ok response
    /\ status_code response = 200
    /\ items_of response = Ok items
    /\ Forall2 (fun item entry => shows item (fst entry) (snd entry)) items entries.

(** The address of the listing of a form folder, and that of a
    subfolder of it. *)
Definition form_url (self : DirectMediaTransfer)
    (main_folder form_name : string) : string :=
  children_url self (main_folder +:+ "/" +:+ form_name).

Definition subfolder_url (self : DirectMediaTransfer)
    (main_folder form_name item_name : string) : string :=
  children_url self (main_folder +:+ "/" +:+ form_name +:+ "/" +:+ item_name).

(** A folder that cannot be listed: the request raises, or is answered
    with a status other than 200. *)
Definition unlistable (g : graph) (url : string) : Prop :=
  match sp_get g url with
  | Ok response => status_code response <> 200
  | Raise _ => True
  end.

(** ** Sample data *)

(** An item as the destination describes it. *)
Definition file_item (name : string) : pyval :=
  PDict [("name", PStr name); ("file", PDict [("mimeType", PStr "image/jpeg")])].

Definition folder_item (name : string) : pyval :=
  PDict [("name", PStr name); ("folder", PDict [("childCount", PInt 1)])].

Definition listing (items : list pyval) : response :=
  mk_response 200 (Ok (PDict [("value", PList items)])) EmptyString.

Definition refusal (status : Z) : response :=
  mk_response status (Ok (PDict [])) EmptyString.

(** A destination that answers every check with [check_status] and
    accepts what is posted. *)
Definition sample_graph (check_status : Z) : graph :=
  mk_graph (fun _ => Ok (refusal check_status)) (fun _ _ => Ok (refusal 201)).

(** A drive with one upload folder, one form folder in it, and in the
    form folder one file and one column folder with one file. *)
Definition sample_drive : graph :=
  mk_graph
    (fun url =>
       if String.eqb url (children_url sample_self "Main")
       then Ok (listing [folder_item "Form"; file_item "notes.txt"])
       else if String.eqb url (children_url sample_self "Main/Form")
       then Ok (listing [file_item "row1_a.jpg"; folder_item "photo"])
       else if String.eqb url (children_url sample_self "Main/Form/photo")
       then Ok (listing [file_item "row2_b.jpg"; folder_item "deeper"])
       else Ok (refusal 404))
    (fun _ _ => Ok (refusal 201)).

(** The root of a drive with two folders of the same day and one of the
    day before. *)
Definition sample_root : list pyval :=
  [folder_item "KoboMedia_Direct_20250625_235959";
   folder_item "KoboMedia_Direct_20250626_080000";
   file_item "KoboMedia_Direct_20250627_000000";
   folder_item "KoboMedia_Direct_20250626_200000";
   folder_item "Other"].

(** An endpoint that answers and gives the method nothing to return: the
    answer is not a 200, or its body is no JSON, or the JSON is neither a
    list nor a dict with the key [results]. *)
Definition gives_nothing (kobo_session_get : kobo_api) (url : string) : bool :=
  match kobo_session_get url with
  | Ok response =>
      negb (status_code response =? 200)
      || match json response with
         | Ok (PList _) => false
         | Ok (PDict d) =>
             match Val.dict_get d "results" with
             | Some _ => false
             | None => true
             end
         | Ok _ => true
         | Raise e => is_JSONDecodeError e
         end
  | Raise _ => false
  end.

(** A source of form data that refuses every request. *)
Definition refusing_kobo : kobo_api := fun _ => Ok (refusal 503).

(** A listing that is answered and in which some item shows under a
    given name, as a file or as a folder. *)
Definition listed_at (g : graph) (url name : string) (folder : bool) : Prop :=
  exists response items item,
    sp_get g url = Ok response
    /\ status_code response = 200
    /\ items_of response = Ok items
    /\ In item items
    /\ shows item name folder.

(** ** The credentials: [DirectMediaTransfer.__init__] and the check of
    [main]

    The environment is read through [os.getenv], after [load_dotenv] has
    run: a variable has a value or is not set.  The two sessions the
    constructor creates are not part of the object below; the requests
    made through them are modelled where they are made. *)

Definition environment : Type := string -> option string.

(** A value of the environment as a condition: set, and not empty. *)
Definition is_set (v : option string) : bool :=
  match v with
  | Some s => nonempty s
  | None => false
  end.

(** The text of a variable that is set. *)
Definition value_of (v : option string) : string :=
  match v with
  | Some s => s
  | None => EmptyString
  end.

(** [s.strip(chars)] *)
Definition strip_chars (chars s : string) : string :=
  Py.rstrip chars (Py.lstrip_by (fun c => Py.char_in c chars) s).

(** The characters the site is stripped of: the single and the double
    quote. *)
Definition quotes : string := String Py.squote (String Py.dquote EmptyString).

Definition is_quote (c : ascii) : bool := Py.char_in c quotes.

Module Initial.

(** The attributes the constructor sets. *)
Record t : Type := mk {
  kobo_token : string;
  tenant_id : string;
  client_id : string;
  client_secret : string;
  site_id : string;
  sp_access_token : option string;
  sp_drive_id : option string;
  stats : stats_t;
  current_form_naming_format : naming
}.

End Initial.

(** [DirectMediaTransfer()] *)
Definition init (getenv : environment) : result Initial.t :=
  let kobo_token := getenv "API_TOKEN" in
  if negb (is_set kobo_token) then Raise ValueError
  else
    let tenant_id := getenv "TENANT_ID" in
    let client_id := getenv "CLIENT_ID" in
    let client_secret := getenv "CLIENT_SECRET" in
    let site_id := getenv "SITE_ID" in
    if negb (forallb is_set [tenant_id; client_id; client_secret; site_id])
    then Raise ValueError
    else
      let site_id := strip_chars quotes (value_of site_id) in
      Ok (Initial.mk (value_of kobo_token) (value_of tenant_id) (value_of client_id)
            (value_of client_secret) site_id None None
            (mk_stats 0 0 0 0 0) fallback).

(** The check of [main]. *)
Definition required_vars : list string :=
  ["API_TOKEN"; "TENANT_ID"; "CLIENT_ID"; "CLIENT_SECRET"; "SITE_ID"].

Definition missing_vars (getenv : environment) : list string :=
  List.filter (fun var => negb (is_set (getenv var))) required_vars.

(** [main] up to the construction of the pipeline, which constructs the
    object: the process exits with a status, or the constructor has
    returned or raised. *)
Inductive startup : Type :=
  | Exit (status : Z)
  | Constructed (object : result Initial.t).

Definition main_startup (getenv : environment) : startup :=
  match missing_vars getenv with
  | [] => Constructed (init getenv)
  | _ => Exit 1
  end.

(** The first and the last character of a text. *)
Definition first_char (s : string) : option ascii :=
  match s with
  | EmptyString => None
  | String c _ => Some c
  end.

Fixpoint last_char (s : string) : option ascii :=
  match s with
  | EmptyString => None
  | String c EmptyString => Some c
  | String _ s' => last_char s'
  end.

(** An environment with all the variables, the site in single quotes. *)
Definition sample_environment : environment :=
  fun var =>
    if String.eqb var "SITE_ID" then Some "'contoso.sharepoint.com,1,2'"
    else if existsb (String.eqb var) required_vars then Some "secret"
    else None.

(** * Facts about the library models *)

(** ** Strings *)

Section Strings.

Implicit Types (s t : string) (p : ascii -> bool) (c : ascii).

(** The equations of [+:+], which [simpl] does not unfold. *)
Lemma append_nil t : EmptyString +:+ t = t.
Proof. reflexivity. Qed.

Lemma append_cons c s t : String c s +:+ t = String c (s +:+ t).
Proof. reflexivity. Qed.

Lemma append_empty_r s : s +:+ EmptyString = s.
Proof.
  induction s as [|c s IH]; [reflexivity|]. rewrite append_cons, IH. reflexivity.
Qed.

Lemma append_assoc s t u : (s +:+ t) +:+ u = s +:+ (t +:+ u).
Proof.
  induction s as [|c s IH]; [reflexivity|]. rewrite !append_cons, IH. reflexivity.
Qed.

Lemma length_append s t :
  String.length (s +:+ t) = (String.length s + String.length t)%nat.
Proof.
  induction s as [|c s IH]; [reflexivity|]. rewrite append_cons. cbn. congruence.
Qed.

Lemma forall_chars_app p s t :
  Py.forall_chars p (s +:+ t) = Py.forall_chars p s && Py.forall_chars p t.
Proof.
  induction s as [|c s IH]; [reflexivity|]. rewrite append_cons. cbn.
  rewrite IH. apply andb_assoc.
Qed.

Lemma forall_chars_weaken p q s :
  (forall c, p c = true -> q c = true) ->
  Py.forall_chars p s = true -> Py.forall_chars q s = true.
Proof.
  intros Hpq. induction s as [|c s IH]; cbn; [reflexivity|].
  rewrite !andb_true_iff. intros [Hc Hs]. auto.
Qed.

Lemma forall_chars_take p n s :
  Py.forall_chars p s = true -> Py.forall_chars p (Py.take n s) = true.
Proof.
  revert s. induction n as [|n IH]; intros [|c s]; cbn; try reflexivity.
  rewrite !andb_true_iff. intros [Hc Hs]. auto.
Qed.

Lemma forall_chars_drop p n s :
  Py.forall_chars p s = true -> Py.forall_chars p (Py.drop n s) = true.
Proof.
  revert s. induction n as [|n IH]; intros [|c s]; cbn; try reflexivity.
  - trivial.
  - rewrite andb_true_iff. intros [_ Hs]. auto.
Qed.

Lemma forall_chars_filter p s : Py.forall_chars p (Py.filter_chars p s) = true.
Proof.
  induction s as [|c s IH]; cbn; [reflexivity|].
  destruct (p c) eqn:Hc; cbn; [rewrite Hc|]; assumption.
Qed.

Lemma forall_chars_map p f s :
  (forall c, p (f c) = true) -> Py.forall_chars p (Py.map_chars f s) = true.
Proof.
  intros Hf. induction s as [|c s IH]; cbn; [reflexivity|].
  rewrite Hf. assumption.
Qed.

(** Filtering keeps a text whose characters all pass. *)
Lemma filter_chars_id p s :
  Py.forall_chars p s = true -> Py.filter_chars p s = s.
Proof.
  induction s as [|c s IH]; cbn; [reflexivity|].
  rewrite andb_true_iff. intros [Hc Hs]. rewrite Hc, IH by assumption. reflexivity.
Qed.

Lemma take_drop s n : Py.take n s +:+ Py.drop n s = s.
Proof.
  revert s. induction n as [|n IH]; intros [|c s]; cbn; try reflexivity.
  rewrite append_cons, IH. reflexivity.
Qed.

Lemma take_app_length s t : Py.take (String.length s) (s +:+ t) = s.
Proof.
  induction s as [|c s IH].
  - destruct t; reflexivity.
  - rewrite append_cons. cbn. rewrite IH. reflexivity.
Qed.

Lemma prefix_empty t : String.prefix EmptyString t = true.
Proof. destruct t; reflexivity. Qed.

Lemma prefix_app s t u : String.prefix s t = true -> String.prefix s (t +:+ u) = true.
Proof.
  revert t. induction s as [|c s IH]; intros t H; [apply prefix_empty|].
  destruct t as [|d t]; [discriminate|].
  rewrite append_cons. cbn in *. destruct (ascii_dec c d); [auto | discriminate].
Qed.

Lemma prefix_contains s t : String.prefix s t = true -> Py.contains s t = true.
Proof. intros H. destruct t; cbn in *; rewrite H; reflexivity. Qed.

(** A text holds the needle when one of its tails does. *)
Lemma contains_tail needle c s :
  Py.contains needle s = true -> Py.contains needle (String c s) = true.
Proof. intros H. cbn [Py.contains]. rewrite H. apply orb_true_r. Qed.

End Strings.

(** ** Characters *)

Lemma digit_is_alnum c : Py.isdecimal c = true -> Py.isalnum c = true.
Proof.
  unfold Py.isdecimal, Py.isalnum, Py.in_ranges. cbn [existsb].
  rewrite orb_false_r. intros ->. reflexivity.
Qed.

Lemma word_is_safe c : Py.isword c = true -> safe_char c = true.
Proof.
  unfold Py.isword, safe_char. cbn [Py.char_in].
  destruct (Py.isalnum c), (c =? ".")%char, (c =? "_")%char, (c =? "-")%char;
    cbn; congruence.
Qed.

Lemma filename_char_is_safe c : filename_char c = true -> safe_char c = true.
Proof.
  unfold filename_char, safe_char. cbn [Py.char_in].
  destruct (Py.isalnum c), (c =? ".")%char, (c =? "_")%char, (c =? "-")%char;
    cbn; congruence.
Qed.

Lemma digit_is_safe c : Py.isdecimal c = true -> safe_char c = true.
Proof.
  intros H. unfold safe_char. rewrite (digit_is_alnum c H). reflexivity.
Qed.

(** ** [str(n)] *)

Lemma string_of_uint_digits d :
  Py.forall_chars Py.isdecimal (NilEmpty.string_of_uint d) = true.
Proof. induction d; cbn; try assumption; reflexivity. Qed.

Lemma str_of_int_chars n : Py.forall_chars digit_or_minus (Py.str_of_int n) = true.
Proof.
  assert (Huint : forall d,
             Py.forall_chars digit_or_minus (NilZero.string_of_uint d) = true).
  { intros d. apply (forall_chars_weaken Py.isdecimal).
    - intros c Hc. unfold digit_or_minus. rewrite Hc. reflexivity.
    - destruct d; try apply string_of_uint_digits; reflexivity. }
  unfold Py.str_of_int, NilZero.string_of_int.
  destruct (Z.to_int n) as [d|d]; cbn [Py.forall_chars]; rewrite ?Huint; reflexivity.
Qed.

Lemma digit_or_minus_is_safe c : digit_or_minus c = true -> safe_char c = true.
Proof.
  unfold digit_or_minus. rewrite orb_true_iff. intros [H | H].
  - apply digit_is_safe. assumption.
  - unfold safe_char. cbn [Py.char_in]. rewrite H, !orb_true_r. reflexivity.
Qed.

Lemma str_of_int_safe n : Py.forall_chars safe_char (Py.str_of_int n) = true.
Proof.
  apply (forall_chars_weaken digit_or_minus); [apply digit_or_minus_is_safe|].
  apply str_of_int_chars.
Qed.

(** ** Regular expressions: what the matcher returns is a match *)

Section Regex.

Import Re.

Lemma rmatch_sound r :
  forall s rest, In rest (rmatch r s) -> exists m, s = m +:+ rest /\ matches r m.
Proof.
  induction r as [p | r1 IH1 r2 IH2 | r1 IH1 r2 IH2 | r1 IH1 | r1 IH1];
    intros s rest Hin; cbn [rmatch] in Hin.
  - destruct s as [|c s]; [contradiction|].
    destruct (p c) eqn:Hc; [|contradiction].
    destruct Hin as [<- | []]. exists (String c EmptyString).
    split; [reflexivity | constructor; assumption].
  - apply in_flat_map in Hin. destruct Hin as (mid & Hmid & Hrest).
    destruct (IH1 _ _ Hmid) as (m1 & -> & Hm1).
    destruct (IH2 _ _ Hrest) as (m2 & -> & Hm2).
    exists (m1 +:+ m2). split; [symmetry; apply append_assoc | constructor; assumption].
  - apply in_app_or in Hin. destruct Hin as [Hin | Hin].
    + destruct (IH1 _ _ Hin) as (m & -> & Hm). exists m.
      split; [reflexivity | apply matches_alt_l; assumption].
    + destruct (IH2 _ _ Hin) as (m & -> & Hm). exists m.
      split; [reflexivity | apply matches_alt_r; assumption].
  - apply in_app_or in Hin. destruct Hin as [Hin | [<- | []]].
    + destruct (IH1 _ _ Hin) as (m & -> & Hm). exists m.
      split; [reflexivity | apply matches_opt_some; assumption].
    + exists EmptyString. split; [reflexivity | constructor].
  - revert Hin. generalize (S (String.length s)) as fuel. intros fuel.
    revert s rest. induction fuel as [|fuel IHfuel]; intros s rest Hin;
      cbn [iterate] in Hin; [contradiction|].
    apply in_flat_map in Hin. destruct Hin as (mid & Hmid & Hrest).
    destruct (IH1 _ _ Hmid) as (m1 & -> & Hm1).
    apply in_app_or in Hrest. destruct Hrest as [Hrest | [<- | []]].
    + destruct (String.length mid <? String.length (m1 +:+ mid))%nat;
        [|contradiction].
      destruct (IHfuel _ _ Hrest) as (m2 & -> & Hm2).
      exists (m1 +:+ m2).
      split; [symmetry; apply append_assoc | apply matches_plus_more; assumption].
    + exists m1. split; [reflexivity | apply matches_plus_one; assumption].
Qed.

Lemma match_prefix_sound r s m rest :
  match_prefix r s = Some (m, rest) -> s = m +:+ rest /\ matches r m.
Proof.
  unfold match_prefix. destruct (rmatch r s) as [|rest' l] eqn:Hr; [discriminate|].
  intros [= <- <-].
  destruct (rmatch_sound r s rest') as (m & -> & Hm); [rewrite Hr; left; reflexivity|].
  rewrite length_append.
  replace (String.length m + String.length rest' - String.length rest')%nat
    with (String.length m) by lia.
  rewrite take_app_length. split; [reflexivity | assumption].
Qed.

Lemma search_sound r s m : search r s = Some m -> matches r m.
Proof.
  induction s as [|c s IH]; cbn [search].
  - destruct (match_prefix r EmptyString) as [[m' rest]|] eqn:Hm; [|discriminate].
    intros [= <-]. apply (match_prefix_sound _ _ _ _ Hm).
  - destruct (match_prefix r (String c s)) as [[m' rest]|] eqn:Hm.
    + intros [= <-]. apply (match_prefix_sound _ _ _ _ Hm).
    + exact IH.
Qed.

(** Every text [findall] returns is a match that starts somewhere in the
    subject. *)
Lemma findall_from_sound r s :
  forall skip u, In u (findall_from r skip s) ->
    matches r u /\ exists rest tail, Py.drop tail s = u +:+ rest.
Proof.
  induction s as [|c s IH]; intros skip u Hin; cbn [findall_from] in Hin;
    [contradiction|].
  assert (Hlater : forall k, In u (findall_from r k s) ->
            matches r u /\ exists rest tail, Py.drop tail (String c s) = u +:+ rest).
  { intros k Hk. destruct (IH k u Hk) as (Hm & rest & tail & Htail).
    split; [assumption|]. exists rest, (S tail). exact Htail. }
  destruct skip as [|k]; [|eauto].
  destruct (match_prefix r (String c s)) as [[m rest]|] eqn:Hm; [|eauto].
  destruct Hin as [<- | Hin]; [|eauto].
  destruct (match_prefix_sound _ _ _ _ Hm) as [Hs Hmatch].
  split; [assumption|]. exists rest, O. exact Hs.
Qed.

(** A match of a one-character class is that character. *)
Lemma matches_chr_inv p m :
  matches (Chr p) m -> exists c, m = String c EmptyString /\ p c = true.
Proof. inversion 1; subst. eauto. Qed.

Lemma matches_cat_inv r1 r2 m :
  matches (Cat r1 r2) m -> exists m1 m2, m = m1 +:+ m2 /\ matches r1 m1 /\ matches r2 m2.
Proof. inversion 1; subst. eauto. Qed.

End Regex.

(** * Properties *)

(** ** The transfer engine: [stream_media_to_sharepoint] *)

Section Transfer.

Variable net : network.

Ltac run_M :=
  unfold stream_media_to_sharepoint, stream_media_body, catch, bind, lift, call,
    ret, modify, get_state, returned, state_after, requests_of in *;
  cbn [fst snd] in *.

(** The loop over the chunks leaves the counters alone unless it stops on
    a refused chunk, in which case it has counted one failure. *)
Lemma upload_chunks_state upload_url file_size chunks :
  forall offset self,
    match upload_chunks net upload_url file_size chunks offset self with
    | (Ok true, self', _) => self' = self
    | (Ok false, self', _) => self' = with_stats (add_failed 1) self
    | (Raise _, self', _) => self' = self
    end.
Proof.
  induction chunks as [|next chunks IH]; intros offset self;
    cbn [upload_chunks].
  - reflexivity.
  - unfold bind, lift, call, modify, ret.
    destruct next as [chunk|e]; [|reflexivity].
    destruct chunk as [|b chunk].
    + specialize (IH offset self).
      destruct (upload_chunks net upload_url file_size chunks offset self)
        as [[[[]|] ?] ?]; assumption.
    + destruct (requests_put net upload_url _ _) as [status|e]; [|reflexivity].
      destruct (status_in _ status); cbn [negb].
      * specialize (IH (offset + blen (b :: chunk)) self).
        destruct (upload_chunks net upload_url file_size chunks _ self)
          as [[[[]|] ?] ?]; assumption.
      * reflexivity.
Qed.

(** The requests of the loop: chunks of the body, with running ranges. *)
Lemma upload_chunks_requests upload_url file_size chunks :
  forall offset self,
    let log := requests_of (upload_chunks net upload_url file_size chunks offset self) in
    running_ranges offset file_size log /\ sends_chunks_of chunks log.
Proof.
  unfold sends_chunks_of, requests_of.
  induction chunks as [|next chunks IH]; intros offset self;
    cbn [upload_chunks].
  - cbn. split; [exact I | intros ? ? ? []].
  - unfold bind, lift, call, modify, ret.
    destruct next as [chunk|e]; [|cbn; split; [exact I | intros ? ? ? []]].
    destruct chunk as [|b chunk].
    + specialize (IH offset self).
      destruct (upload_chunks net upload_url file_size chunks offset self)
        as [[r self'] log]; cbn [snd app] in *.
      destruct IH as [IH1 IH2]. split; [assumption|].
      intros u h data Hin. destruct (IH2 u h data Hin). split; [right|]; assumption.
    + destruct (requests_put net upload_url _ _) as [status|e];
        [|cbn; split; [split; [reflexivity | exact I]|]].
      * destruct (status_in _ status); cbn [negb].
        -- specialize (IH (offset + blen (b :: chunk)) self).
           destruct (upload_chunks net upload_url file_size chunks _ self)
             as [[r self'] log]; cbn [snd app running_ranges] in *.
           destruct IH as [IH1 IH2]. split; [split; [reflexivity | assumption]|].
           intros u h data [Heq | Hin].
           ++ inversion Heq; subst. split; [left; reflexivity | discriminate].
           ++ destruct (IH2 u h data Hin). split; [right|]; assumption.
        -- cbn. split; [split; [reflexivity | exact I]|].
           intros u h data [Heq | []]. inversion Heq; subst.
           split; [left; reflexivity | discriminate].
      * intros u h data [Heq | []]. inversion Heq; subst.
        split; [left; reflexivity | discriminate].
Qed.

(** Case analysis on the answers of the network, innermost first. *)
Ltac split_answer :=
  match goal with
  | |- context [upload_chunks net ?u ?f ?c ?o ?s] =>
      let H := fresh "Hloop" in
      pose proof (upload_chunks_state u f c o s) as H;
      destruct (upload_chunks net u f c o s) as [[[[]|] ?] ?]; subst
  | |- context [match ?x with _ => _ end] =>
      lazymatch x with
      | context [match _ with _ => _ end] => fail
      | _ => destruct x eqn:?
      end
  | |- context [if ?x then _ else _] =>
      lazymatch x with
      | context [match _ with _ => _ end] => fail
      | context [if _ then _ else _] => fail
      | _ => destruct x eqn:?
      end
  end; cbn [fst snd negb] in *.

(** C9: every call counts exactly one outcome: it adds one to the
    transferred counter and returns [True], or it adds one to the failed
    counter and returns [False]; it never does both or neither. *)
Theorem transfer_counts_exactly_one media_url sharepoint_path filename self :
  let out := stream_media_to_sharepoint net media_url sharepoint_path filename self in
  (returned out = Ok true
   /\ transferred (stats (state_after out)) = transferred (stats self) + 1
   /\ failed (stats (state_after out)) = failed (stats self))
  \/ (returned out = Ok false
      /\ transferred (stats (state_after out)) = transferred (stats self)
      /\ failed (stats (state_after out)) = failed (stats self) + 1).
Proof.
  run_M.
  repeat split_answer;
    cbn [stats with_stats add_failed add_transferred add_total_size
         transferred failed];
    first [ left; repeat split; (reflexivity || lia)
          | right; repeat split; (reflexivity || lia) ].
Qed.


(** A length within the bound passes the computation of the size. *)
Lemma size_mb_ok n : Z.abs n < float_bound -> size_mb n = Ok tt.
Proof. intros H. unfold size_mb. apply Z.ltb_lt in H. rewrite H. reflexivity. Qed.

Lemma size_mb_overflow n :
  float_bound <= Z.abs n -> size_mb n = Raise OverflowError.
Proof. intros H. unfold size_mb. apply Z.ltb_ge in H. rewrite H. reflexivity. Qed.

(** *** The four ways a transfer runs once the source has answered *)

(** A declared length beyond the bound: the transfer fails on the
    computation of the size. *)
Lemma unmeasurable_run media_url sharepoint_path filename self resp n :
  kobo_get net media_url = Ok resp ->
  raise_for_status resp = Ok tt ->
  declared_length (content_length resp) = Ok (Some n) ->
  float_bound <= Z.abs n ->
  stream_media_to_sharepoint net media_url sharepoint_path filename self
  = failed_after self [KoboGet media_url].
Proof.
  intros Hget Hok Hlen Hbound. unfold declared_length in Hlen.
  run_M. rewrite Hget, Hok. cbn [fst snd].
  destruct (header_present (content_length resp)); [|discriminate].
  destruct (header_int (content_length resp)) as [m|e]; [|discriminate].
  injection Hlen as ->. cbn [fst snd].
  rewrite (size_mb_overflow n Hbound). reflexivity.
Qed.

(** A declared length below 4 MiB: the whole body in one upload. *)
Lemma single_shot_run media_url sharepoint_path filename self resp n :
  kobo_get net media_url = Ok resp ->
  raise_for_status resp = Ok tt ->
  declared_length (content_length resp) = Ok (Some n) ->
  Z.abs n < float_bound ->
  n < 4 * 1024 * 1024 ->
  stream_media_to_sharepoint net media_url sharepoint_path filename self
  = whole_body_upload net resp (content_url self sharepoint_path filename) self
      [KoboGet media_url].
Proof.
  intros Hget Hok Hlen Hbound Hsmall. unfold declared_length in Hlen.
  unfold whole_body_upload, failed_after.
  run_M. rewrite Hget, Hok. cbn [fst snd].
  destruct (header_present (content_length resp)); [|discriminate].
  destruct (header_int (content_length resp)) as [m|e]; [|discriminate].
  injection Hlen as ->. cbn [fst snd].
  rewrite (size_mb_ok n Hbound). cbn [fst snd].
  apply Z.ltb_lt in Hsmall. unfold small_file_limit. rewrite Hsmall.
  destruct (content resp) as [data|e]; [|reflexivity]. cbn [fst snd].
  destruct (sp_put net _ data) as [status|e]; [|reflexivity]. cbn [fst snd].
  destruct (status_in [200; 201] status); reflexivity.
Qed.

(** The test on the declared length fails when the length is 4 MiB or
    more, or not declared. *)
Lemma not_small resp len :
  declared_length (content_length resp) = Ok len ->
  size_is_float len ->
  (forall n, len = Some n -> 4 * 1024 * 1024 <= n) ->
  (if header_present (content_length resp)
   then match header_int (content_length resp) with
        | Ok n => match size_mb n with Ok _ => true | Raise _ => false end
                  && negb (n <? small_file_limit)
        | Raise _ => false
        end
   else true) = true.
Proof.
  unfold declared_length. intros Hlen Hfloat Hbig.
  destruct (header_present (content_length resp)); [|reflexivity].
  destruct (header_int (content_length resp)) as [n|e]; [|discriminate].
  injection Hlen as <-. rewrite (size_mb_ok n (Hfloat n eq_refl)).
  specialize (Hbig n eq_refl). apply Z.ltb_ge in Hbig.
  unfold small_file_limit. rewrite Hbig. reflexivity.
Qed.

(** A length of 4 MiB or more, or none: the request for an upload
    session, and what follows from its answer. *)
Lemma chunked_run media_url sharepoint_path filename self resp len :
  kobo_get net media_url = Ok resp ->
  raise_for_status resp = Ok tt ->
  declared_length (content_length resp) = Ok len ->
  size_is_float len ->
  (forall n, len = Some n -> 4 * 1024 * 1024 <= n) ->
  let session_url := upload_session_url self sharepoint_path filename in
  let before := [KoboGet media_url; SpPost session_url] in
  stream_media_to_sharepoint net media_url sharepoint_path filename self
  = match sp_post net session_url with
    | Raise _ => failed_after self before
    | Ok session =>
        if session_status_code session =? 200 then
          match session_json session with
          | Raise _ => failed_after self before
          | Ok json =>
              match Val.getitem json "uploadUrl" with
              | Raise _ => failed_after self before
              | Ok chunk_url =>
                  chunked_upload net resp chunk_url
                    (match len with Some n => n | None => 0 end) self before
              end
          end
        else
          whole_body_upload net resp (content_url self sharepoint_path filename)
            self before
    end.
Proof.
  intros Hget Hok Hlen Hfloat Hbig. cbv zeta.
  pose proof (not_small resp len Hlen Hfloat Hbig) as Hnot.
  unfold declared_length in Hlen.
  unfold whole_body_upload, chunked_upload, failed_after.
  run_M. rewrite Hget, Hok. cbn [fst snd].
  assert (Hsize : (if header_present (content_length resp)
                   then header_int (content_length resp) else Ok 0)
                  = Ok (match len with Some n => n | None => 0 end)).
  { destruct (header_present (content_length resp)).
    - destruct (header_int (content_length resp)); [|discriminate].
      injection Hlen as <-. reflexivity.
    - injection Hlen as <-. reflexivity. }
  destruct (header_present (content_length resp)).
  - destruct (header_int (content_length resp)) as [n|e]; [|discriminate].
    cbn [fst snd]. destruct (size_mb n) as [[]|e]; [|discriminate].
    cbn [andb] in Hnot. apply negb_true_iff in Hnot.
    cbn [fst snd]. rewrite Hnot. injection Hlen as <-.
    destruct (sp_post net _) as [session|e]; [|reflexivity]. cbn [fst snd].
    destruct (session_status_code session =? 200); cbn [negb fst snd].
    + destruct (session_json session) as [json|e]; [|reflexivity]. cbn [fst snd].
      destruct (Val.getitem json "uploadUrl") as [chunk_url|e]; [|reflexivity].
      cbn [fst snd].
      pose proof (upload_chunks_state chunk_url n (iter_content resp chunk_size) 0 self)
        as Hloop.
      destruct (upload_chunks net chunk_url n (iter_content resp chunk_size) 0 self)
        as [[[[]|e] self'] log]; subst self'; cbn [fst snd app];
        rewrite ?app_nil_r; reflexivity.
    + destruct (content resp) as [data|e]; [|reflexivity]. cbn [fst snd].
      destruct (sp_put net _ data) as [status|e]; [|reflexivity]. cbn [fst snd].
      destruct (status_in [200; 201] status); reflexivity.
  - cbn [fst snd]. injection Hlen as <-.
    destruct (sp_post net _) as [session|e]; [|reflexivity]. cbn [fst snd].
    destruct (session_status_code session =? 200); cbn [negb fst snd].
    + destruct (session_json session) as [json|e]; [|reflexivity]. cbn [fst snd].
      destruct (Val.getitem json "uploadUrl") as [chunk_url|e]; [|reflexivity].
      cbn [fst snd].
      pose proof (upload_chunks_state chunk_url 0 (iter_content resp chunk_size) 0 self)
        as Hloop.
      destruct (upload_chunks net chunk_url 0 (iter_content resp chunk_size) 0 self)
        as [[[[]|e] self'] log]; subst self'; cbn [fst snd app];
        rewrite ?app_nil_r; reflexivity.
    + destruct (content resp) as [data|e]; [|reflexivity]. cbn [fst snd].
      destruct (sp_put net _ data) as [status|e]; [|reflexivity]. cbn [fst snd].
      destruct (status_in [200; 201] status); reflexivity.
Qed.
(** The requests of the two uploads. *)
Lemma requests_of_whole_body_upload resp upload_url self before :
  requests_of (whole_body_upload net resp upload_url self before)
  = (before ++ ReadContent ::
       match content resp with
       | Ok data => [SpPut upload_url data]
       | Raise _ => []
       end)%list.
Proof.
  unfold whole_body_upload, failed_after, requests_of.
  destruct (content resp) as [data|e]; [|reflexivity]. cbv zeta.
  destruct (sp_put net upload_url data) as [status|e]; [|reflexivity].
  destruct (status_in [200; 201] status); reflexivity.
Qed.


(** A declared length is within the bound or beyond it. *)
Lemma length_cases (len : option Z) :
  size_is_float len \/ exists n, len = Some n /\ float_bound <= Z.abs n.
Proof.
  destruct len as [n|]; [|left; intros n; discriminate].
  destruct (Z_lt_le_dec (Z.abs n) float_bound) as [H | H].
  - left. intros m [= <-]. exact H.
  - right. exists n. split; [reflexivity | exact H].
Qed.


(** The loop stops on the first chunk that is not empty when the
    destination refuses it. *)
Lemma upload_chunks_first_refused upload_url file_size
    (empties : list (result bytes)) (chunk : bytes) (rest : list (result bytes))
    status self :
  Forall (eq (Ok [])) empties ->
  chunk <> [] ->
  requests_put net upload_url (chunk_headers 0 (blen chunk) file_size) chunk = Ok status ->
  status_in [200; 201; 202] status = false ->
  fst (upload_chunks net upload_url file_size (empties ++ Ok chunk :: rest) 0 self)
  = (Ok false, with_stats (add_failed 1) self).
Proof.
  intros Hempties Hchunk Hput Hstatus.
  induction Hempties as [|next empties <- _ IH]; cbn [app upload_chunks].
  - unfold bind, lift, call, modify, ret.
    destruct chunk as [|b chunk]; [contradiction|].
    change [("Content-Length", Py.str_of_int (blen (b :: chunk)));
            ("Content-Range", content_range 0 (blen (b :: chunk)) file_size)]
      with (chunk_headers 0 (blen (b :: chunk)) file_size).
    rewrite Hput, Hstatus. reflexivity.
  - unfold bind at 1. unfold lift. cbv beta iota.
    destruct (upload_chunks net upload_url file_size (empties ++ Ok chunk :: rest) 0 self)
      as [[r self'] log].
    simpl in IH |- *. exact IH.
Qed.

(** C5: on the chunked path, when the destination answers the first
    chunk with a status other than 200, 201 and 202, the transfer returns
    [False], counts one failure, and credits no bytes. *)
Theorem first_chunk_refused_fails
    media_url sharepoint_path filename self resp len session json upload_url
    (empties : list (result bytes)) (chunk : bytes) (rest : list (result bytes))
    status :
  kobo_get net media_url = Ok resp ->
  raise_for_status resp = Ok tt ->
  declared_length (content_length resp) = Ok len ->
  (forall n, len = Some n -> 4 * 1024 * 1024 <= n) ->
  sp_post net (upload_session_url self sharepoint_path filename) = Ok session ->
  session_status_code session = 200 ->
  session_json session = Ok json ->
  Val.getitem json "uploadUrl" = Ok upload_url ->
  iter_content resp (320 * 1024) = (empties ++ Ok chunk :: rest)%list ->
  Forall (eq (Ok [])) empties ->
  chunk <> [] ->
  requests_put net upload_url
    (chunk_headers 0 (blen chunk) (match len with Some n => n | None => 0 end)) chunk
  = Ok status ->
  status <> 200 /\ status <> 201 /\ status <> 202 ->
  let out := stream_media_to_sharepoint net media_url sharepoint_path filename self in
  returned out = Ok false
  /\ failed (stats (state_after out)) = failed (stats self) + 1
  /\ total_size (stats (state_after out)) = total_size (stats self)
  /\ transferred (stats (state_after out)) = transferred (stats self).
Proof.
  intros Hget Hok Hlen Hbig Hpost Hcode Hjson Hurl Hchunks Hempties Hchunk Hput
    (H200 & H201 & H202).
  assert (Hstatus : status_in [200; 201; 202] status = false).
  { unfold status_in; cbn [existsb].
    rewrite !orb_false_r, !orb_false_iff, !Z.eqb_neq. auto. }
  cbv zeta.
  destruct (length_cases len) as [Hfloat | (n & -> & Hbound)].
  - pose proof (chunked_run media_url sharepoint_path filename self resp len
                  Hget Hok Hlen Hfloat Hbig) as Hrun.
    cbv zeta in Hrun. rewrite Hrun, Hpost, Hcode, Hjson, Hurl. clear Hrun.
    cbn [Z.eqb Pos.eqb]. unfold chunked_upload, chunk_size. cbv zeta.
    rewrite Hchunks.
    pose proof (upload_chunks_first_refused upload_url
                  (match len with Some n => n | None => 0 end)
                  empties chunk rest status self Hempties Hchunk Hput Hstatus)
      as Hloop.
    unfold returned. rewrite Hloop. cbn [fst].
    unfold failed_after, state_after. cbn. repeat split; lia.
  - rewrite (unmeasurable_run media_url sharepoint_path filename self resp n
               Hget Hok Hlen Hbound).
    unfold failed_after, returned, state_after. cbn. repeat split; lia.
Qed.

(** C6, as amended: on the chunked path, with a length that is not
    declared or is 4 MiB or more and has a size in MiB that is a float:
    when the destination answers the creation of the
    upload session with a status other than 200, the transfer reads the
    whole body and uploads it in one request whatever the declared
    length, and it ends as the single-shot path ends for that body: same
    result, same counters, same byte total.  When the request for the
    session raises, or is answered with 200 and a body that gives no
    upload address, the transfer does not degrade: it fails, and the
    body is neither read nor uploaded. *)
Theorem session_failure_degrades
    media_url sharepoint_path filename self resp len :
  kobo_get net media_url = Ok resp ->
  raise_for_status resp = Ok tt ->
  declared_length (content_length resp) = Ok len ->
  size_is_float len ->
  (forall n, len = Some n -> 4 * 1024 * 1024 <= n) ->
  let out := stream_media_to_sharepoint net media_url sharepoint_path filename self in
  let session_url := upload_session_url self sharepoint_path filename in
  let upload_url := content_url self sharepoint_path filename in
  let single :=
    stream_media_to_sharepoint (answering (with_content_length (Some "0") resp) net)
      media_url sharepoint_path filename self in
  (forall session,
     sp_post net session_url = Ok session ->
     session_status_code session <> 200 ->
     single_shot_path (requests_of single) = true
     /\ returned out = returned single
     /\ state_after out = state_after single
     /\ requests_of out
        = KoboGet media_url :: SpPost session_url :: tl (requests_of single)
     /\ requests_of out
        = KoboGet media_url :: SpPost session_url :: ReadContent ::
            match content resp with
            | Ok data => [SpPut upload_url data]
            | Raise _ => []
            end
     /\ (forall data status,
           content resp = Ok data ->
           sp_put net upload_url data = Ok status ->
           returned out = Ok (status_in [200; 201] status)
           /\ total_size (stats (state_after out))
              = total_size (stats self)
                + (if status_in [200; 201] status then blen data else 0)))
  /\ (forall e,
        sp_post net session_url = Raise e ->
        out = (Ok false, with_stats (add_failed 1) self,
               [KoboGet media_url; SpPost session_url]))
  /\ (forall session e,
        sp_post net session_url = Ok session ->
        session_status_code session = 200 ->
        upload_address session = Raise e ->
        out = (Ok false, with_stats (add_failed 1) self,
               [KoboGet media_url; SpPost session_url])).
Proof.
  intros Hget Hok Hlen Hfloat Hbig. cbv zeta.
  pose proof (chunked_run media_url sharepoint_path filename self resp len
                Hget Hok Hlen Hfloat Hbig) as Hrun.
  cbv zeta in Hrun. rewrite Hrun. clear Hrun.
  assert (Hsingle :
            stream_media_to_sharepoint
              (answering (with_content_length (Some "0") resp) net)
              media_url sharepoint_path filename self
            = whole_body_upload net resp (content_url self sharepoint_path filename)
                self [KoboGet media_url]).
  { unfold whole_body_upload, failed_after.
    unfold stream_media_to_sharepoint, stream_media_body, catch, bind, lift, call,
      ret, modify, get_state.
    cbn [answering kobo_get sp_put sp_post requests_put with_content_length
         raise_for_status content_length content iter_content fst snd].
    change (header_present (Some "0")) with true.
    change (header_int (Some "0")) with (@Ok Z 0).
    rewrite Hok. cbn [fst snd].
    change (size_mb 0) with (@Ok unit tt).
    change (0 <? small_file_limit) with true. cbn [fst snd].
    destruct (content resp) as [data|e]; [|reflexivity]. cbn [fst snd].
    destruct (sp_put net _ data) as [status|e]; [|reflexivity]. cbn [fst snd].
    destruct (status_in [200; 201] status); reflexivity. }
  rewrite Hsingle. clear Hsingle.
  split; [|split].
  - intros session Hpost Hcode. rewrite Hpost.
    apply Z.eqb_neq in Hcode. rewrite Hcode.
    rewrite !requests_of_whole_body_upload.
    unfold whole_body_upload, failed_after, returned, state_after.
    cbn [answering kobo_get sp_put sp_post requests_put with_content_length
         raise_for_status content_length content iter_content app tl
         single_shot_path].
    do 5 (split; [destruct (content resp) as [data|e]; [|reflexivity]; cbv zeta;
                  destruct (sp_put net (content_url self sharepoint_path filename) data)
                    as [status|e]; [|reflexivity];
                  destruct (status_in [200; 201] status); reflexivity|]).
    intros data status Hdata Hput. rewrite Hdata. cbv zeta. rewrite Hput.
    destruct (status_in [200; 201] status); cbn; split; (reflexivity || lia).
  - intros e Hpost. rewrite Hpost. reflexivity.
  - intros session e Hpost Hcode Haddress. rewrite Hpost.
    apply Z.eqb_eq in Hcode. rewrite Hcode.
    unfold upload_address, rbind in Haddress.
    destruct (session_json session) as [json|e']; [|reflexivity].
    rewrite Haddress. reflexivity.
Qed.

(** C10: a chunked upload that succeeds adds the declared content length
    to the byte total, and nothing when no length was declared, whatever
    the number of bytes sent in the chunks. *)
Theorem chunked_success_credits_declared_length
    media_url sharepoint_path filename self resp len session :
  kobo_get net media_url = Ok resp ->
  raise_for_status resp = Ok tt ->
  declared_length (content_length resp) = Ok len ->
  (forall n, len = Some n -> 4 * 1024 * 1024 <= n) ->
  sp_post net (upload_session_url self sharepoint_path filename) = Ok session ->
  session_status_code session = 200 ->
  let out := stream_media_to_sharepoint net media_url sharepoint_path filename self in
  returned out = Ok true ->
  total_size (stats (state_after out))
  = total_size (stats self) + match len with Some n => n | None => 0 end
  /\ transferred (stats (state_after out)) = transferred (stats self) + 1.
Proof.
  intros Hget Hok Hlen Hbig Hpost Hcode. cbv zeta.
  destruct (length_cases len) as [Hfloat | (n & -> & Hbound)].
  - pose proof (chunked_run media_url sharepoint_path filename self resp len
                  Hget Hok Hlen Hfloat Hbig) as Hrun.
    cbv zeta in Hrun. rewrite Hrun, Hpost, Hcode. clear Hrun.
    cbn [Z.eqb Pos.eqb].
    destruct (session_json session) as [json|e]; [|discriminate].
    destruct (Val.getitem json "uploadUrl") as [chunk_url|e]; [|discriminate].
    unfold chunked_upload, failed_after. cbv zeta.
    destruct (returned (upload_chunks _ _ _ _ _ _)) as [[]|e];
      try discriminate.
    intros _. cbn. split; reflexivity.
  - rewrite (unmeasurable_run media_url sharepoint_path filename self resp n
               Hget Hok Hlen Hbound).
    discriminate.
Qed.

(** The cases the statements above leave aside. *)

(** A length header that is no integer ends the transfer before the
    destination is contacted: the transfer returns [False] and counts one
    failure, and the only request is the one to the source. *)
Lemma malformed_length_fails media_url sharepoint_path filename self resp e :
  kobo_get net media_url = Ok resp ->
  raise_for_status resp = Ok tt ->
  declared_length (content_length resp) = Raise e ->
  stream_media_to_sharepoint net media_url sharepoint_path filename self
  = (Ok false, with_stats (add_failed 1) self, [KoboGet media_url]).
Proof.
  intros Hget Hok Hlen. unfold declared_length in Hlen.
  run_M. rewrite Hget, Hok. cbn [fst snd].
  destruct (header_present (content_length resp)); [|discriminate].
  destruct (header_int (content_length resp)); [discriminate|]. reflexivity.
Qed.

(** A request for an upload session that raises, as opposed to one that
    is answered with a refusal, ends the transfer without an upload: for
    a declared length whose size in MiB is a float, the transfer returns
    [False] and counts one failure, and the body is not read. *)
Lemma session_request_error_fails
    media_url sharepoint_path filename self resp len e :
  kobo_get net media_url = Ok resp ->
  raise_for_status resp = Ok tt ->
  declared_length (content_length resp) = Ok len ->
  size_is_float len ->
  (forall n, len = Some n -> 4 * 1024 * 1024 <= n) ->
  sp_post net (upload_session_url self sharepoint_path filename) = Raise e ->
  stream_media_to_sharepoint net media_url sharepoint_path filename self
  = (Ok false, with_stats (add_failed 1) self,
     [KoboGet media_url; SpPost (upload_session_url self sharepoint_path filename)]).
Proof.
  intros Hget Hok Hlen Hfloat Hbig Hpost.
  pose proof (chunked_run media_url sharepoint_path filename self resp len
                Hget Hok Hlen Hfloat Hbig) as Hrun.
  cbv zeta in Hrun. rewrite Hrun, Hpost. reflexivity.
Qed.

End Transfer.

(** Worked instances on the sample network. *)



Lemma first_chunk_refused_fails_witness :
  let out :=
    stream_media_to_sharepoint (sample_network None 201 200 500)
      (PStr "http://kobo/a.jpg") "Main/Form/photo" "row1_a.jpg" sample_self in
  returned out = Ok false
  /\ failed (stats (state_after out)) = failed (stats sample_self) + 1
  /\ total_size (stats (state_after out)) = total_size (stats sample_self)
  /\ transferred (stats (state_after out)) = transferred (stats sample_self).
Proof.
  apply (first_chunk_refused_fails (sample_network None 201 200 500)
           (PStr "http://kobo/a.jpg") "Main/Form/photo" "row1_a.jpg" sample_self
           (sample_response None) None (sample_session 200)
           (PDict [("uploadUrl", PStr "http://up")]) (PStr "http://up")
           [] sample_body [] 500);
    try reflexivity.
  - discriminate.
  - constructor.
  - discriminate.
  - repeat split; discriminate.
Defined.

Lemma session_failure_degrades_witness :
  let out :=
    stream_media_to_sharepoint (sample_network (Some "5242880") 201 503 202)
      (PStr "http://kobo/a.jpg") "Main/Form/photo" "row1_a.jpg" sample_self in
  returned out = Ok true
  /\ total_size (stats (state_after out)) = 3
  /\ requests_of out
     = [KoboGet (PStr "http://kobo/a.jpg");
        SpPost (upload_session_url sample_self "Main/Form/photo" "row1_a.jpg");
        ReadContent;
        SpPut (content_url sample_self "Main/Form/photo" "row1_a.jpg") sample_body].
Proof.
  pose proof (session_failure_degrades (sample_network (Some "5242880") 201 503 202)
           (PStr "http://kobo/a.jpg") "Main/Form/photo" "row1_a.jpg" sample_self
           (sample_response (Some "5242880")) (Some 5242880)
           eq_refl eq_refl eq_refl) as H.
  assert (Hfloat : size_is_float (Some 5242880))
    by (intros n [= <-]; vm_compute; reflexivity).
  assert (Hbig : forall n : Z, Some 5242880 = Some n -> 4 * 1024 * 1024 <= n)
    by (intros n [= <-]; lia).
  assert (Hcode : session_status_code (sample_session 503) <> 200) by discriminate.
  destruct (H Hfloat Hbig) as [Hdegrade _].
  destruct (Hdegrade (sample_session 503) eq_refl Hcode)
    as (_ & _ & _ & _ & Hlog & Hout).
  destruct (Hout sample_body 201 eq_refl eq_refl) as [Hret Hsize].
  split; [exact Hret|]. split; [exact Hsize|]. exact Hlog.
Defined.

(** C6 as stated fails when the creation of the session fails by an
    exception: the transfer fails outright, without reading the body. *)
Lemma session_creation_error_fails_outright :
  stream_media_to_sharepoint (unreachable_sessions (Some "5242880"))
    (PStr "http://kobo/a.jpg") "Main/Form/photo" "row1_a.jpg" sample_self
  = (Ok false, with_stats (add_failed 1) sample_self,
     [KoboGet (PStr "http://kobo/a.jpg");
      SpPost (upload_session_url sample_self "Main/Form/photo" "row1_a.jpg")]).
Proof. vm_compute. reflexivity. Qed.

Lemma chunked_success_credits_declared_length_witness :
  let out :=
    stream_media_to_sharepoint (sample_network None 201 200 202)
      (PStr "http://kobo/a.jpg") "Main/Form/photo" "row1_a.jpg" sample_self in
  chunk_bytes (requests_of out) = 3
  /\ total_size (stats (state_after out)) = total_size (stats sample_self) + 0
  /\ transferred (stats (state_after out)) = transferred (stats sample_self) + 1.
Proof.
  split; [reflexivity|].
  apply (chunked_success_credits_declared_length (sample_network None 201 200 202)
           (PStr "http://kobo/a.jpg") "Main/Form/photo" "row1_a.jpg" sample_self
           (sample_response None) None (sample_session 200));
    try reflexivity.
  discriminate.
Defined.


(** ** The destination index: [is_file_already_uploaded] *)

Section DestinationIndex.

Implicit Types (self : DirectMediaTransfer) (filename form_name : string).
Implicit Types (existing_files : gmap string (gset string)) (files : gset string).

(** A loop over a set that returns [True] at the first hit finds a hit
    exactly when the set has one. *)
Lemma any_file_spec (p : string -> bool) files :
  existsb p (elements files) = true <-> exists f, f ∈ files /\ p f = true.
Proof.
  rewrite existsb_exists. split; intros (f & Hin & Hp); exists f; split;
    try assumption.
  - apply elem_of_elements, list_elem_of_In. assumption.
  - apply list_elem_of_In, elem_of_elements. assumption.
Qed.

(** What the method answers under the custom scheme. *)
Lemma is_file_already_uploaded_custom self filename form_name existing_files files :
  existing_files !! form_name = Some files ->
  current_form_naming_format self = custom ->
  is_file_already_uploaded self filename form_name existing_files = true
  <-> filename ∈ files
      \/ ((3 <= List.length (Py.split "_" filename))%nat
          /\ exists f, f ∈ files /\ Py.endswith (row_suffix filename) f = true).
Proof.
  intros Hform Hfmt. unfold is_file_already_uploaded. rewrite Hform, Hfmt.
  destruct (bool_decide (filename ∈ files)) eqn:Hexact.
  - apply bool_decide_eq_true in Hexact. split; auto.
  - apply bool_decide_eq_false in Hexact.
    destruct (3 <=? List.length (Py.split "_" filename))%nat eqn:Hparts.
    + apply Nat.leb_le in Hparts. rewrite any_file_spec. split.
      * intros H. right. split; assumption.
      * intros [H | [_ H]]; [contradiction | assumption].
    + apply Nat.leb_gt in Hparts. split; [discriminate|].
      intros [H | [H _]]; [contradiction | lia].
Qed.

(** What the method answers under the fallback scheme. *)
Lemma is_file_already_uploaded_fallback self filename form_name existing_files files :
  existing_files !! form_name = Some files ->
  current_form_naming_format self = fallback ->
  is_file_already_uploaded self filename form_name existing_files = true
  <-> filename ∈ files
      \/ (Py.startswith "row" filename = true
          /\ exists f, f ∈ files /\ Py.startswith (row_prefix filename) f = true).
Proof.
  intros Hform Hfmt. unfold is_file_already_uploaded. rewrite Hform, Hfmt.
  destruct (bool_decide (filename ∈ files)) eqn:Hexact.
  - apply bool_decide_eq_true in Hexact. split; auto.
  - apply bool_decide_eq_false in Hexact.
    destruct (Py.startswith "row" filename) eqn:Hrow.
    + rewrite orb_false_r, any_file_spec. split.
      * intros H. right. split; [reflexivity | assumption].
      * intros [H | [_ H]]; [contradiction | assumption].
    + split; [discriminate|]. intros [H | [H _]]; [contradiction | discriminate].
Qed.

(** A form folder the catalog does not know has no duplicates. *)
Lemma is_file_already_uploaded_unknown_form self filename form_name existing_files :
  existing_files !! form_name = None ->
  is_file_already_uploaded self filename form_name existing_files = false.
Proof. intros H. unfold is_file_already_uploaded. rewrite H. reflexivity. Qed.

(** *** Names that differ in date and category only *)

Lemma split_nonempty sep s : Py.split sep s <> [].
Proof.
  destruct s as [|c s]; cbn [Py.split]; [discriminate|].
  destruct (c =? sep)%char; [discriminate|].
  destruct (Py.split sep s); discriminate.
Qed.

(** A text without the separator is its only part. *)
Lemma split_without_sep sep s :
  Py.char_in sep s = false -> Py.split sep s = [s].
Proof.
  induction s as [|c s IH]; cbn [Py.split Py.char_in]; [reflexivity|].
  rewrite orb_false_iff. intros [Hc Hs].
  rewrite Ascii.eqb_sym, Hc, (IH Hs). reflexivity.
Qed.

(** Splitting at a separator: the parts before it, then the parts after. *)
Lemma split_app_sep sep s t :
  Py.split sep (s +:+ String sep t) = (Py.split sep s ++ Py.split sep t)%list.
Proof.
  induction s as [|c s IH].
  - rewrite append_nil. cbn [Py.split]. rewrite Ascii.eqb_refl. reflexivity.
  - rewrite append_cons. cbn [Py.split].
    destruct (c =? sep)%char; rewrite IH; [reflexivity|].
    pose proof (split_nonempty sep s) as Hne.
    destruct (Py.split sep s); [contradiction | reflexivity].
Qed.

Lemma drop_app_length s t : Py.drop (String.length s) (s +:+ t) = t.
Proof.
  induction s as [|c s IH]; [reflexivity|]. rewrite append_cons. exact IH.
Qed.

Lemma endswith_app s suffix : Py.endswith suffix (s +:+ suffix) = true.
Proof.
  unfold Py.endswith. rewrite length_append.
  replace (String.length s + String.length suffix - String.length suffix)%nat
    with (String.length s) by lia.
  rewrite drop_app_length, String.eqb_refl.
  rewrite andb_true_r. apply Nat.leb_le. lia.
Qed.

Lemma endswith_inv suffix s :
  Py.endswith suffix s = true -> exists before, s = before +:+ suffix.
Proof.
  unfold Py.endswith. intros H. apply andb_true_iff in H. destruct H as [_ H].
  apply String.eqb_eq in H.
  exists (Py.take (String.length s - String.length suffix) s).
  transitivity (Py.take (String.length s - String.length suffix) s
                +:+ Py.drop (String.length s - String.length suffix) s).
  - symmetry. apply take_drop.
  - f_equal. exact H.
Qed.

(** A text that ends with a suffix ends with every tail of it. *)
Lemma endswith_tail before suffix s :
  Py.endswith (before +:+ suffix) s = true -> Py.endswith suffix s = true.
Proof.
  intros H. apply endswith_inv in H. destruct H as [x ->].
  rewrite <- append_assoc. apply endswith_app.
Qed.

Lemma contains_app_sep sep s t :
  Py.contains (String sep EmptyString) (s +:+ String sep t) = true.
Proof.
  induction s as [|c s IH].
  - rewrite append_nil. cbn. destruct (ascii_dec sep sep); [|contradiction].
    rewrite prefix_empty. reflexivity.
  - rewrite append_cons. apply contains_tail. exact IH.
Qed.

(** The row suffix of a name made of a date, a category, a row number
    and an extension, when neither the row number nor the extension
    holds an underscore or a further dot. *)
Lemma row_suffix_of_rich_name date category row ext :
  Py.char_in "_" row = false -> Py.char_in "." row = false ->
  Py.char_in "_" ext = false -> Py.char_in "." ext = false ->
  let name := date +:+ "_" +:+ category +:+ "_" +:+ row +:+ "." +:+ ext in
  (3 <= List.length (Py.split "_" name))%nat
  /\ row_suffix name = "_" +:+ row +:+ "." +:+ ext.
Proof.
  intros Hrow_ Hrow Hext_ Hext. cbv zeta.
  assert (Htail : Py.split "_" (row +:+ "." +:+ ext) = [row +:+ "." +:+ ext]).
  { apply split_without_sep. clear Hrow Hext.
    change (row +:+ "." +:+ ext) with (row +:+ String "." ext).
    induction row as [|c row IH].
    - rewrite append_nil. cbn [Py.char_in]. rewrite Hext_. reflexivity.
    - rewrite append_cons. cbn [Py.char_in] in *.
      apply orb_false_iff in Hrow_. destruct Hrow_ as [Hc Hr].
      rewrite Hc, (IH Hr). reflexivity. }
  assert (Hparts :
            Py.split "_" (date +:+ "_" +:+ category +:+ "_" +:+ row +:+ "." +:+ ext)
            = (Py.split "_" date ++ Py.split "_" category
               ++ [row +:+ "." +:+ ext])%list).
  { change (date +:+ "_" +:+ category +:+ "_" +:+ row +:+ "." +:+ ext)
      with (date +:+ String "_" (category +:+ String "_" (row +:+ "." +:+ ext))).
    rewrite !split_app_sep, Htail. reflexivity. }
  split.
  - rewrite Hparts, !length_app.
    pose proof (split_nonempty "_" date). pose proof (split_nonempty "_" category).
    destruct (Py.split "_" date), (Py.split "_" category); try contradiction.
    cbn. lia.
  - unfold row_suffix, Py.last_item. rewrite Hparts, app_assoc, last_last.
    change (row +:+ "." +:+ ext) with (row +:+ String "." ext).
    rewrite contains_app_sep, split_app_sep.
    rewrite (split_without_sep "." row Hrow), (split_without_sep "." ext Hext).
    reflexivity.
Qed.

(** Under the custom scheme a name is a duplicate of a file with the same
    row number and extension, whatever their dates and categories. *)
Lemma same_row_other_prefix_is_duplicate
    self form_name existing_files files date category date' category' row ext :
  existing_files !! form_name = Some files ->
  current_form_naming_format self = custom ->
  Py.char_in "_" row = false -> Py.char_in "." row = false ->
  Py.char_in "_" ext = false -> Py.char_in "." ext = false ->
  date' +:+ "_" +:+ category' +:+ "_" +:+ row +:+ "." +:+ ext ∈ files ->
  is_file_already_uploaded self
    (date +:+ "_" +:+ category +:+ "_" +:+ row +:+ "." +:+ ext)
    form_name existing_files = true.
Proof.
  intros Hform Hfmt Hrow_ Hrow Hext_ Hext Hin.
  destruct (row_suffix_of_rich_name date category row ext Hrow_ Hrow Hext_ Hext)
    as [Hparts Hsuffix].
  apply (is_file_already_uploaded_custom self _ form_name existing_files files);
    [assumption | assumption |].
  right. split; [assumption|].
  exists (date' +:+ "_" +:+ category' +:+ "_" +:+ row +:+ "." +:+ ext).
  split; [assumption|]. rewrite Hsuffix.
  replace (date' +:+ "_" +:+ category' +:+ "_" +:+ row +:+ "." +:+ ext)
    with ((date' +:+ "_" +:+ category') +:+ ("_" +:+ row +:+ "." +:+ ext))
    by (rewrite !append_assoc; reflexivity).
  apply endswith_app.
Qed.

End DestinationIndex.

(** ** The file name deriver: [create_filename] *)

Section Naming.

Implicit Types (s : string) (c : ascii) (row_data : pyval) (row_num : Z).

(** Substituting for a one-character class rewrites character by
    character. *)
Lemma sub_class p repl_char s :
  Re.sub (Re.Chr p) (Py.str1 repl_char) s
  = Py.map_chars (fun c => if p c then repl_char else c) s.
Proof.
  unfold Re.sub. induction s as [|c s IH]; [reflexivity|].
  cbn [Re.sub_from Py.map_chars]. unfold Re.match_prefix. cbn [Re.rmatch].
  destruct (p c); [|rewrite IH; reflexivity].
  replace (String.length (String c s) - String.length s)%nat with 1%nat
    by (cbn [String.length]; lia).
  cbn [Py.take String.length Nat.sub]. rewrite IH. reflexivity.
Qed.

Lemma sanitized_is_safe c : sanitized_char c = true -> safe_char c = true.
Proof.
  unfold sanitized_char, unsafe_char. rewrite negb_involutive.
  rewrite !orb_true_iff. intros [[Hw | Hdot] | Hdash].
  - apply word_is_safe. assumption.
  - unfold safe_char. cbn [Py.char_in]. rewrite Hdot, !orb_true_r. reflexivity.
  - unfold safe_char. cbn [Py.char_in]. rewrite Hdash, !orb_true_r. reflexivity.
Qed.

(** The two parts [splitext] returns are cut out of its argument. *)
Lemma splitext_chars p s :
  Py.forall_chars p s = true ->
  Py.forall_chars p (fst (Py.splitext s)) = true
  /\ Py.forall_chars p (snd (Py.splitext s)) = true.
Proof.
  intros H. unfold Py.splitext.
  destruct (Py.rfind1 "/" s <? Py.rfind1 "." s)%nat; [|split; [assumption | reflexivity]].
  destruct (Py.forall_chars Py.is_dot _); [split; [assumption | reflexivity]|].
  cbn [fst snd]. split; [apply forall_chars_take | apply forall_chars_drop]; assumption.
Qed.

(** A sanitized name holds word characters, dots and dashes only. *)
Lemma sanitize_filename_chars raw :
  Py.forall_chars sanitized_char (sanitize_filename raw) = true.
Proof.
  unfold sanitize_filename.
  change "_" with (Py.str1 "_"). rewrite sub_class.
  set (safe := Py.map_chars _ raw).
  assert (Hsafe : Py.forall_chars sanitized_char safe = true).
  { apply forall_chars_map. intros c. destruct (unsafe_char c) eqn:Hc.
    - reflexivity.
    - unfold sanitized_char. rewrite Hc. reflexivity. }
  destruct (100 <? Py.len safe); [|assumption].
  destruct (splitext_chars sanitized_char safe Hsafe) as [Hname Hext].
  destruct (Py.splitext safe) as [name ext]. cbn [fst snd] in *.
  rewrite forall_chars_app, Hext, (forall_chars_take _ _ _ Hname). reflexivity.
Qed.

(** *** The date *)

Lemma zero_padded_chars width n :
  Py.forall_chars digit_or_minus (Datetime.zero_padded width n) = true.
Proof.
  unfold Datetime.zero_padded.
  rewrite forall_chars_app, str_of_int_chars, forall_chars_take; reflexivity.
Qed.

Lemma strftime_chars dt :
  Py.forall_chars digit_or_minus (Datetime.strftime_Y_m_d dt) = true.
Proof.
  unfold Datetime.strftime_Y_m_d.
  rewrite !forall_chars_app, !zero_padded_chars, str_of_int_chars. reflexivity.
Qed.

Lemma iso_date_match_chars m :
  Re.matches iso_date_pattern m -> Py.forall_chars digit_or_minus m = true.
Proof.
  unfold iso_date_pattern. cbv zeta. intros H.
  repeat match goal with
         | H : Re.matches (Re.Cat _ _) _ |- _ =>
             apply matches_cat_inv in H; destruct H as (? & ? & -> & ? & H)
         end.
  repeat match goal with
         | H : Re.matches (Re.Chr _) _ |- _ =>
             apply matches_chr_inv in H; destruct H as (? & -> & ?)
         end.
  rewrite !append_cons, !append_nil. cbn [Py.forall_chars].
  unfold digit_or_minus, Re.is_char in *.
  repeat match goal with
         | H : _ = true |- _ => rewrite H; clear H
         end.
  rewrite ?orb_true_r. reflexivity.
Qed.

Lemma Ok_inj {A : Type} (a b : A) : Ok a = Ok b -> a = b.
Proof. congruence. Qed.

(** The formatted date is made of digits and dashes. *)
Lemma try_formats_chars date_str formats formatted :
  try_formats date_str formats = Ok formatted ->
  Py.forall_chars digit_or_minus formatted = true.
Proof.
  induction formats as [|fmt formats IH]; cbn [try_formats]; unfold rbind.
  - destruct (as_str date_str) as [text|e]; [|discriminate].
    destruct (Re.search iso_date_pattern text) as [m|] eqn:Hm.
    + intros H. apply Ok_inj in H. subst formatted.
      apply search_sound in Hm. apply iso_date_match_chars in Hm.
      rewrite !forall_chars_app, !forall_chars_take;
        try reflexivity; try apply forall_chars_drop; assumption.
    + intros [= <-]. reflexivity.
  - destruct (method_strip date_str) as [text|e].
    + destruct (Datetime.strptime text fmt) as [dt|e].
      * intros [= <-]. apply strftime_chars.
      * destruct (is_ValueError e); [exact IH | discriminate].
    + destruct (is_ValueError e); [exact IH | discriminate].
Qed.

Lemma format_date_chars date_str :
  Py.forall_chars digit_or_minus (format_date date_str) = true.
Proof.
  unfold format_date. destruct (negb (Val.truthy date_str)); [reflexivity|].
  destruct (try_formats date_str date_formats) as [formatted|e] eqn:H;
    [|reflexivity].
  apply (try_formats_chars _ _ _ H).
Qed.

(** *** The category *)

Lemma clean_text_chars text cleaned :
  clean_text_for_filename text = Ok cleaned ->
  Py.forall_chars filename_char cleaned = true.
Proof.
  unfold clean_text_for_filename.
  destruct (negb (Val.truthy text)); [intros [= <-]; reflexivity|].
  destruct text; try discriminate. intros [= <-]. apply forall_chars_filter.
Qed.

(** *** The name *)

Lemma extension_chars base :
  Py.forall_chars safe_char base = true ->
  Py.forall_chars safe_char (extension_or_jpg base) = true.
Proof.
  intros H. unfold extension_or_jpg.
  destruct (nonempty (snd (Py.splitext base))); [|reflexivity].
  apply (splitext_chars safe_char base H).
Qed.

Lemma sanitize_filename_safe raw :
  Py.forall_chars safe_char (sanitize_filename raw) = true.
Proof.
  apply (forall_chars_weaken sanitized_char); [apply sanitized_is_safe|].
  apply sanitize_filename_chars.
Qed.

(** The fallback name of a sanitized base passes the final filter
    unchanged. *)
Lemma fallback_name_safe row_num base :
  Py.forall_chars safe_char base = true ->
  Py.filter_chars safe_char ("row" +:+ Py.str_of_int row_num +:+ "_" +:+ base)
  = "row" +:+ Py.str_of_int row_num +:+ "_" +:+ base.
Proof.
  intros H. apply filter_chars_id.
  rewrite !forall_chars_app, str_of_int_safe, H. reflexivity.
Qed.

(** What [create_filename] returns for a sanitized base name, as one
    equation. *)
Lemma create_filename_eq row_data row_num raw date_column type_column self :
  let base := sanitize_filename raw in
  let date := normalized_date row_data date_column in
  let category := normalized_category row_data type_column in
  create_filename row_data row_num base date_column type_column self
  = if nonempty date && nonempty category
    then (date +:+ "_" +:+ category +:+ "_" +:+ Py.str_of_int row_num
          +:+ extension_or_jpg base,
          with_naming custom self)
    else ("row" +:+ Py.str_of_int row_num +:+ "_" +:+ base,
          with_naming fallback self).
Proof.
  cbv zeta.
  pose proof (sanitize_filename_safe raw) as Hbase.
  set (base := sanitize_filename raw) in *.
  unfold create_filename, create_filename_body, normalized_date,
    normalized_category, rbind.
  destruct (Val.get row_data date_column (PStr EmptyString)) as [date_value|e].
  - destruct (Val.get row_data type_column (PStr EmptyString)) as [receipt_type|e].
    + destruct (clean_text_for_filename receipt_type) as [cleaned|e] eqn:Hclean.
      * fold (extension_or_jpg base).
        destruct (nonempty (format_date date_value) && nonempty cleaned).
        -- f_equal. apply filter_chars_id.
           rewrite !forall_chars_app, str_of_int_safe, extension_chars by assumption.
           rewrite (forall_chars_weaken _ _ _ digit_or_minus_is_safe (format_date_chars _)).
           rewrite (forall_chars_weaken _ _ _ filename_char_is_safe
                      (clean_text_chars _ _ Hclean)).
           reflexivity.
        -- f_equal. apply fallback_name_safe. assumption.
      * rewrite andb_false_r. reflexivity.
    + rewrite andb_false_r. reflexivity.
  - reflexivity.
Qed.

(** The flag reads custom after the call exactly when both the
    normalized date and the normalized category are non-empty. *)
Corollary create_filename_flag row_data row_num raw date_column type_column self :
  current_form_naming_format
    (snd (create_filename row_data row_num (sanitize_filename raw)
            date_column type_column self)) = custom
  <-> normalized_date row_data date_column <> EmptyString
      /\ normalized_category row_data type_column <> EmptyString.
Proof.
  pose proof (create_filename_eq row_data row_num raw date_column type_column self)
    as Heq.
  cbv zeta in Heq. rewrite Heq. unfold nonempty.
  destruct (String.eqb_spec (normalized_date row_data date_column) EmptyString)
    as [Hd | Hd];
    destruct (String.eqb_spec (normalized_category row_data type_column) EmptyString)
      as [Hc | Hc];
    cbn; split; try discriminate; intuition congruence.
Qed.

(** A record that lacks the date field or the category field gets the
    fallback name. *)
Corollary create_filename_without_fields d row_num raw date_column type_column self :
  Val.dict_get d date_column = None \/ Val.dict_get d type_column = None ->
  create_filename (PDict d) row_num (sanitize_filename raw) date_column type_column self
  = ("row" +:+ Py.str_of_int row_num +:+ "_" +:+ sanitize_filename raw,
     with_naming fallback self).
Proof.
  intros Hmissing.
  pose proof (create_filename_eq (PDict d) row_num raw date_column type_column self)
    as Heq.
  cbv zeta in Heq. rewrite Heq.
  assert (Hempty : nonempty (normalized_date (PDict d) date_column)
                   && nonempty (normalized_category (PDict d) type_column) = false).
  { unfold normalized_date, normalized_category. cbn [Val.get].
    destruct Hmissing as [-> | ->].
    - reflexivity.
    - apply andb_false_r. }
  rewrite Hempty. reflexivity.
Qed.

End Naming.

(** ** The attachment extractor: [parse_attachments] and [get_download_url] *)

Section Extraction.

(** A match of the URL pattern starts with [http]. *)
Lemma url_match_prefix u : Re.matches url_pattern u -> String.prefix "http" u = true.
Proof.
  unfold url_pattern. intros H.
  apply matches_cat_inv in H. destruct H as (scheme & more & -> & Hscheme & _).
  cbn [Re.Lit] in Hscheme.
  repeat match goal with
         | H : Re.matches (Re.Cat _ _) _ |- _ =>
             apply matches_cat_inv in H; destruct H as (? & ? & -> & ? & H)
         end.
  repeat match goal with
         | H : Re.matches (Re.Chr _) _ |- _ =>
             apply matches_chr_inv in H; destruct H as (? & -> & H)
         end.
  unfold Re.is_char in *.
  repeat match goal with
         | H : (_ =? _)%char = true |- _ => apply Ascii.eqb_eq in H; subst
         end.
  rewrite !append_cons, !append_nil. apply (prefix_app "http" "http" more).
  reflexivity.
Qed.

Lemma prefix_of_tail_contains needle s :
  forall n, String.prefix needle (Py.drop n s) = true -> Py.contains needle s = true.
Proof.
  induction s as [|c s IH]; intros n H.
  - destruct n; apply prefix_contains; exact H.
  - destruct n as [|n].
    + apply prefix_contains. exact H.
    + apply contains_tail. apply (IH n). exact H.
Qed.

(** A text without [http] has no URL for the scan to find. *)
Lemma no_http_no_urls text :
  Py.contains "http" text = false -> Re.findall url_pattern text = [].
Proof.
  intros Hno. destruct (Re.findall url_pattern text) as [|u l] eqn:Hfound;
    [reflexivity|].
  destruct (findall_from_sound url_pattern text 0 u) as (Hm & rest & n & Htail).
  { unfold Re.findall in Hfound. rewrite Hfound. left. reflexivity. }
  apply url_match_prefix in Hm.
  rewrite (prefix_of_tail_contains "http" text n) in Hno; [discriminate|].
  rewrite Htail. apply prefix_app. exact Hm.
Qed.

Lemma no_http_no_fallback text :
  Py.contains "http" text = false -> extract_urls_fallback text = [].
Proof.
  intros H. unfold extract_urls_fallback. rewrite (no_http_no_urls text H).
  reflexivity.
Qed.

Lemma startswith_first c rest s :
  Py.startswith (String c rest) s = true -> Py.startswith (Py.str1 c) s = true.
Proof.
  unfold Py.startswith, Py.str1. destruct s as [|d s]; cbn [String.prefix]; [trivial|].
  destruct (ascii_dec c d); [|discriminate]. intros _. apply prefix_empty.
Qed.

(** The three cases the method tells apart are two: a text in brackets
    is left as it is, a text in double quotes loses them. *)
Lemma quoted_array_is_quoted text :
  let q := Py.str1 Py.dquote in
  (if Py.startswith "[" text && Py.endswith "]" text then text
   else if Py.startswith (q +:+ "[") text && Py.endswith ("]" +:+ q) text
        then Py.slice_1_m1 text
        else if Py.startswith q text && Py.endswith q text then Py.slice_1_m1 text
             else text)
  = (if Py.startswith "[" text && Py.endswith "]" text then text
     else if Py.startswith q text && Py.endswith q text then Py.slice_1_m1 text
          else text).
Proof.
  cbv zeta. destruct (Py.startswith "[" text && Py.endswith "]" text); [reflexivity|].
  destruct (Py.startswith (Py.str1 Py.dquote +:+ "[") text
            && Py.endswith ("]" +:+ Py.str1 Py.dquote) text) eqn:Harray;
    [|reflexivity].
  apply andb_true_iff in Harray. destruct Harray as [Hstart Hend].
  rewrite (startswith_first Py.dquote "[" text Hstart).
  rewrite (endswith_tail "]" (Py.str1 Py.dquote) text Hend). reflexivity.
Qed.

(** What [parse_attachments] returns past its first test: the decoded
    value made a list, or what the URL scan finds. *)
Lemma parse_attachments_decoded attachments_str :
  Py.strip attachments_str <> EmptyString ->
  attachments_str <> "nan" ->
  parse_attachments attachments_str
  = Ok match decoded attachments_str with
       | Some (PList l) => l
       | Some (PDict d) => [PDict d]
       | Some _ => []
       | None => extract_urls_fallback attachments_str
       end.
Proof.
  intros Hblank Hnan. unfold parse_attachments.
  assert (Hempty : attachments_str <> EmptyString).
  { intros ->. apply Hblank. reflexivity. }
  destruct (String.eqb_spec attachments_str EmptyString) as [|_]; [contradiction|].
  destruct (String.eqb_spec (Py.strip attachments_str) EmptyString) as [|_];
    [contradiction|].
  destruct (String.eqb_spec attachments_str "nan") as [|_]; [contradiction|].
  cbn [orb]. cbv zeta. rewrite quoted_array_is_quoted. cbv zeta.
  unfold decoded. fold (unwrapped attachments_str).
  unfold try_except.
  destruct (Json.loads (unwrapped attachments_str)) as [attachments|e].
  - destruct attachments; reflexivity.
  - destruct (is_JSONDecodeError e); [|reflexivity].
    destruct (Json.loads _) as [attachments|e'].
    + destruct attachments; reflexivity.
    + destruct (is_JSONDecodeError e'); reflexivity.
Qed.

Lemma parse_attachments_blank attachments_str :
  attachments_str = EmptyString
  \/ Py.strip attachments_str = EmptyString
  \/ attachments_str = "nan" ->
  parse_attachments attachments_str = Ok [].
Proof.
  intros Hblank. unfold parse_attachments.
  destruct Hblank as [-> | [H | ->]]; [reflexivity | | reflexivity].
  rewrite H. cbn. rewrite orb_true_r. reflexivity.
Qed.

(** C7, as amended: [parse_attachments] never raises, and it returns an
    empty list for the empty text, for blank text and for the text
    [nan].  For any other text it returns the value the text stands for,
    made a list: the elements of an array, an object as the one element,
    nothing for another value; and when the text stands for no value,
    the records of the URL scan, which are none for a text without
    [http].  This is stated for the texts of at most a hundred opening
    brackets and braces that name no character by its number, where the
    decoder is far from the depth at which the interpreter stops it.
    The screening for markers is done by [process_form_media],
    which passes over a field value that shows none of them before any
    parsing: nothing is counted and nothing requested. *)
Theorem parse_attachments_never_raises attachments_str :
  (exists attachments, parse_attachments attachments_str = Ok attachments)
  /\ (attachments_str = EmptyString
      \/ Py.strip attachments_str = EmptyString
      \/ attachments_str = "nan" ->
      parse_attachments attachments_str = Ok [])
  /\ (Py.strip attachments_str <> EmptyString ->
      attachments_str <> "nan" ->
      plain_json_text attachments_str ->
      parse_attachments attachments_str
      = Ok match decoded attachments_str with
           | Some (PList l) => l
           | Some (PDict d) => [PDict d]
           | Some _ => []
           | None => extract_urls_fallback attachments_str
           end)
  /\ (Py.contains "http" attachments_str = false ->
      extract_urls_fallback attachments_str = [])
  /\ (forall net existing_files safe_form_name form_folder submission row_num
             col_name col_value state,
        any_in_lower media_markers (Val.str col_value) = false ->
        process_column net existing_files safe_form_name form_folder submission
          row_num col_name col_value state
        = (Ok tt, state, [])).
Proof.
  split; [|split; [|split; [|split]]].
  - destruct (String.eqb_spec (Py.strip attachments_str) EmptyString) as [Hblank|Hblank].
    + rewrite parse_attachments_blank by auto. eauto.
    + destruct (String.eqb_spec attachments_str "nan") as [Hnan|Hnan].
      * rewrite parse_attachments_blank by auto. eauto.
      * rewrite (parse_attachments_decoded attachments_str Hblank Hnan). eauto.
  - apply parse_attachments_blank.
  - intros Hblank Hnan _. apply parse_attachments_decoded; assumption.
  - apply no_http_no_fallback.
  - intros net existing_files safe_form_name form_folder submission row_num
      col_name col_value state Hnone.
    unfold process_column. unfold media_markers in Hnone.
    destruct (negb (Val.truthy col_value)); [reflexivity|].
    rewrite Hnone. reflexivity.
Qed.

(** [get_download_url] on an attachment record: the first of the three
    keys whose value is there and true. *)
Lemma get_download_url_dict d :
  get_download_url (PDict d)
  = Ok (match preferred_url d with Some url => url | None => PNone end).
Proof.
  unfold get_download_url, url_keys, preferred_url, usable_url.
  cbn [first_url Val.contains_key Val.getitem rbind].
  repeat match goal with
         | |- context [Val.dict_get d ?k] =>
             destruct (Val.dict_get d k) as [?v|]; cbn [rbind]
         | |- context [Val.truthy ?v] => destruct (Val.truthy v) eqn:?
         end; reflexivity.
Qed.

(** A preferred address is a true value. *)
Lemma preferred_url_truthy d url : preferred_url d = Some url -> Val.truthy url = true.
Proof.
  unfold preferred_url, usable_url.
  repeat match goal with
         | |- context [Val.dict_get d ?k] =>
             destruct (Val.dict_get d k) as [?v|]
         | |- context [if Val.truthy ?v then _ else _] =>
             destruct (Val.truthy v) eqn:?
         end; intros [= <-] || discriminate; assumption.
Qed.

(** The loop over attachment records keeps, in order, the candidates of
    the records that have one. *)
Lemma media_of_attachment_records ds row_num :
  media_of_attachments (map PDict ds) row_num
  = Ok (flat_map (candidate_of row_num) ds).
Proof.
  induction ds as [|d ds IH]; [reflexivity|].
  cbn [map media_of_attachments flat_map]. rewrite get_download_url_dict.
  unfold candidate_of at 1, rbind.
  destruct (preferred_url d) as [url|] eqn:Hurl.
  - rewrite (preferred_url_truthy d url Hurl). cbn [Val.get].
    rewrite IH. destruct (Val.dict_get d "filename"); reflexivity.
  - cbn [Val.truthy]. rewrite IH. reflexivity.
Qed.

(** C8: the field value with one record whose [download_url] is
    [http://x/a.jpg] yields exactly one candidate, with that address; and
    in general the address of a record is the value of the first of the
    keys [download_large_url], [download_url], [download_medium_url]
    that is there and true, a record with none of them yielding no
    candidate. *)
Theorem extraction_by_url_preference :
  (parse_attachments (qq "[{`download_url`:`http://x/a.jpg`}]")
   = Ok [PDict [("download_url", PStr "http://x/a.jpg")]]
   /\ forall row_num,
        find_media (qq "[{`download_url`:`http://x/a.jpg`}]") row_num
        = Ok [mk_media (PStr "http://x/a.jpg")
                (PStr ("media_" +:+ Py.str_of_int row_num))])
  /\ (forall d,
        get_download_url (PDict d)
        = Ok (match preferred_url d with Some url => url | None => PNone end))
  /\ (forall ds row_num,
        media_of_attachments (map PDict ds) row_num
        = Ok (flat_map (candidate_of row_num) ds))
  /\ (forall d row_num, preferred_url d = None -> candidate_of row_num d = []).
Proof.
  split; [|split; [|split]].
  - split; [vm_compute; reflexivity | intros row_num; reflexivity].
  - apply get_download_url_dict.
  - apply media_of_attachment_records.
  - intros d row_num H. unfold candidate_of. rewrite H. reflexivity.
Qed.

End Extraction.

(** C7 as stated fails on a text that stands for a value: the field
    value below shows none of the media extensions and holds no URL; it
    passes the screening of [process_form_media] by the word
    [attachment] and holds a bracket, so that it is parsed, and
    [parse_attachments] returns the one element of the array. *)
Lemma marked_text_without_url_is_parsed :
  let value_str := "['attachment']" in
  any_in_lower media_markers value_str = true
  /\ Py.contains "[" value_str || Py.contains "{" value_str = true
  /\ Py.contains "http" value_str = false
  /\ Re.findall url_pattern value_str = []
  /\ any_in_lower [".jpg"; ".jpeg"; ".png"; ".gif"; ".pdf"; ".mp4"] value_str = false
  /\ parse_attachments value_str = Ok [PStr "attachment"].
Proof. cbv zeta. repeat split; vm_compute; reflexivity. Qed.

Lemma extraction_by_url_preference_witness :
  candidate_of 4 [("download_url", PStr EmptyString); ("filename", PStr "a.jpg")] = [].
Proof.
  apply (proj2 (proj2 (proj2 extraction_by_url_preference))). reflexivity.
Defined.

(** A blank field, a field that reads [nan], an array in single quotes,
    an object in double quotes and a text that stands for no value. *)
Lemma parse_attachments_never_raises_witness :
  parse_attachments "   " = Ok []
  /\ parse_attachments "nan" = Ok []
  /\ parse_attachments "['attachment']" = Ok [PStr "attachment"]
  /\ parse_attachments (qq "`{\`filename\`: \`attachment\`}`")
     = Ok [PDict [("filename", PStr "attachment")]]
  /\ parse_attachments "[attachment" = Ok []
  /\ extract_urls_fallback "[attachment" = []
  /\ process_column (sample_network None 201 200 202) sample_catalog "Form"
       "Main/Form" (PDict [("note", PStr "[1]")]) 1 "note" (PStr "[1]")
       (sample_self, mk_form_stats 0 0 0)
     = (Ok tt, (sample_self, mk_form_stats 0 0 0), []).
Proof.
  assert (Hplain : forall s,
             (String.length (Py.filter_chars opening s) <=? 100)%nat
             && negb (Py.contains (String Py.backslash "u") s) = true ->
             plain_json_text s).
  { intros s H. apply andb_true_iff in H. destruct H as [Hopen Hescape].
    split; [apply Nat.leb_le; exact Hopen | apply negb_true_iff; exact Hescape]. }
  split; [|split; [|split; [|split; [|split; [|split]]]]].
  - apply (proj1 (proj2 (parse_attachments_never_raises "   "))).
    right. left. reflexivity.
  - apply (proj1 (proj2 (parse_attachments_never_raises "nan"))).
    right. right. reflexivity.
  - rewrite (proj1 (proj2 (proj2 (parse_attachments_never_raises "['attachment']"))));
      [reflexivity | discriminate | discriminate | apply Hplain; reflexivity].
  - rewrite (proj1 (proj2 (proj2 (parse_attachments_never_raises
                                    (qq "`{\`filename\`: \`attachment\`}`")))));
      [reflexivity | discriminate | discriminate | apply Hplain; reflexivity].
  - rewrite (proj1 (proj2 (proj2 (parse_attachments_never_raises "[attachment"))));
      [reflexivity | discriminate | discriminate | apply Hplain; reflexivity].
  - apply (proj1 (proj2 (proj2 (proj2 (parse_attachments_never_raises "[attachment"))))).
    reflexivity.
  - apply (proj2 (proj2 (proj2 (proj2 (parse_attachments_never_raises "[1]"))))).
    reflexivity.
Defined.

(** ** The orchestrator: [process_form_media] *)

Section Orchestrator.

Variable net : network.
Variable existing_files : gmap string (gset string).
Variables safe_form_name col_folder : string.

(** [create_filename] overwrites the flag: the value it finds there plays
    no part. *)
Lemma create_filename_overwrites_flag
    row_data row_num base date_column type_column form_level self :
  create_filename row_data row_num base date_column type_column
    (with_naming form_level self)
  = create_filename row_data row_num base date_column type_column self.
Proof.
  unfold create_filename.
  destruct (create_filename_body _ _ _ _ _) as [[name fmt]|e]; reflexivity.
Qed.

Lemma create_filename_scheme row_data row_num raw self :
  current_form_naming_format
    (snd (create_filename row_data row_num (sanitize_filename raw)
            "Date" "Receipt_Type" self))
  = scheme_of row_data.
Proof.
  pose proof (create_filename_eq row_data row_num raw "Date" "Receipt_Type" self)
    as Heq.
  cbv zeta in Heq. rewrite Heq. unfold scheme_of.
  destruct (nonempty _ && nonempty _); reflexivity.
Qed.

(** C2, as amended: the flag is not fixed for the form.  Whatever value
    it holds when an attachment comes up, for one the value set from the
    first submission, the processing of the attachment is the same: the
    name is derived first, which sets the flag to the scheme of that
    name, and the duplicate check reads the flag as the derivation left
    it; a name found in the catalog that way is skipped and counted. *)
Theorem duplicate_check_reads_scheme_of_derived_name
    submission row_num media raw form_stats self :
  media_filename media = PStr raw ->
  let counted := with_stats (add_total_media 1) self in
  let derived :=
    create_filename submission row_num (sanitize_filename raw)
      "Date" "Receipt_Type" counted in
  current_form_naming_format (snd derived) = scheme_of submission
  /\ (forall form_level,
        process_media net existing_files safe_form_name col_folder
          submission row_num media (with_naming form_level self, form_stats)
        = process_media net existing_files safe_form_name col_folder
            submission row_num media (self, form_stats))
  /\ (catalog_given existing_files
      && is_file_already_uploaded (snd derived) (fst derived) safe_form_name
           existing_files = true ->
      process_media net existing_files safe_form_name col_folder
        submission row_num media (self, form_stats)
      = (Ok tt,
         (with_stats (add_skipped 1) (snd derived), add_form_skipped 1 form_stats),
         []))
  /\ (catalog_given existing_files
      && is_file_already_uploaded (snd derived) (fst derived) safe_form_name
           existing_files = false ->
      requests_of
        (process_media net existing_files safe_form_name col_folder
           submission row_num media (self, form_stats))
      = requests_of
          (stream_media_to_sharepoint net (media_url media) col_folder
             (fst derived) (snd derived))).
Proof.
  intros Hname. cbv zeta.
  split; [apply create_filename_scheme|].
  split; [|split].
  - intros form_level.
    unfold process_media, bind, on_self, on_form_stats, modify, lift, get_state.
    cbn [fst snd]. rewrite Hname. cbn [as_str fst snd].
    change (with_stats (add_total_media 1) (with_naming form_level self))
      with (with_naming form_level (with_stats (add_total_media 1) self)).
    rewrite create_filename_overwrites_flag. reflexivity.
  - intros Hdup.
    unfold process_media, bind, on_self, on_form_stats, modify, lift, get_state.
    cbn [fst snd]. rewrite Hname. cbn [as_str fst snd].
    destruct (create_filename _ _ _ _ _ _) as [filename self'].
    cbn [fst snd] in *. rewrite Hdup. reflexivity.
  - intros Hdup.
    unfold process_media, bind, on_self, on_form_stats, modify, lift, get_state,
      requests_of.
    cbn [fst snd]. rewrite Hname. cbn [as_str fst snd].
    destruct (create_filename _ _ _ _ _ _) as [filename self'].
    cbn [fst snd] in *. rewrite Hdup. cbv beta iota. cbn [fst snd].
    destruct (stream_media_to_sharepoint net (media_url media) col_folder
                filename self') as [[[[]|e] self''] log];
      cbn [fst snd app]; rewrite ?app_nil_r; reflexivity.
Qed.

End Orchestrator.

(** C2 as stated fails on the sample form.  Its first submission sets the
    custom scheme.  The photo of its second submission is named
    [row2_b.jpg]; under the custom scheme the catalog would not hold a
    duplicate of that name, yet the form is processed with one skip and
    a single transfer, that of the first photo: the check for the second
    photo ran under the fallback scheme. *)
Lemma later_submission_is_checked_under_its_own_scheme :
  let self := sample_self in
  let net := sample_network (Some "3") 201 200 202 in
  current_form_naming_format
    (snd (create_filename (hd PNone sample_form) 1 "test.jpg"
            "Date" "Receipt_Type" self)) = custom
  /\ fst (create_filename (nth 1 sample_form PNone) 2 (sanitize_filename "b.jpg")
            "Date" "Receipt_Type" self) = "row2_b.jpg"
  /\ is_file_already_uploaded (with_naming custom self) "row2_b.jpg" "Form"
       sample_catalog = false
  /\ is_file_already_uploaded (with_naming fallback self) "row2_b.jpg" "Form"
       sample_catalog = true
  /\ (let out := process_form_media net sample_form "Form" "Main" sample_catalog self in
      fst (fst out) = mk_form_stats 1 0 1
      /\ snd out
         = [KoboGet (PStr "http://x/a.jpg");
            ReadContent;
            SpPut (content_url self "Main/Form/photo" "2025-06-26_Fuel_1.jpg")
                  sample_body]).
Proof. cbv zeta. repeat split; vm_compute; reflexivity. Qed.

Lemma duplicate_check_reads_scheme_of_derived_name_witness :
  let net := sample_network (Some "3") 201 200 202 in
  let submission := nth 1 sample_form PNone in
  let media := mk_media (PStr "http://x/b.jpg") (PStr "b.jpg") in
  process_media net sample_catalog "Form" "Main/Form/photo" submission 2 media
    (with_naming custom sample_self, mk_form_stats 1 0 0)
  = process_media net sample_catalog "Form" "Main/Form/photo" submission 2 media
      (sample_self, mk_form_stats 1 0 0).
Proof.
  cbv zeta.
  apply (proj1 (proj2 (duplicate_check_reads_scheme_of_derived_name
                         (sample_network (Some "3") 201 200 202) sample_catalog
                         "Form" "Main/Form/photo" (nth 1 sample_form PNone) 2
                         (mk_media (PStr "http://x/b.jpg") (PStr "b.jpg")) "b.jpg"
                         (mk_form_stats 1 0 0) sample_self eq_refl))).
Defined.

(** * The library models on sample inputs

    The values on the right are those the interpreter gives. *)

Example splitext_examples :
  map Py.splitext
    ["a.b"; ".bashrc"; "..a"; "a.b/c"; "a."; "a..b"; "..."; "x/.b"; "a.b.c";
     "/.a.b"; ".a."; ""]
  = [("a", ".b"); (".bashrc", ""); ("..a", ""); ("a.b/c", ""); ("a", ".");
     ("a.", ".b"); ("...", ""); ("x/.b", ""); ("a.b", ".c"); ("/.a", ".b");
     (".a", "."); ("", "")].
Proof. vm_compute. reflexivity. Qed.

Example int_examples :
  map Py.int
    ["42"; " 42 "; "+42"; "4_2"; "-5"; "4 2"; ""; "0x10"; "_42"; "4__2"; "42_";
     "-"; "007"]
  = [Ok 42; Ok 42; Ok 42; Ok 42; Ok (-5); Raise ValueError; Raise ValueError;
     Raise ValueError; Raise ValueError; Raise ValueError; Raise ValueError;
     Raise ValueError; Ok 7].
Proof. vm_compute. reflexivity. Qed.

Example split_examples :
  map (Py.split "_") ["a_b__c"; ""; "_"; "abc"]
  = [["a"; "b"; ""; "c"]; [""]; [""; ""]; ["abc"]].
Proof. vm_compute. reflexivity. Qed.

Example replace_examples :
  (Py.replace "XX" "Y" "aXbXX", Py.replace "aa" "b" "aaa", Py.replace " " "_" "a b c")
  = ("aXbY", "ba", "a_b_c").
Proof. vm_compute. reflexivity. Qed.

Example slice_and_strip_examples :
  (Py.slice_1_m1 "abc", Py.slice_1_m1 "a", Py.slice_1_m1 "", Py.slice_1_m1 "ab",
   Py.strip "  a b  ", Py.rstrip "'" "x'y''", Py.str_of_int (-50), Py.str_of_int 0,
   Py.lower "AbC.JPG", Py.endswith "_1.jpg" "b_1.jpg", Py.endswith "" "x",
   Py.contains "ttp" "http", Py.contains "" "")
  = ("b", "", "", "", "a b", "x'y", "-50", "0", "abc.jpg", true, true, true, true).
Proof. vm_compute. reflexivity. Qed.

Example str_of_values_example :
  Val.str (PList [PDict [("a", PStr "x"); ("b", PFloat true "1.5"); ("c", PNone);
                         ("d", PBool true); ("e", PList [PInt 1; PInt 2]);
                         ("f", PDict [])]])
  = "[{'a': 'x', 'b': 1.5, 'c': None, 'd': True, 'e': [1, 2], 'f': {}}]".
Proof. vm_compute. reflexivity. Qed.

Example repr_of_text_example :
  Val.repr_str
    (String "000" (String "031" (String "127" (String "128" (String "160"
       (String "173" (String "233" "a'b")))))))
  = String Py.dquote
      ("\x00\x1f\x7f\x80\xa0\xad" +:+ String "233" "a'b" +:+ Py.str1 Py.dquote).
Proof. vm_compute. reflexivity. Qed.

Example findall_example :
  Re.findall (Re.Cat (Re.Lit "a" "b") (Re.Plus (Re.Chr Py.isdecimal)))
    "xab12ab y ab345"
  = ["ab12"; "ab345"].
Proof. vm_compute. reflexivity. Qed.

Example json_loads_examples :
  map (fun s => Json.loads (qq s))
    ["[1]"; "{`a`:1}"; " [1] "; "-0"; "1e5"; "true"; "null"; "`a\tb`";
     "{`a`:1,`a`:2, `b`: [ ]}"; "{}"; "[]"; "`\/`"; "1e-400"; "1e400"; "-0.0";
     "[[[]]]"; "-1"; "0e0"; "NaN"; "-Infinity"; "[1 ,2]"; "{ }"; "`\\`";
     "1.5E+3"; "`\u00e9`"; "`\u4e2d`"]
  = [Ok (PList [PInt 1]); Ok (PDict [("a", PInt 1)]); Ok (PList [PInt 1]);
     Ok (PInt 0); Ok (PFloat true "1e5"); Ok (PBool true); Ok PNone;
     Ok (PStr (String "a" (String "009" "b")));
     Ok (PDict [("a", PInt 2); ("b", PList [])]); Ok (PDict []); Ok (PList []);
     Ok (PStr "/"); Ok (PFloat false "1e-400"); Ok (PFloat true "1e400");
     Ok (PFloat false "-0.0"); Ok (PList [PList [PList []]]); Ok (PInt (-1));
     Ok (PFloat false "0e0"); Ok (PFloat true "nan"); Ok (PFloat true "-inf");
     Ok (PList [PInt 1; PInt 2]); Ok (PDict []); Ok (PStr (Py.str1 Py.backslash));
     Ok (PFloat true "1.5E+3"); Ok (PStr (Py.str1 "233")); Ok (PStr "\u4e2d")].
Proof. vm_compute. reflexivity. Qed.

Example json_loads_refusals :
  map (fun s => match Json.loads (qq s) with Ok _ => true | Raise _ => false end)
    ["01"; "-"; "1."; ".5"; "-NaN"; "nan"; "`\x`"; "[1,]"; "[1] x"; ""; "{a:1}";
     "[`a` `b`]"; "`\u12`"; "{`a`:1,}"; "[,1]"; "tru"; "`abc"; "{`a`}"; "{`a`:}";
     "{1:2}"; "- 1"; "+1"; "0.5e"; "1e"; "`\U0041`"; "`\u+041`"; "[1]]"; "truee";
     "true false"; "`\a`"; "`\u00e`"; "`\`"; "0e"; "1.5e+"; "-01"; "00"]
  = repeat false 36.
Proof. vm_compute. reflexivity. Qed.

Example strptime_examples :
  map (fun s => match Datetime.strptime s (hd [] date_formats) with
                | Ok dt => Datetime.strftime_Y_m_d dt
                | Raise _ => "!"
                end)
    ["0999-01-02"; "2025-6-5"; "2025-06-261"; "2025-02-30"; "2025-06- 5";
     "0000-01-01"; "2024-02-29"; "2025-13-01"; "2025-1-1"; "2025-123-01";
     "2025-06-26"]
  = ["999-01-02"; "2025-06-05"; "!"; "!"; "2025-06-05"; "!"; "2024-02-29"; "!";
     "2025-01-01"; "!"; "2025-06-26"].
Proof. vm_compute. reflexivity. Qed.

Example url_pattern_examples :
  map (Re.findall url_pattern)
    ["http://x/a.jpg"; "see http://x/a.jpg, http://y.z/b.png]"; "http://x";
     "http://x."; "http://.x"; "https://a.b.c/d?e=f g"; "http://a..b";
     "xhttp://a.b"; "http://a.b/http://c.d"; "HTTP://a.b"; "http://a.b.";
     "https://"]
  = [["http://x/a.jpg"]; ["http://x/a.jpg"; "http://y.z/b.png"]; []; []; [];
     ["https://a.b.c/d?e=f"]; ["http://a..b"]; ["http://a.b"];
     ["http://a.b/http://c.d"]; []; ["http://a.b."]; []].
Proof. vm_compute. reflexivity. Qed.

(** * The methods on sample inputs *)

Example create_filename_custom_example :
  create_filename
    (PDict [("Date", PStr "2025-06-26"); ("Receipt_Type", PStr "Fuel / gas")])
    3 "photo.png" "Date" "Receipt_Type" sample_self
  = ("2025-06-26_Fuel___gas_3.png", with_naming custom sample_self).
Proof. vm_compute. reflexivity. Qed.

Example create_filename_fallback_example :
  create_filename
    (PDict [("Date", PStr "26/06/2025"); ("Receipt_Type", PStr "")])
    3 "photo.png" "Date" "Receipt_Type" (with_naming custom sample_self)
  = ("row3_photo.png", sample_self).
Proof. vm_compute. reflexivity. Qed.

Example format_date_examples :
  map (fun s => format_date (PStr s))
    ["06/26/2025"; "26/06/2025"; "2025-06-26 10:30:00"; "2025-06-26T10:30:00.123";
     "x 12345-67-890"; "2025-06-26T10:30:00Z"; "June 2025"; "2025-06-26t10:30:00";
     "13/13/2025"]
  = ["2025-06-26"; "2025-06-26"; "2025-06-26"; "2025-06-26"; "2345-67-89";
     "2025-06-26"; ""; "2025-06-26"; ""].
Proof. vm_compute. reflexivity. Qed.

Example format_date_of_other_values :
  map format_date [PNone; PInt 20250626; PFloat true "2025.0"; PList [PStr "2025-06-26"]]
  = [""; ""; ""; ""].
Proof. vm_compute. reflexivity. Qed.

Example parse_attachments_examples :
  map (fun s => parse_attachments (qq s))
    ["[{`download_url`:`http://x/a.jpg`}]"; "[{'download_url': 'http://x/a.jpg'}]";
     "`[{\`a\`: 1}]`"; "http://x/a.jpg and more"; "[1]"; "  "; "nan"; "5";
     "{`a`:[]}"]
  = [Ok [PDict [("download_url", PStr "http://x/a.jpg")]];
     Ok [PDict [("download_url", PStr "http://x/a.jpg")]];
     Ok [PDict [("a", PInt 1)]];
     Ok [PDict [("download_url", PStr "http://x/a.jpg"); ("filename", PStr "a.jpg")]];
     Ok [PInt 1]; Ok []; Ok []; Ok []; Ok [PDict [("a", PList [])]]].
Proof. vm_compute. reflexivity. Qed.

Example is_file_already_uploaded_examples :
  map (fun q => is_file_already_uploaded (with_naming (fst q) sample_self) (snd q) "F"
                  {[ "F" := {[ "b_1.jpg"; "2024-01-01_x_7.png"; "row4_old.jpg" ]} ]})
    [(custom, "a_1.jpg"); (custom, "a_c_1.jpg"); (custom, "2025-06-26_Fuel_7.png");
     (fallback, "row4_new.jpg"); (custom, "row4_new.jpg"); (fallback, "b_1.jpg");
     (fallback, "row44_a.jpg")]
  = [false; true; true; true; false; true; false].
Proof. vm_compute. reflexivity. Qed.

(** A record of attachments as the forms backend sends it: the field is
    a list of records, whose text is Python's, with single quotes. *)
Example find_media_of_record_list :
  find_media
    (Val.str (PList [PDict [("download_url", PStr "http://x/a.jpg");
                            ("filename", PStr "u/attachments/a.jpg")]]))
    7
  = Ok [mk_media (PStr "http://x/a.jpg") (PStr "u/attachments/a.jpg")].
Proof. vm_compute. reflexivity. Qed.

Example process_form_media_example :
  match process_form_media (sample_network (Some "3") 201 200 202) sample_form
          "Form" "Main" sample_catalog sample_self with
  | (form_stats, self', log) =>
      (form_stats, stats self', current_form_naming_format self', log)
  end
  = (mk_form_stats 1 0 1, mk_stats 2 1 0 1 3, fallback,
     [KoboGet (PStr "http://x/a.jpg"); ReadContent;
      SpPut "https://graph.microsoft.com/v1.0/sites/S/drives/D/root:/Main/Form/photo/2025-06-26_Fuel_1.jpg:/content"
            sample_body]).
Proof. vm_compute. reflexivity. Qed.

(** ** The transfer engine: failures of the source, and what a transfer
    leaves behind *)

Section TransferOutcome.

Variable net : network.

Ltac run_transfer :=
  unfold stream_media_to_sharepoint, stream_media_body, catch, bind, lift, call,
    ret, modify, get_state, returned, state_after, requests_of in *;
  cbn [fst snd] in *.

Ltac case_answer :=
  match goal with
  | |- context [upload_chunks net ?u ?f ?c ?o ?s] =>
      let H := fresh "Hloop" in
      pose proof (upload_chunks_state net u f c o s) as H;
      destruct (upload_chunks net u f c o s) as [[[[]|] ?] ?]; subst
  | |- context [match ?x with _ => _ end] =>
      lazymatch x with
      | context [match _ with _ => _ end] => fail
      | _ => destruct x eqn:?
      end
  | |- context [if ?x then _ else _] =>
      lazymatch x with
      | context [match _ with _ => _ end] => fail
      | context [if _ then _ else _] => fail
      | _ => destruct x eqn:?
      end
  end; cbn [fst snd negb] in *.

(** The state a transfer ends in: one transfer counted and some bytes
    credited, or one failure counted, and nothing else changed. *)
Lemma stream_media_state media_url sharepoint_path filename self :
  let out := stream_media_to_sharepoint net media_url sharepoint_path filename self in
  (returned out = Ok true
   /\ exists k, 0 <= k
        /\ state_after out
           = with_stats (add_total_size k) (with_stats (add_transferred 1) self))
  \/ (returned out = Ok false
      /\ state_after out = with_stats (add_failed 1) self).
Proof.
  run_transfer.
  repeat case_answer;
    first [ right; split; reflexivity
          | left; split; [reflexivity|];
            eexists; split; [|reflexivity];
            first [ apply Nat2Z.is_nonneg
                  | lia
                  | match goal with
                    | H : (_ <? small_file_limit) = false |- _ =>
                        apply Z.ltb_ge in H; unfold small_file_limit in H; lia
                    end ] ].
Qed.

(** The requests of the chunk loop are chunk requests. *)
Lemma upload_chunks_only_chunks upload_url file_size chunks :
  forall offset self,
    let log := requests_of (upload_chunks net upload_url file_size chunks offset self) in
    downloads log = 0 /\ written_addresses log = [].
Proof.
  unfold requests_of.
  induction chunks as [|next chunks IH]; intros offset self; cbn [upload_chunks].
  - split; reflexivity.
  - unfold bind, lift, call, modify, ret.
    destruct next as [chunk|e]; [|split; reflexivity].
    destruct chunk as [|b chunk].
    + specialize (IH offset self).
      destruct (upload_chunks net upload_url file_size chunks offset self)
        as [[r self'] log]. exact IH.
    + destruct (requests_put net upload_url _ _) as [status|e];
        [|split; reflexivity].
      destruct (status_in _ status); cbn [negb]; [|split; reflexivity].
      specialize (IH (offset + blen (b :: chunk)) self).
      destruct (upload_chunks net upload_url file_size chunks _ self)
        as [[r self'] log]. exact IH.
Qed.

(** A transfer asks the source once, and writes to no address but that
    of the file and that of its upload session. *)
Lemma stream_media_requests media_url sharepoint_path filename self :
  let log :=
    requests_of (stream_media_to_sharepoint net media_url sharepoint_path filename self) in
  downloads log = 1
  /\ Forall (fun url => url = content_url self sharepoint_path filename
                        \/ url = upload_session_url self sharepoint_path filename)
            (written_addresses log).
Proof.
  run_transfer.
  repeat match goal with
         | |- context [upload_chunks net ?u ?f ?c ?o ?s] =>
             pose proof (upload_chunks_only_chunks u f c o s) as [Hd Hw];
             unfold requests_of in Hd, Hw;
             destruct (upload_chunks net u f c o s) as [[[[]|] ?] ?];
             cbn [snd] in Hd, Hw
         | _ => case_answer
         end;
    cbn [fst snd app downloads written_addresses]; rewrite ?app_nil_r;
    cbn [fst snd app downloads written_addresses];
    rewrite ?Hd, ?Hw;
    (split;
     [reflexivity
     |repeat (apply List.Forall_cons;
              [first [left; reflexivity | right; reflexivity]|]);
      apply List.Forall_nil]).
Qed.

(** A transfer leaves the identifiers, the naming flag and the counters
    of found and skipped media as they were, and never lowers the byte
    total. *)
Theorem transfer_touches_outcome_counters_only
    media_url sharepoint_path filename self :
  let self' :=
    state_after (stream_media_to_sharepoint net media_url sharepoint_path filename self) in
  site_id self' = site_id self
  /\ sp_drive_id self' = sp_drive_id self
  /\ current_form_naming_format self' = current_form_naming_format self
  /\ total_media (stats self') = total_media (stats self)
  /\ skipped (stats self') = skipped (stats self)
  /\ total_size (stats self) <= total_size (stats self').
Proof.
  cbv zeta.
  destruct (stream_media_state media_url sharepoint_path filename self)
    as [[_ (k & Hk & ->)] | [_ ->]]; cbn; repeat split; lia.
Qed.

(** When the source cannot be reached, or answers with an HTTP error, the
    transfer returns [False] and counts one failure, and the destination
    is not contacted. *)
Theorem source_failure_sends_nothing media_url sharepoint_path filename self :
  (exists e, kobo_get net media_url = Raise e)
  \/ (exists resp e, kobo_get net media_url = Ok resp
                     /\ raise_for_status resp = Raise e) ->
  stream_media_to_sharepoint net media_url sharepoint_path filename self
  = (Ok false, with_stats (add_failed 1) self, [KoboGet media_url]).
Proof.
  intros [[e Hget] | (resp & e & Hget & Hstatus)]; run_transfer; rewrite Hget.
  - reflexivity.
  - cbn [fst snd]. rewrite Hstatus. reflexivity.
Qed.

(** A body whose declared length is below 4 MiB, and not so far below
    zero that its size in MiB is no float, is read whole and sent in one
    request to the address of the file; the transfer succeeds exactly
    when the destination answers 200 or 201, and it then credits the
    number of bytes read, whatever length was declared. *)
Theorem single_shot_credits_bytes_read
    media_url sharepoint_path filename self resp n data status :
  kobo_get net media_url = Ok resp ->
  raise_for_status resp = Ok tt ->
  declared_length (content_length resp) = Ok (Some n) ->
  n < 4 * 1024 * 1024 ->
  - float_bound < n ->
  content resp = Ok data ->
  sp_put net (content_url self sharepoint_path filename) data = Ok status ->
  stream_media_to_sharepoint net media_url sharepoint_path filename self
  = (Ok (status_in [200; 201] status),
     (if status_in [200; 201] status
      then with_stats (add_total_size (blen data))
             (with_stats (add_transferred 1) self)
      else with_stats (add_failed 1) self),
     [KoboGet media_url; ReadContent;
      SpPut (content_url self sharepoint_path filename) data]).
Proof.
  intros Hget Hok Hlen Hsmall Hbound Hdata Hput.
  assert (Hfloat : Z.abs n < float_bound).
  { assert (4 * 1024 * 1024 < float_bound) by (vm_compute; reflexivity). lia. }
  rewrite (single_shot_run net media_url sharepoint_path filename self resp n
             Hget Hok Hlen Hfloat Hsmall).
  unfold whole_body_upload, failed_after. rewrite Hdata. cbv zeta. rewrite Hput.
  destruct (status_in [200; 201] status); reflexivity.
Qed.

(** The chunk loop, when it runs to its end, has sent the chunks that are
    not empty, each once and in the order of the body. *)
Lemma upload_chunks_sends_all upload_url file_size chunks :
  forall offset self,
    let out := upload_chunks net upload_url file_size chunks offset self in
    returned out = Ok true ->
    chunk_data (requests_of out) = nonempty_chunks chunks.
Proof.
  unfold returned, requests_of.
  induction chunks as [|next chunks IH]; intros offset self; cbn [upload_chunks].
  - reflexivity.
  - unfold bind, lift, call, modify, ret.
    destruct next as [chunk|e]; [|discriminate].
    destruct chunk as [|b chunk].
    + specialize (IH offset self).
      destruct (upload_chunks net upload_url file_size chunks offset self)
        as [[r self'] log]. exact IH.
    + destruct (requests_put net upload_url _ _) as [status|e]; [|discriminate].
      destruct (status_in _ status); cbn [negb]; [|discriminate].
      specialize (IH (offset + blen (b :: chunk)) self).
      destruct (upload_chunks net upload_url file_size chunks _ self)
        as [[r self'] log]. cbn [fst snd app chunk_data nonempty_chunks] in *.
      intros H. rewrite (IH H). reflexivity.
Qed.

(** A chunked upload that succeeds has sent every chunk of the body that
    is not empty, each once and in order: the bodies of its chunk
    requests are those chunks. *)
Theorem chunked_success_sends_every_chunk
    media_url sharepoint_path filename self resp len session :
  kobo_get net media_url = Ok resp ->
  raise_for_status resp = Ok tt ->
  declared_length (content_length resp) = Ok len ->
  (forall n, len = Some n -> 4 * 1024 * 1024 <= n) ->
  sp_post net (upload_session_url self sharepoint_path filename) = Ok session ->
  session_status_code session = 200 ->
  let out := stream_media_to_sharepoint net media_url sharepoint_path filename self in
  returned out = Ok true ->
  chunk_data (requests_of out) = nonempty_chunks (iter_content resp (320 * 1024)).
Proof.
  intros Hget Hok Hlen Hbig Hpost Hcode. cbv zeta.
  destruct (length_cases len) as [Hfloat | (n & -> & Hbound)].
  - pose proof (chunked_run net media_url sharepoint_path filename self resp len
                  Hget Hok Hlen Hfloat Hbig) as Hrun.
    cbv zeta in Hrun. rewrite Hrun, Hpost, Hcode. clear Hrun.
    cbn [Z.eqb Pos.eqb].
    destruct (session_json session) as [json|e]; [|discriminate].
    destruct (Val.getitem json "uploadUrl") as [upload_url|e]; [|discriminate].
    unfold chunked_upload, failed_after, chunk_size. cbv zeta.
    pose proof (upload_chunks_sends_all upload_url
                  (match len with Some n => n | None => 0 end)
                  (iter_content resp (320 * 1024)) 0 self) as Hall.
    cbv zeta in Hall.
    destruct (returned (upload_chunks _ _ _ _ _ _)) as [[]|e];
      try discriminate.
    intros _. unfold requests_of at 1. cbn [snd app chunk_data].
    apply Hall. reflexivity.
  - rewrite (unmeasurable_run net media_url sharepoint_path filename self resp n
               Hget Hok Hlen Hbound).
    discriminate.
Qed.

End TransferOutcome.

(** Worked instances. *)

Lemma source_failure_sends_nothing_witness :
  stream_media_to_sharepoint unreachable_source (PStr "http://kobo/a.jpg")
    "Main/Form/photo" "row1_a.jpg" sample_self
  = (Ok false, with_stats (add_failed 1) sample_self,
     [KoboGet (PStr "http://kobo/a.jpg")])
  /\ stream_media_to_sharepoint refusing_source (PStr "http://kobo/a.jpg")
       "Main/Form/photo" "row1_a.jpg" sample_self
     = (Ok false, with_stats (add_failed 1) sample_self,
        [KoboGet (PStr "http://kobo/a.jpg")]).
Proof.
  split.
  - apply (source_failure_sends_nothing unreachable_source). left.
    exists RequestException. reflexivity.
  - apply (source_failure_sends_nothing refusing_source). right.
    eexists. exists RequestException. split; reflexivity.
Defined.

Lemma malformed_length_fails_witness :
  stream_media_to_sharepoint (sample_network (Some "12 kB") 201 200 202)
    (PStr "http://kobo/a.jpg") "Main/Form/photo" "row1_a.jpg" sample_self
  = (Ok false, with_stats (add_failed 1) sample_self,
     [KoboGet (PStr "http://kobo/a.jpg")]).
Proof.
  apply (malformed_length_fails (sample_network (Some "12 kB") 201 200 202)
           (PStr "http://kobo/a.jpg") "Main/Form/photo" "row1_a.jpg" sample_self
           (sample_response (Some "12 kB")) ValueError);
    reflexivity.
Defined.

Lemma session_request_error_fails_witness :
  stream_media_to_sharepoint (unreachable_sessions None)
    (PStr "http://kobo/a.jpg") "Main/Form/photo" "row1_a.jpg" sample_self
  = (Ok false, with_stats (add_failed 1) sample_self,
     [KoboGet (PStr "http://kobo/a.jpg");
      SpPost (upload_session_url sample_self "Main/Form/photo" "row1_a.jpg")]).
Proof.
  apply (session_request_error_fails (unreachable_sessions None)
           (PStr "http://kobo/a.jpg") "Main/Form/photo" "row1_a.jpg" sample_self
           (sample_response None) None RequestException);
    try reflexivity; intros n; discriminate.
Defined.

Lemma single_shot_credits_bytes_read_witness :
  stream_media_to_sharepoint (sample_network (Some "1000") 201 200 202)
    (PStr "http://kobo/a.jpg") "Main/Form/photo" "row1_a.jpg" sample_self
  = (Ok true,
     with_stats (add_total_size 3) (with_stats (add_transferred 1) sample_self),
     [KoboGet (PStr "http://kobo/a.jpg"); ReadContent;
      SpPut (content_url sample_self "Main/Form/photo" "row1_a.jpg") sample_body]).
Proof.
  apply (single_shot_credits_bytes_read (sample_network (Some "1000") 201 200 202)
           (PStr "http://kobo/a.jpg") "Main/Form/photo" "row1_a.jpg" sample_self
           (sample_response (Some "1000")) 1000 sample_body 201);
    try reflexivity.
Defined.

Lemma chunked_success_sends_every_chunk_witness :
  chunk_data
    (requests_of
       (stream_media_to_sharepoint two_chunk_network (PStr "http://kobo/a.jpg")
          "Main/Form/photo" "row1_a.jpg" sample_self))
  = [[Byte.x01; Byte.x02]; [Byte.x03]].
Proof.
  apply (chunked_success_sends_every_chunk two_chunk_network
           (PStr "http://kobo/a.jpg") "Main/Form/photo" "row1_a.jpg" sample_self
           two_chunk_response None (sample_session 200));
    try reflexivity.
  discriminate.
Defined.

(** ** File names: [sanitize_filename], [format_date],
    [clean_text_for_filename] *)

Section NameParts.

Implicit Types (s t : string) (c : ascii).

Lemma length_map_chars f s : String.length (Py.map_chars f s) = String.length s.
Proof. induction s as [|c s IH]; cbn; congruence. Qed.

Lemma length_take n s : (String.length (Py.take n s) <= n)%nat.
Proof.
  revert s. induction n as [|n IH]; intros [|c s]; cbn; try lia.
  specialize (IH s). lia.
Qed.

Lemma length_take_le n s : (String.length (Py.take n s) <= String.length s)%nat.
Proof.
  revert s. induction n as [|n IH]; intros [|c s]; cbn; try lia.
  specialize (IH s). lia.
Qed.

(** The two parts [splitext] returns make up its argument. *)
Lemma splitext_parts s : fst (Py.splitext s) +:+ snd (Py.splitext s) = s.
Proof.
  unfold Py.splitext.
  destruct (Py.rfind1 "/" s <? Py.rfind1 "." s)%nat; [|apply append_empty_r].
  destruct (Py.forall_chars Py.is_dot _); [apply append_empty_r|].
  apply take_drop.
Qed.

Lemma map_chars_id (p : ascii -> bool) (r : ascii) s :
  Py.forall_chars (fun c => negb (p c)) s = true ->
  Py.map_chars (fun c => if p c then r else c) s = s.
Proof.
  induction s as [|c s IH]; cbn [Py.forall_chars Py.map_chars]; [reflexivity|].
  intros H. apply andb_true_iff in H. destruct H as [Hc Hs].
  apply negb_true_iff in Hc. rewrite Hc, (IH Hs). reflexivity.
Qed.

Lemma substituted_length raw : String.length (substituted raw) = String.length raw.
Proof.
  unfold substituted. change "_" with (Py.str1 "_").
  rewrite sub_class. apply length_map_chars.
Qed.

(** A character that fails [p] is not in a text made of characters that
    pass it. *)
Lemma char_not_in p c s :
  Py.forall_chars p s = true -> p c = false -> Py.char_in c s = false.
Proof.
  intros Hs Hc. induction s as [|d s IH]; [reflexivity|].
  cbn [Py.forall_chars Py.char_in] in *.
  apply andb_true_iff in Hs. destruct Hs as [Hd Hs].
  rewrite (IH Hs), orb_false_r.
  destruct (Ascii.eqb_spec c d) as [-> |]; [congruence | reflexivity].
Qed.

(** Replacing a character that does not occur changes nothing. *)
Lemma replace_absent c new s :
  Py.char_in c s = false -> Py.replace (String c EmptyString) new s = s.
Proof.
  unfold Py.replace. induction s as [|d s IH]; [reflexivity|].
  cbn [Py.char_in Py.replace_from]. intros H.
  apply orb_false_iff in H. destruct H as [Hd Hs].
  cbn [String.prefix].
  destruct (ascii_dec c d) as [-> |].
  - rewrite Ascii.eqb_refl in Hd. discriminate.
  - rewrite (IH Hs). reflexivity.
Qed.

End NameParts.

Section Sanitize.

(** A sanitized name holds word characters, dots and dashes only; it is
    never longer than the name it comes from; and it is longer than 100
    characters only by as much as its extension is longer than five. *)
Theorem sanitize_filename_within_bounds raw :
  Py.forall_chars sanitized_char (sanitize_filename raw) = true
  /\ (String.length (sanitize_filename raw) <= String.length raw)%nat
  /\ (String.length (sanitize_filename raw)
      <= Nat.max 100 (95 + String.length (snd (Py.splitext (substituted raw)))))%nat.
Proof.
  split; [apply sanitize_filename_chars|].
  unfold sanitize_filename. fold (substituted raw).
  pose proof (substituted_length raw) as Hlen.
  pose proof (splitext_parts (substituted raw)) as Hparts.
  unfold Py.len.
  destruct (100 <? Z.of_nat (String.length (substituted raw))) eqn:Hlong.
  - destruct (Py.splitext (substituted raw)) as [name ext]. cbn [fst snd] in *.
    rewrite length_append.
    pose proof (length_take 95 name). pose proof (length_take_le 95 name).
    rewrite <- Hlen, <- Hparts, length_append. lia.
  - apply Z.ltb_ge in Hlong. lia.
Qed.

(** A name of at most 100 word characters, dots and dashes is left as it
    is. *)
Theorem sanitize_filename_keeps_safe_names raw :
  Py.forall_chars sanitized_char raw = true ->
  (String.length raw <= 100)%nat ->
  sanitize_filename raw = raw.
Proof.
  intros Hsafe Hshort. unfold sanitize_filename.
  change "_" with (Py.str1 "_"). rewrite sub_class.
  rewrite map_chars_id by exact Hsafe.
  unfold Py.len. destruct (100 <? Z.of_nat (String.length raw)) eqn:Hlong;
    [apply Z.ltb_lt in Hlong; lia | reflexivity].
Qed.

End Sanitize.

Section Dates.

Lemma digits_intro k s :
  ((String.length s =? k)%nat && Py.forall_chars Py.isdecimal s) = true -> digits k s.
Proof.
  intros H. apply andb_true_iff in H. destruct H as [Hl Hd].
  apply Nat.eqb_eq in Hl. split; assumption.
Qed.

(** The numbers of a valid date, padded: all the numbers below a bound
    are checked by computation. *)
Lemma zero_padded_digits width (bound n : Z) :
  forallb (fun k => (String.length (Datetime.zero_padded width (Z.of_nat k)) =? width)%nat
                    && Py.forall_chars Py.isdecimal
                         (Datetime.zero_padded width (Z.of_nat k)))
          (seq 0 (Z.to_nat bound)) = true ->
  0 <= n < bound ->
  digits width (Datetime.zero_padded width n).
Proof.
  intros Hall Hn. rewrite forallb_forall in Hall.
  apply digits_intro. replace n with (Z.of_nat (Z.to_nat n)) by lia.
  apply Hall. apply in_seq. lia.
Qed.

Lemma days_in_month_le y m : Datetime.days_in_month y m <= 31.
Proof.
  unfold Datetime.days_in_month.
  destruct (m =? 2); [destruct (Datetime.is_leap y); lia|].
  destruct (_ || _); lia.
Qed.

Lemma strptime_valid s fmt f :
  Datetime.strptime s fmt = Ok f -> Datetime.valid f = true.
Proof.
  unfold Datetime.strptime.
  destruct (Datetime.match_format fmt s Datetime.default_fields) as [|[f' rest] l];
    [discriminate|].
  destruct (String.eqb rest EmptyString); [|discriminate].
  destruct (Datetime.valid f') eqn:Hvalid; [|discriminate].
  intros [= <-]. exact Hvalid.
Qed.

(** The decimal text of a year: four digits from 1000 on, fewer
    below.  The years are checked by computation. *)
Lemma year_digits y :
  1 <= y <= 9999 ->
  if y <? 1000
  then exists k, (1 <= k <= 3)%nat /\ digits k (Py.str_of_int y)
  else digits 4 (Py.str_of_int y).
Proof.
  intros Hy.
  assert (Hall :
            forallb
              (fun k =>
                 let text := Py.str_of_int (Z.of_nat k) in
                 Py.forall_chars Py.isdecimal text
                 && (if Z.of_nat k <? 1000
                     then (1 <=? String.length text)%nat
                          && (String.length text <=? 3)%nat
                     else (String.length text =? 4)%nat))
              (seq 1 (Z.to_nat 9999)) = true) by (vm_compute; reflexivity).
  rewrite forallb_forall in Hall.
  specialize (Hall (Z.to_nat y)). rewrite Z2Nat.id in Hall by lia.
  cbv zeta in Hall.
  assert (Hin : In (Z.to_nat y) (seq 1 (Z.to_nat 9999))) by (apply in_seq; lia).
  apply Hall in Hin. apply andb_true_iff in Hin. destruct Hin as [Hdec Hlen].
  destruct (y <? 1000).
  - apply andb_true_iff in Hlen. destruct Hlen as [H1 H3].
    apply Nat.leb_le in H1, H3.
    exists (String.length (Py.str_of_int y)). split; [lia|]. split; [reflexivity|].
    exact Hdec.
  - apply Nat.eqb_eq in Hlen. split; assumption.
Qed.

(** The date [strftime_Y_m_d] writes for a valid date: of the shape of a
    date from the year 1000 on, with a shorter year below. *)
Lemma strftime_shaped f :
  Datetime.valid f = true ->
  if Datetime.year f <? 1000
  then short_year_date (Datetime.strftime_Y_m_d f)
  else date_shaped (Datetime.strftime_Y_m_d f).
Proof.
  unfold Datetime.valid. rewrite !andb_true_iff, !Z.leb_le.
  intros [[[[[[[[[[[[[Hy1 Hy2] Hm1] Hm2] Hd1] Hd2] _] _] _] _] _] _] _] _].
  pose proof (days_in_month_le (Datetime.year f) (Datetime.month f)).
  assert (Hm : digits 2 (Datetime.zero_padded 2 (Datetime.month f)))
    by (apply (zero_padded_digits 2 13); [vm_compute; reflexivity | lia]).
  assert (Hd : digits 2 (Datetime.zero_padded 2 (Datetime.day f)))
    by (apply (zero_padded_digits 2 32); [vm_compute; reflexivity | lia]).
  pose proof (year_digits (Datetime.year f) (conj Hy1 Hy2)) as Hyear.
  destruct (Datetime.year f <? 1000);
    exists (Py.str_of_int (Datetime.year f)),
           (Datetime.zero_padded 2 (Datetime.month f)),
           (Datetime.zero_padded 2 (Datetime.day f));
    repeat split; try assumption; try apply Hm; try apply Hd; apply Hyear.
Qed.

(** A date with a short year has fewer than ten characters, digits and
    dashes. *)
Lemma short_year_date_bounds s :
  short_year_date s ->
  (6 < String.length s < 10)%nat /\ Py.forall_chars digit_or_minus s = true.
Proof.
  intros (y & m & d & -> & (k & Hk & [Hy Hyd]) & [Hm Hmd] & [Hd Hdd]).
  assert (Hweak : forall t, Py.forall_chars Py.isdecimal t = true ->
                            Py.forall_chars digit_or_minus t = true).
  { intros t. apply forall_chars_weaken. intros c Hc.
    unfold digit_or_minus. rewrite Hc. reflexivity. }
  split.
  - rewrite !length_append, Hy, Hm, Hd. cbn [String.length]. lia.
  - rewrite !forall_chars_app, (Hweak y Hyd), (Hweak m Hmd), (Hweak d Hdd).
    reflexivity.
Qed.

(** A match of the date pattern has the shape of a date, and the three
    groups put together again are the match. *)
Lemma iso_date_match_shaped m :
  Re.matches iso_date_pattern m ->
  date_shaped m
  /\ Py.take 4 m +:+ "-" +:+ Py.take 2 (Py.drop 5 m) +:+ "-" +:+ Py.take 2 (Py.drop 8 m)
     = m.
Proof.
  unfold iso_date_pattern. cbv zeta. intros H.
  repeat match goal with
         | H : Re.matches (Re.Cat _ _) _ |- _ =>
             apply matches_cat_inv in H; destruct H as (? & ? & -> & ? & H)
         end.
  repeat match goal with
         | H : Re.matches (Re.Chr _) _ |- _ =>
             apply matches_chr_inv in H; destruct H as (? & -> & ?)
         end.
  unfold Re.is_char in *.
  repeat match goal with
         | H : (_ =? "-")%char = true |- _ => apply Ascii.eqb_eq in H; subst
         end.
  rewrite !append_cons, !append_nil. cbn [Py.take Py.drop].
  rewrite !append_cons, !append_nil.
  split; [|reflexivity].
  match goal with
  | |- date_shaped (String ?a (String ?b (String ?c (String ?d (String "-"
         (String ?e (String ?f (String "-" (String ?g (String ?h EmptyString)))))))))) =>
      exists (String a (String b (String c (String d EmptyString)))),
             (String e (String f EmptyString)),
             (String g (String h EmptyString))
  end.
  rewrite !append_cons, !append_nil.
  split; [reflexivity|].
  unfold digits. cbn [String.length Py.forall_chars].
  repeat match goal with
         | H : Py.isdecimal _ = true |- _ => rewrite H; clear H
         end.
  repeat split; reflexivity.
Qed.

Lemma try_formats_shaped date_str formats formatted :
  try_formats date_str formats = Ok formatted ->
  formatted = EmptyString \/ date_shaped formatted \/ short_year_date formatted.
Proof.
  induction formats as [|fmt formats IH]; cbn [try_formats]; unfold rbind.
  - destruct (as_str date_str) as [text|e]; [|discriminate].
    destruct (Re.search iso_date_pattern text) as [m|] eqn:Hm.
    + intros H. apply Ok_inj in H. subst formatted.
      apply search_sound in Hm. apply iso_date_match_shaped in Hm.
      destruct Hm as [Hshape Hsame]. right. left. rewrite Hsame. exact Hshape.
    + intros [= <-]. left. reflexivity.
  - destruct (method_strip date_str) as [text|e].
    + destruct (Datetime.strptime text fmt) as [dt|e] eqn:Hparse.
      * intros [= <-]. right.
        pose proof (strftime_shaped dt (strptime_valid _ _ _ Hparse)) as H.
        destruct (Datetime.year dt <? 1000); [right | left]; exact H.
      * destruct (is_ValueError e); [exact IH | discriminate].
    + destruct (is_ValueError e); [exact IH | discriminate].
Qed.

(** A text of the shape of a date has ten characters, digits and
    dashes. *)
Lemma date_shaped_bounds s :
  date_shaped s ->
  String.length s = 10%nat /\ Py.forall_chars digit_or_minus s = true.
Proof.
  intros (y & m & d & -> & [Hy Hyd] & [Hm Hmd] & [Hd Hdd]).
  assert (Hweak : forall t, Py.forall_chars Py.isdecimal t = true ->
                            Py.forall_chars digit_or_minus t = true).
  { intros t. apply forall_chars_weaken. intros c Hc.
    unfold digit_or_minus. rewrite Hc. reflexivity. }
  split.
  - rewrite !length_append, Hy, Hm, Hd. reflexivity.
  - rewrite !forall_chars_app, (Hweak y Hyd), (Hweak m Hmd), (Hweak d Hdd).
    reflexivity.
Qed.

(** The result of [format_date] is fit for a file name: it is a text of
    at most ten characters, each of them a digit or a dash, whatever is
    passed for a date. *)
Theorem format_date_digits_and_dashes date_str :
  (String.length (format_date date_str) <= 10)%nat
  /\ Py.forall_chars digit_or_minus (format_date date_str) = true.
Proof.
  assert (H : format_date date_str = EmptyString
              \/ date_shaped (format_date date_str)
              \/ short_year_date (format_date date_str)).
  { unfold format_date. destruct (negb (Val.truthy date_str)); [left; reflexivity|].
    destruct (try_formats date_str date_formats) as [formatted|e] eqn:H;
      [|left; reflexivity].
    apply (try_formats_shaped _ _ _ H). }
  destruct H as [-> | [H | H]].
  - split; [cbn; lia | reflexivity].
  - apply date_shaped_bounds in H. destruct H as [-> H]. split; [lia | exact H].
  - apply short_year_date_bounds in H. destruct H as [Hlen H].
    split; [lia | exact H].
Qed.

(** A date that is not a text is no date. *)
Lemma format_date_of_non_text v : is_text v = false -> format_date v = EmptyString.
Proof.
  intros Hv. unfold format_date.
  destruct (negb (Val.truthy v)); [reflexivity|].
  destruct v; try discriminate; reflexivity.
Qed.

End Dates.

Section Category.

Lemma clean_text_of_non_text v :
  is_text v = false ->
  clean_text_for_filename v = Ok EmptyString
  \/ exists e, clean_text_for_filename v = Raise e.
Proof.
  intros Hv. unfold clean_text_for_filename.
  destruct (negb (Val.truthy v)); [left; reflexivity|].
  destruct v; try discriminate; right; eexists; reflexivity.
Qed.

(** Cleaning a text a second time changes nothing: what
    [clean_text_for_filename] returns it returns for its own result. *)
Theorem clean_text_for_filename_idempotent s :
  (cleaned <- clean_text_for_filename (PStr s) ;;
   clean_text_for_filename (PStr cleaned))%result
  = clean_text_for_filename (PStr s).
Proof.
  unfold clean_text_for_filename at 1 3. cbn [Val.truthy].
  destruct (negb (negb (String.eqb s EmptyString))); [reflexivity|].
  cbn [rbind].
  set (t := Py.filter_chars filename_char _).
  assert (Ht : Py.forall_chars filename_char t = true) by apply forall_chars_filter.
  unfold clean_text_for_filename. cbn [Val.truthy].
  destruct (String.eqb_spec t EmptyString) as [-> | _]; [reflexivity|].
  cbn [negb]. unfold Py.str1.
  rewrite (replace_absent " " "_" t) by (apply (char_not_in _ _ _ Ht); reflexivity).
  rewrite (replace_absent "/" "_" t) by (apply (char_not_in _ _ _ Ht); reflexivity).
  rewrite (replace_absent Py.backslash "_" t)
    by (apply (char_not_in _ _ _ Ht); reflexivity).
  rewrite filter_chars_id by exact Ht. reflexivity.
Qed.

End Category.

Section FieldTypes.

(** The date and the category must be texts: a record whose date field
    or category field holds a value of another type, a number say, gets
    the fallback name. *)
Theorem non_text_fields_fall_back d row_num raw date_column type_column self v :
  Val.dict_get d date_column = Some v \/ Val.dict_get d type_column = Some v ->
  is_text v = false ->
  create_filename (PDict d) row_num (sanitize_filename raw) date_column type_column self
  = ("row" +:+ Py.str_of_int row_num +:+ "_" +:+ sanitize_filename raw,
     with_naming fallback self).
Proof.
  intros Hfield Hv.
  pose proof (create_filename_eq (PDict d) row_num raw date_column type_column self)
    as Heq.
  cbv zeta in Heq. rewrite Heq.
  assert (Hempty : nonempty (normalized_date (PDict d) date_column)
                   && nonempty (normalized_category (PDict d) type_column) = false).
  { unfold normalized_date, normalized_category. cbn [Val.get].
    destruct Hfield as [-> | ->].
    - rewrite (format_date_of_non_text v Hv). reflexivity.
    - destruct (clean_text_of_non_text v Hv) as [-> | [e ->]]; apply andb_false_r. }
  rewrite Hempty. reflexivity.
Qed.

End FieldTypes.

Section Schemes.

Implicit Types (row_data : pyval) (row_num : Z) (d : list (string * pyval)).






End Schemes.

(** Worked instances. *)

Lemma sanitize_filename_keeps_safe_names_witness :
  sanitize_filename "IMG_2025-06-26.v2.jpg" = "IMG_2025-06-26.v2.jpg".
Proof.
  apply sanitize_filename_keeps_safe_names; [reflexivity | cbn; lia].
Defined.

Lemma non_text_fields_fall_back_witness :
  create_filename (PDict [("Date", PStr "2025-06-26"); ("Receipt_Type", PInt 7)])
    3 (sanitize_filename "a b.jpg") "Date" "Receipt_Type" sample_self
  = ("row3_a_b.jpg", with_naming fallback sample_self).
Proof.
  apply (non_text_fields_fall_back
           [("Date", PStr "2025-06-26"); ("Receipt_Type", PInt 7)] 3 "a b.jpg"
           "Date" "Receipt_Type" sample_self (PInt 7));
    [right; reflexivity | reflexivity].
Defined.



(** ** The destination index on the names [create_filename] derives *)

Section DerivedNames.

Implicit Types (self : DirectMediaTransfer) (form_name base : string).
Implicit Types (existing_files : gmap string (gset string)) (files : gset string).

Lemma prefix_refl s : String.prefix s s = true.
Proof.
  induction s as [|c s IH]; [reflexivity|]. cbn [String.prefix].
  destruct (ascii_dec c c); [exact IH | contradiction].
Qed.

Lemma char_in_app c s t :
  Py.char_in c (s +:+ t) = Py.char_in c s || Py.char_in c t.
Proof.
  induction s as [|d s IH].
  - rewrite append_nil. reflexivity.
  - rewrite append_cons. cbn [Py.char_in]. rewrite IH, orb_assoc. reflexivity.
Qed.

(** The decimal text of a number holds neither an underscore nor a
    dot. *)
Lemma str_of_int_plain n :
  Py.char_in "_" (Py.str_of_int n) = false /\ Py.char_in "." (Py.str_of_int n) = false.
Proof.
  split; apply (char_not_in digit_or_minus); try apply str_of_int_chars; reflexivity.
Qed.

(** The row prefix the method computes for a name of the fallback
    scheme. *)
Lemma row_prefix_of_fallback_name row_num base :
  let name := "row" +:+ Py.str_of_int row_num +:+ "_" +:+ base in
  Py.startswith "row" name = true
  /\ row_prefix name = "row" +:+ Py.str_of_int row_num +:+ "_".
Proof.
  cbv zeta. split.
  - unfold Py.startswith. apply (prefix_app "row" "row"). reflexivity.
  - unfold row_prefix.
    replace ("row" +:+ Py.str_of_int row_num +:+ "_" +:+ base)
      with (("row" +:+ Py.str_of_int row_num) +:+ String "_" base)
      by (rewrite append_assoc; reflexivity).
    rewrite split_app_sep.
    rewrite (split_without_sep "_" ("row" +:+ Py.str_of_int row_num)).
    + cbn [app hd]. rewrite !append_cons, append_nil. cbn [Py.drop]. reflexivity.
    + rewrite char_in_app. rewrite (proj1 (str_of_int_plain row_num)). reflexivity.
Qed.

Lemma fallback_name_has_prefix row_num base :
  Py.startswith ("row" +:+ Py.str_of_int row_num +:+ "_")
    ("row" +:+ Py.str_of_int row_num +:+ "_" +:+ base) = true.
Proof.
  unfold Py.startswith.
  replace ("row" +:+ Py.str_of_int row_num +:+ "_" +:+ base)
    with (("row" +:+ Py.str_of_int row_num +:+ "_") +:+ base)
    by (rewrite !append_assoc; reflexivity).
  apply prefix_app, prefix_refl.
Qed.

(** Under the fallback scheme a name [row], number, underscore, base name
    is taken for uploaded exactly when the form folder has some file of
    the same row, whatever that file is called after the row number. *)
Theorem fallback_duplicate_by_row
    self form_name existing_files files row_num base :
  existing_files !! form_name = Some files ->
  current_form_naming_format self = fallback ->
  is_file_already_uploaded self
    ("row" +:+ Py.str_of_int row_num +:+ "_" +:+ base) form_name existing_files = true
  <-> exists f, f ∈ files
                /\ Py.startswith ("row" +:+ Py.str_of_int row_num +:+ "_") f = true.
Proof.
  intros Hform Hfmt.
  rewrite (is_file_already_uploaded_fallback self _ form_name existing_files files)
    by assumption.
  destruct (row_prefix_of_fallback_name row_num base) as [Hrow Hprefix].
  rewrite Hprefix. split.
  - intros [Hexact | [_ H]]; [|exact H].
    eexists. split; [exact Hexact | apply fallback_name_has_prefix].
  - intros H. right. split; assumption.
Qed.

(** Under the custom scheme a name made of a date, a category, a row
    number and an extension without underscore is taken for uploaded
    exactly when the form folder has some file that ends with the
    underscore, the row number and the extension. *)
Theorem custom_duplicate_by_row_and_extension
    self form_name existing_files files date category row_num ext :
  existing_files !! form_name = Some files ->
  current_form_naming_format self = custom ->
  Py.char_in "_" ext = false -> Py.char_in "." ext = false ->
  is_file_already_uploaded self
    (date +:+ "_" +:+ category +:+ "_" +:+ Py.str_of_int row_num +:+ "." +:+ ext)
    form_name existing_files = true
  <-> exists f, f ∈ files
                /\ Py.endswith ("_" +:+ Py.str_of_int row_num +:+ "." +:+ ext) f = true.
Proof.
  intros Hform Hfmt Hext_ Hext.
  destruct (str_of_int_plain row_num) as [Hrow_ Hrow].
  destruct (row_suffix_of_rich_name date category (Py.str_of_int row_num) ext
              Hrow_ Hrow Hext_ Hext) as [Hparts Hsuffix].
  rewrite (is_file_already_uploaded_custom self _ form_name existing_files files)
    by assumption.
  rewrite Hsuffix. split.
  - intros [Hexact | [_ H]]; [|exact H].
    eexists. split; [exact Hexact|].
    replace (date +:+ "_" +:+ category +:+ "_" +:+ Py.str_of_int row_num
             +:+ "." +:+ ext)
      with ((date +:+ "_" +:+ category)
            +:+ ("_" +:+ Py.str_of_int row_num +:+ "." +:+ ext))
      by (rewrite !append_assoc; reflexivity).
    apply endswith_app.
  - intros H. right. split; assumption.
Qed.

End DerivedNames.

Section DerivedDuplicates.

Implicit Types (self : DirectMediaTransfer) (form_name base : string).
Implicit Types (existing_files : gmap string (gset string)) (files : gset string).

Lemma rfind1_none c s : Py.rfind1 c s = 0%nat -> Py.char_in c s = false.
Proof.
  induction s as [|d s IH]; [reflexivity|]. cbn [Py.rfind1 Py.char_in].
  destruct (Py.rfind1 c s); [|discriminate].
  rewrite (Ascii.eqb_sym c d). destruct (d =? c)%char; [discriminate|].
  intros _. apply IH. reflexivity.
Qed.

(** What follows the last occurrence of a character holds it no more. *)
Lemma rfind1_drop c s k :
  Py.rfind1 c s = S k ->
  exists t, Py.drop k s = String c t /\ Py.char_in c t = false.
Proof.
  revert k. induction s as [|d s IH]; intros k; [discriminate|].
  cbn [Py.rfind1]. destruct (Py.rfind1 c s) as [|k'] eqn:Hlast.
  - destruct (Ascii.eqb_spec d c) as [-> |]; [|discriminate].
    intros [= <-]. exists s. split; [reflexivity | apply rfind1_none; assumption].
  - intros [= <-]. cbn [Py.drop]. apply IH. reflexivity.
Qed.

(** The extension [splitext] returns is empty, or a dot and a text
    without a dot. *)
Lemma splitext_extension s :
  snd (Py.splitext s) = EmptyString
  \/ exists e, snd (Py.splitext s) = String "." e /\ Py.char_in "." e = false.
Proof.
  unfold Py.splitext.
  destruct (Py.rfind1 "/" s <? Py.rfind1 "." s)%nat eqn:Hdot; [|left; reflexivity].
  destruct (Py.forall_chars Py.is_dot _); [left; reflexivity|].
  right. cbn [snd]. apply Nat.ltb_lt in Hdot.
  destruct (Py.rfind1 "." s) as [|k] eqn:Hlast; [lia|].
  replace (S k - 1)%nat with k by lia. apply (rfind1_drop _ _ _ Hlast).
Qed.

Lemma extension_or_jpg_dot base :
  exists e, extension_or_jpg base = String "." e /\ Py.char_in "." e = false.
Proof.
  unfold extension_or_jpg.
  destruct (splitext_extension base) as [-> | (e & -> & He)].
  - exists "jpg". split; reflexivity.
  - exists e. split; [reflexivity | exact He].
Qed.

Lemma contains_char_absent c s :
  Py.char_in c s = false -> Py.contains (String c EmptyString) s = false.
Proof.
  induction s as [|d s IH]; [reflexivity|]. cbn [Py.char_in Py.contains String.prefix].
  intros H. apply orb_false_iff in H. destruct H as [Hd Hs].
  destruct (ascii_dec c d) as [-> |].
  - rewrite Ascii.eqb_refl in Hd. discriminate.
  - apply IH. exact Hs.
Qed.

(** A text that holds a character is cut at its last occurrence. *)
Lemma cut_at_last c s :
  Py.char_in c s = true ->
  exists a b, s = a +:+ String c b /\ Py.char_in c b = false.
Proof.
  induction s as [|d s IH]; [discriminate|]. cbn [Py.char_in].
  destruct (Py.char_in c s) eqn:Hs.
  - intros _. destruct (IH eq_refl) as (a & b & -> & Hb).
    exists (String d a), b. split; [reflexivity | exact Hb].
  - rewrite orb_false_r. intros Hd. apply Ascii.eqb_eq in Hd. subst d.
    exists EmptyString, s. split; [reflexivity | exact Hs].
Qed.

(** The suffix the method computes for a name made of a date, a
    category, a row number and an extension: the underscore, the row
    number and the extension when the extension holds no underscore, and
    a tail of that in any case. *)
Lemma row_suffix_of_derived_name date category row e :
  Py.char_in "_" row = false -> Py.char_in "." row = false ->
  Py.char_in "." e = false ->
  let name := date +:+ "_" +:+ category +:+ "_" +:+ row +:+ "." +:+ e in
  (3 <= List.length (Py.split "_" name))%nat
  /\ (Py.char_in "_" e = false -> row_suffix name = "_" +:+ row +:+ "." +:+ e)
  /\ exists before, "_" +:+ row +:+ "." +:+ e = before +:+ row_suffix name.
Proof.
  intros Hrow_ Hrow He. cbv zeta.
  destruct (Py.char_in "_" e) eqn:He_.
  - destruct (cut_at_last "_" e He_) as (a & b & -> & Hb_).
    assert (Hb : Py.char_in "." b = false).
    { rewrite char_in_app in He. apply orb_false_iff in He.
      destruct He as [_ He]. cbn [Py.char_in] in He.
      apply orb_false_iff in He. apply He. }
    assert (Hname : date +:+ "_" +:+ category +:+ "_" +:+ row +:+ "." +:+ a
                    +:+ String "_" b
                    = (date +:+ String "_" (category +:+ String "_" (row +:+ "." +:+ a)))
                      +:+ String "_" b).
    { repeat (progress rewrite ?append_assoc, ?append_cons, ?append_nil).
      reflexivity. }
    assert (Hparts :
              Py.split "_" (date +:+ "_" +:+ category +:+ "_" +:+ row +:+ "." +:+ a
                            +:+ String "_" b)
              = ((Py.split "_" date ++ Py.split "_" category
                  ++ Py.split "_" (row +:+ "." +:+ a)) ++ [b])%list).
    { rewrite Hname, !split_app_sep, (split_without_sep "_" b Hb_). reflexivity. }
    assert (Hsuffix :
              row_suffix (date +:+ "_" +:+ category +:+ "_" +:+ row +:+ "." +:+ a
                          +:+ String "_" b) = "_" +:+ b).
    { unfold row_suffix, Py.last_item. rewrite Hparts, last_last.
      rewrite (split_without_sep "." b Hb), (contains_char_absent "." b Hb).
      cbn [hd]. rewrite append_empty_r. reflexivity. }
    split; [|split].
    + rewrite Hparts, !length_app.
      pose proof (split_nonempty "_" date). pose proof (split_nonempty "_" category).
      destruct (Py.split "_" date), (Py.split "_" category); try contradiction.
      cbn [List.length]. lia.
    + discriminate.
    + exists ("_" +:+ row +:+ "." +:+ a). rewrite Hsuffix.
      rewrite !append_assoc. reflexivity.
  - destruct (row_suffix_of_rich_name date category row e Hrow_ Hrow He_ He)
      as [Hparts Hsuffix].
    split; [exact Hparts|]. split; [intros _; exact Hsuffix|].
    exists EmptyString. rewrite Hsuffix, append_nil. reflexivity.
Qed.

(** C1: a file name that is in the set of its form folder is taken for
    uploaded, whatever the scheme.  For the name [create_filename]
    derives for a record, a row number and a sanitized base name, with
    the flag as that call leaves it: when the flag reads custom, the
    name is the normalized date, the normalized category, the row number
    and the extension joined by underscores, and it is taken for
    uploaded as soon as some file of the set ends with the underscore,
    the row number and the extension, whatever stands before them in the
    name of that file.  The suffix the method cuts out of the name is
    that very text when the extension holds no underscore, and a file
    of the set that ends with the suffix the method cuts out makes the
    name a duplicate in any case. *)
Theorem duplicate_exact_or_row_suffix form_name existing_files files :
  existing_files !! form_name = Some files ->
  (forall self filename,
      filename ∈ files ->
      is_file_already_uploaded self filename form_name existing_files = true)
  /\ (forall row_data row_num raw date_column type_column self0,
         let base := sanitize_filename raw in
         let out := create_filename row_data row_num base date_column type_column self0 in
         let filename := fst out in
         let self := snd out in
         let suffix := "_" +:+ Py.str_of_int row_num +:+ extension_or_jpg base in
         current_form_naming_format self = custom ->
         filename = normalized_date row_data date_column +:+ "_"
                    +:+ normalized_category row_data type_column +:+ suffix
         /\ (Py.char_in "_" (extension_or_jpg base) = false ->
             row_suffix filename = suffix)
         /\ ((exists existing_file,
                 existing_file ∈ files /\ Py.endswith suffix existing_file = true) ->
             is_file_already_uploaded self filename form_name existing_files = true)
         /\ ((exists existing_file,
                 existing_file ∈ files
                 /\ Py.endswith (row_suffix filename) existing_file = true) ->
             is_file_already_uploaded self filename form_name existing_files = true)).
Proof.
  intros Hform. split.
  - intros self filename Hexact. unfold is_file_already_uploaded. rewrite Hform.
    rewrite bool_decide_eq_true_2 by assumption. reflexivity.
  - intros row_data row_num raw date_column type_column self0. cbv zeta.
    pose proof (create_filename_eq row_data row_num raw date_column type_column self0)
      as Heq.
    cbv zeta in Heq. rewrite Heq.
    destruct (nonempty (normalized_date row_data date_column)
              && nonempty (normalized_category row_data type_column));
      cbn [fst snd with_naming current_form_naming_format]; [|discriminate].
    intros _.
    destruct (extension_or_jpg_dot (sanitize_filename raw)) as (e & -> & He).
    destruct (str_of_int_plain row_num) as [Hrow_ Hrow].
    destruct (row_suffix_of_derived_name
                (normalized_date row_data date_column)
                (normalized_category row_data type_column)
                (Py.str_of_int row_num) e Hrow_ Hrow He)
      as (Hparts & Hsuffix & before & Htail).
    change (String "." e) with ("." +:+ e).
    split; [reflexivity|]. split; [|split].
    + intros He_. apply Hsuffix. cbn [Py.char_in] in He_.
      apply orb_false_iff in He_. apply He_.
    + intros (existing_file & Hin & Hends).
      apply (is_file_already_uploaded_custom _ _ form_name existing_files files);
        [assumption | reflexivity |].
      right. split; [exact Hparts|].
      exists existing_file. split; [exact Hin|].
      apply (endswith_tail before). rewrite <- Htail. exact Hends.
    + intros Hsome.
      apply (is_file_already_uploaded_custom _ _ form_name existing_files files);
        [assumption | reflexivity |].
      right. split; [exact Hparts | exact Hsome].
Qed.

End DerivedDuplicates.

(** Worked instances: a second photo of row 5 is taken for uploaded once
    the folder holds any file of row 5; row 50 is another row. *)

Lemma fallback_duplicate_by_row_witness :
  let existing_files : gmap string (gset string) := {[ "Form" := {[ "row5_a.jpg" ]} ]} in
  is_file_already_uploaded sample_self ("row" +:+ Py.str_of_int 5 +:+ "_" +:+ "b.png")
    "Form" existing_files = true
  /\ is_file_already_uploaded sample_self ("row" +:+ Py.str_of_int 50 +:+ "_" +:+ "a.jpg")
       "Form" existing_files = false.
Proof.
  cbv zeta. split.
  - apply (proj2 (fallback_duplicate_by_row sample_self "Form"
                    {[ "Form" := {[ "row5_a.jpg" ]} ]} {[ "row5_a.jpg" ]} 5 "b.png"
                    (lookup_singleton_eq _ _) eq_refl)).
    exists "row5_a.jpg". split; [apply elem_of_singleton; reflexivity | reflexivity].
  - apply not_true_is_false. intros H.
    apply (proj1 (fallback_duplicate_by_row sample_self "Form"
                    {[ "Form" := {[ "row5_a.jpg" ]} ]} {[ "row5_a.jpg" ]} 50 "a.jpg"
                    (lookup_singleton_eq _ _) eq_refl)) in H.
    destruct H as (f & Hin & Hstart). apply elem_of_singleton in Hin. subst f.
    vm_compute in Hstart. discriminate.
Defined.

Lemma custom_duplicate_by_row_and_extension_witness :
  let existing_files : gmap string (gset string) :=
    {[ "Form" := {[ "2024-01-01_Food_7.png" ]} ]} in
  is_file_already_uploaded (with_naming custom sample_self)
    ("2025-06-26" +:+ "_" +:+ "Fuel" +:+ "_" +:+ Py.str_of_int 7 +:+ "." +:+ "png")
    "Form" existing_files = true.
Proof.
  cbv zeta.
  apply (proj2 (custom_duplicate_by_row_and_extension (with_naming custom sample_self)
                  "Form" {[ "Form" := {[ "2024-01-01_Food_7.png" ]} ]}
                  {[ "2024-01-01_Food_7.png" ]} "2025-06-26" "Fuel" 7 "png"
                  (lookup_singleton_eq _ _) eq_refl eq_refl eq_refl)).
  exists "2024-01-01_Food_7.png".
  split; [apply elem_of_singleton; reflexivity | reflexivity].
Defined.

(** The photo of row 7 of a fuel receipt is taken for uploaded when the
    folder holds the photo of row 7 of a food receipt of another day. *)
Lemma duplicate_exact_or_row_suffix_witness :
  let files : gset string := {[ "2024-01-01_Food_7.png" ]} in
  let existing_files : gmap string (gset string) := {[ "Form" := files ]} in
  let row_data := PDict [("Date", PStr "2025-06-26"); ("Receipt_Type", PStr "Fuel")] in
  let out := create_filename row_data 7 (sanitize_filename "photo.png")
               "Date" "Receipt_Type" sample_self in
  is_file_already_uploaded sample_self "2024-01-01_Food_7.png" "Form" existing_files = true
  /\ fst out = "2025-06-26_Fuel_7.png"
  /\ row_suffix (fst out) = "_7.png"
  /\ is_file_already_uploaded (snd out) (fst out) "Form" existing_files = true.
Proof.
  cbv zeta.
  pose proof (duplicate_exact_or_row_suffix "Form"
                {[ "Form" := {[ "2024-01-01_Food_7.png" ]} ]}
                {[ "2024-01-01_Food_7.png" ]} (lookup_singleton_eq _ _))
    as [Hexact Hderived].
  split.
  - apply Hexact. apply elem_of_singleton. reflexivity.
  - destruct (Hderived
                (PDict [("Date", PStr "2025-06-26"); ("Receipt_Type", PStr "Fuel")])
                7 "photo.png" "Date" "Receipt_Type" sample_self eq_refl)
      as (Hname & Hsuffix & Hdup & _).
    split; [exact Hname|]. split; [apply Hsuffix; reflexivity|].
    apply Hdup. exists "2024-01-01_Food_7.png". split.
    + apply elem_of_singleton. reflexivity.
    + reflexivity.
Defined.

(** ** The orchestrator: what the processing of a form keeps *)

(** *** Relations between the state before and the state after *)

Section Holds.

Context {S : Type}.

Variable R : S -> S -> list request -> Prop.
Hypothesis R_refl : forall s, R s s [].
Hypothesis R_trans :
  forall s1 s2 s3 log1 log2,
    R s1 s2 log1 -> R s2 s3 log2 -> R s1 s3 (log1 ++ log2)%list.

Lemma keeps_ret {A : Type} (a : A) : keeps R (ret a).
Proof. intros s. apply R_refl. Qed.

Lemma keeps_lift {A : Type} (r : result A) : keeps R (lift r).
Proof. intros s. apply R_refl. Qed.

Lemma keeps_bind {A B : Type} (m : M S A) (k : A -> M S B) :
  keeps R m -> (forall a, keeps R (k a)) -> keeps R (bind m k).
Proof.
  intros Hm Hk s. specialize (Hm s).
  unfold keeps, bind, state_after, requests_of in *.
  destruct (m s) as [[[a|e] s1] log1]; cbn [fst snd] in *; [|exact Hm].
  specialize (Hk a s1). destruct (k a s1) as [[r s2] log2]; cbn [fst snd] in *.
  apply (R_trans _ _ _ _ _ Hm Hk).
Qed.

Lemma keeps_catch {A : Type} (m : M S A) (h : exn -> M S A) :
  keeps R m -> (forall e, keeps R (h e)) -> keeps R (catch m h).
Proof.
  intros Hm Hh s. specialize (Hm s).
  unfold keeps, catch, state_after, requests_of in *.
  destruct (m s) as [[[a|e] s1] log1]; cbn [fst snd] in *; [exact Hm|].
  specialize (Hh e s1). destruct (h e s1) as [[r s2] log2]; cbn [fst snd] in *.
  apply (R_trans _ _ _ _ _ Hm Hh).
Qed.

End Holds.

(** *** From one media to the form *)

Section FormLoops.

Variable net : network.
Variable existing_files : gmap string (gset string).
Variables safe_form_name form_folder : string.

Variable R : form_state -> form_state -> list request -> Prop.
Hypothesis R_refl : forall s, R s s [].
Hypothesis R_trans :
  forall s1 s2 s3 log1 log2,
    R s1 s2 log1 -> R s2 s3 log2 -> R s1 s3 (log1 ++ log2)%list.
Hypothesis R_media :
  forall col_folder_name submission row_num media,
    keeps R (process_media net existing_files safe_form_name
               (form_folder +:+ "/" +:+ col_folder_name) submission row_num media).

Lemma process_media_list_keeps col_folder_name submission row_num media_urls :
  keeps R (process_media_list net existing_files safe_form_name
             (form_folder +:+ "/" +:+ col_folder_name) submission row_num media_urls).
Proof.
  induction media_urls as [|media media_urls IH]; cbn [process_media_list].
  - apply keeps_ret, R_refl.
  - apply keeps_bind; [exact R_trans | apply R_media | intros _; exact IH].
Qed.

Lemma process_column_keeps submission row_num col_name col_value :
  keeps R (process_column net existing_files safe_form_name form_folder
             submission row_num col_name col_value).
Proof.
  unfold process_column.
  destruct (negb (Val.truthy col_value)); [apply keeps_ret, R_refl|].
  destruct (negb (any_in_lower _ _)); [apply keeps_ret, R_refl|].
  apply keeps_bind; [exact R_trans | apply keeps_lift, R_refl|].
  intros [|media media_urls]; [apply keeps_ret, R_refl|].
  apply process_media_list_keeps.
Qed.

Lemma process_columns_keeps submission row_num items :
  keeps R (process_columns net existing_files safe_form_name form_folder
             submission row_num items).
Proof.
  induction items as [|[col_name col_value] items IH]; cbn [process_columns].
  - apply keeps_ret, R_refl.
  - apply keeps_bind; [exact R_trans | | intros _; exact IH].
    apply keeps_catch; [exact R_trans | apply process_column_keeps|].
    intros e. apply keeps_ret, R_refl.
Qed.

Lemma process_submissions_keeps data :
  forall row_num,
    keeps R (process_submissions net existing_files safe_form_name form_folder
               data row_num).
Proof.
  induction data as [|submission data IH]; intros row_num; cbn [process_submissions].
  - apply keeps_ret, R_refl.
  - apply keeps_bind; [exact R_trans | | intros _; apply IH].
    destruct submission; try (apply keeps_ret, R_refl).
    apply process_columns_keeps.
Qed.

End FormLoops.

(** *** One media *)

Section OneMedia.

Variable net : network.
Variable existing_files : gmap string (gset string).
Variables safe_form_name col_folder : string.

(** [create_filename] changes the flag and nothing else. *)
Lemma create_filename_state row_data row_num base date_column type_column self :
  exists fmt,
    snd (create_filename row_data row_num base date_column type_column self)
    = with_naming fmt self.
Proof.
  unfold create_filename.
  destruct (create_filename_body _ _ _ _ _) as [[name fmt]|e]; eexists; reflexivity.
Qed.

(** The three ways the processing of a media ends: its name is no text
    and the column is given up; it is skipped; it is transferred, with
    or without success. *)
Lemma process_media_outcome submission row_num media self form_stats :
  let out :=
    process_media net existing_files safe_form_name col_folder submission row_num
      media (self, form_stats) in
  let counted := with_stats (add_total_media 1) self in
  (exists e, returned out = Raise e
             /\ state_after out = (counted, form_stats)
             /\ requests_of out = [])
  \/ (exists fmt,
        catalog_given existing_files = true
        /\ state_after out
           = (with_stats (add_skipped 1) (with_naming fmt counted),
              add_form_skipped 1 form_stats)
        /\ requests_of out = [])
  \/ (exists fmt filename,
        let transfer :=
          stream_media_to_sharepoint net (media_url media) col_folder filename
            (with_naming fmt counted) in
        requests_of out = requests_of transfer
        /\ ((returned transfer = Ok true
             /\ state_after out = (state_after transfer, add_processed 1 form_stats))
            \/ (returned transfer = Ok false
                /\ state_after out
                   = (state_after transfer, add_form_failed 1 form_stats)))).
Proof.
  cbv zeta.
  unfold process_media, bind, on_self, on_form_stats, modify, lift, get_state,
    returned, state_after, requests_of.
  cbn [fst snd].
  destruct (media_filename media) as [| | | |raw| |];
    try (left; eexists; repeat split; reflexivity).
  cbn [as_str fst snd].
  destruct (create_filename_state submission row_num (sanitize_filename raw)
              "Date" "Receipt_Type" (with_stats (add_total_media 1) self))
    as [fmt Hstate].
  destruct (create_filename _ _ _ _ _ _) as [filename self1].
  cbn [fst snd] in *. subst self1.
  destruct (catalog_given existing_files) eqn:Hgiven; cbn [andb].
  - destruct (is_file_already_uploaded _ filename safe_form_name existing_files).
    + right. left. exists fmt. repeat split; reflexivity.
    + right. right. exists fmt, filename. cbv beta iota. cbn [fst snd].
      pose proof (stream_media_state net (media_url media) col_folder filename
                    (with_naming fmt (with_stats (add_total_media 1) self))) as Hout.
      unfold returned, state_after in Hout. cbv zeta in Hout.
      destruct (stream_media_to_sharepoint _ _ _ _ _) as [[r self2] log].
      cbn [fst snd] in *.
      destruct Hout as [[-> _] | [-> _]]; cbn [fst snd app]; rewrite app_nil_r;
        (split; [reflexivity|]); [left | right]; split; reflexivity.
  - right. right. exists fmt, filename. cbv beta iota. cbn [fst snd].
    pose proof (stream_media_state net (media_url media) col_folder filename
                  (with_naming fmt (with_stats (add_total_media 1) self))) as Hout.
    unfold returned, state_after in Hout. cbv zeta in Hout.
    destruct (stream_media_to_sharepoint _ _ _ _ _) as [[r self2] log].
    cbn [fst snd] in *.
    destruct Hout as [[-> _] | [-> _]]; cbn [fst snd app]; rewrite app_nil_r;
      (split; [reflexivity|]); [left | right]; split; reflexivity.
Qed.

End OneMedia.

(** *** The counters *)

Section Counters.

Lemma downloads_app log1 log2 :
  downloads (log1 ++ log2) = downloads log1 + downloads log2.
Proof.
  induction log1 as [|q log1 IH]; [reflexivity|].
  destruct q; cbn [app downloads]; rewrite IH; lia.
Qed.

Lemma counters_agree_refl s : counters_agree s s [].
Proof. unfold counters_agree. cbn [downloads]. repeat split; lia. Qed.

Lemma counters_agree_trans s1 s2 s3 log1 log2 :
  counters_agree s1 s2 log1 -> counters_agree s2 s3 log2 ->
  counters_agree s1 s3 (log1 ++ log2).
Proof.
  unfold counters_agree. rewrite downloads_app. cbv zeta.
  intros (? & ? & ? & ? & ? & ? & ? & ?) (? & ? & ? & ? & ? & ? & ? & ?).
  repeat split; lia.
Qed.

Lemma counters_agree_media net existing_files safe_form_name col_folder
    submission row_num media :
  keeps counters_agree
    (process_media net existing_files safe_form_name col_folder submission row_num
       media).
Proof.
  intros [self form_stats].
  destruct (process_media_outcome net existing_files safe_form_name col_folder
              submission row_num media self form_stats)
    as [(e & _ & -> & ->) | [(fmt & _ & -> & ->) | (fmt & filename & Hlog & Hout)]].
  - unfold counters_agree. cbn. repeat split; lia.
  - unfold counters_agree. cbn. repeat split; lia.
  - cbv zeta in Hlog, Hout. rewrite Hlog.
    pose proof (stream_media_requests net (media_url media) col_folder filename
                  (with_naming fmt (with_stats (add_total_media 1) self)))
      as [Hdown _].
    pose proof (stream_media_state net (media_url media) col_folder filename
                  (with_naming fmt (with_stats (add_total_media 1) self)))
      as Hstate.
    cbv zeta in Hstate.
    destruct Hout as [[Hret ->] | [Hret ->]];
      destruct Hstate as [[Hret' (k & _ & ->)] | [Hret' ->]];
      try congruence;
      unfold counters_agree; rewrite Hdown; cbn; repeat split; lia.
Qed.

End Counters.

(** *** Skips *)

Section Skips.

Variable existing_files : gmap string (gset string).

Lemma skips_nothing_refl s : skips_nothing existing_files s s [].
Proof. intros _. split; reflexivity. Qed.

Lemma skips_nothing_trans s1 s2 s3 log1 log2 :
  skips_nothing existing_files s1 s2 log1 ->
  skips_nothing existing_files s2 s3 log2 ->
  skips_nothing existing_files s1 s3 (log1 ++ log2).
Proof.
  intros H1 H2 Hno. destruct (H1 Hno), (H2 Hno). split; congruence.
Qed.

Lemma skips_nothing_media net safe_form_name col_folder submission row_num media :
  keeps (skips_nothing existing_files)
    (process_media net existing_files safe_form_name col_folder submission row_num
       media).
Proof.
  intros [self form_stats] Hno.
  destruct (process_media_outcome net existing_files safe_form_name col_folder
              submission row_num media self form_stats)
    as [(e & _ & -> & _) | [(fmt & Hgiven & _) | (fmt & filename & _ & Hout)]].
  - split; reflexivity.
  - congruence.
  - cbv zeta in Hout.
    pose proof (stream_media_state net (media_url media) col_folder filename
                  (with_naming fmt (with_stats (add_total_media 1) self)))
      as Hstate.
    cbv zeta in Hstate.
    destruct Hout as [[Hret ->] | [Hret ->]];
      destruct Hstate as [[Hret' (k & _ & ->)] | [Hret' ->]];
      try congruence; split; reflexivity.
Qed.

End Skips.

(** *** Addresses *)

Section Addresses.

Variable form_folder : string.

Lemma written_addresses_app log1 log2 :
  written_addresses (log1 ++ log2)
  = (written_addresses log1 ++ written_addresses log2)%list.
Proof.
  induction log1 as [|q log1 IH]; [reflexivity|].
  destruct q; cbn [app written_addresses]; rewrite IH; reflexivity.
Qed.

Lemma writes_below_refl s : writes_below form_folder s s [].
Proof. repeat split. apply List.Forall_nil. Qed.

Lemma writes_below_trans s1 s2 s3 log1 log2 :
  writes_below form_folder s1 s2 log1 ->
  writes_below form_folder s2 s3 log2 ->
  writes_below form_folder s1 s3 (log1 ++ log2).
Proof.
  unfold writes_below. intros (Hs1 & Hd1 & H1) (Hs2 & Hd2 & H2).
  split; [congruence|]. split; [congruence|].
  rewrite written_addresses_app. apply List.Forall_app. split; [exact H1|].
  unfold drive_root in *. rewrite Hs1, Hd1 in H2. exact H2.
Qed.

Lemma below_form_folder self col_folder_name tail :
  Py.startswith (drive_root self +:+ form_folder +:+ "/")
    (drive_root self +:+ (form_folder +:+ "/" +:+ col_folder_name) +:+ tail) = true.
Proof.
  unfold Py.startswith.
  replace (drive_root self +:+ (form_folder +:+ "/" +:+ col_folder_name) +:+ tail)
    with ((drive_root self +:+ form_folder +:+ "/") +:+ col_folder_name +:+ tail)
    by (rewrite !append_assoc; reflexivity).
  apply prefix_app, prefix_refl.
Qed.

Lemma writes_below_media net existing_files safe_form_name col_folder_name
    submission row_num media :
  keeps (writes_below form_folder)
    (process_media net existing_files safe_form_name
       (form_folder +:+ "/" +:+ col_folder_name) submission row_num media).
Proof.
  intros [self form_stats].
  destruct (process_media_outcome net existing_files safe_form_name
              (form_folder +:+ "/" +:+ col_folder_name)
              submission row_num media self form_stats)
    as [(e & _ & -> & ->) | [(fmt & _ & -> & ->) | (fmt & filename & Hlog & Hout)]].
  - repeat split. apply List.Forall_nil.
  - repeat split. apply List.Forall_nil.
  - cbv zeta in Hlog, Hout. rewrite Hlog.
    pose proof (stream_media_requests net (media_url media)
                  (form_folder +:+ "/" +:+ col_folder_name) filename
                  (with_naming fmt (with_stats (add_total_media 1) self)))
      as [_ Hurls].
    pose proof (stream_media_state net (media_url media)
                  (form_folder +:+ "/" +:+ col_folder_name) filename
                  (with_naming fmt (with_stats (add_total_media 1) self)))
      as Hstate.
    cbv zeta in Hstate.
    assert (Hids : forall self2,
               (exists k, self2 = with_stats (add_total_size k)
                                    (with_stats (add_transferred 1)
                                       (with_naming fmt
                                          (with_stats (add_total_media 1) self))))
               \/ self2 = with_stats (add_failed 1)
                            (with_naming fmt (with_stats (add_total_media 1) self)) ->
               site_id self2 = site_id self /\ sp_drive_id self2 = sp_drive_id self).
    { intros self2 [[k ->] | ->]; split; reflexivity. }
    unfold writes_below. cbn [fst snd].
    assert (Hbelow :
              Forall (fun url =>
                        Py.startswith (drive_root self +:+ form_folder +:+ "/") url = true)
                (written_addresses
                   (requests_of
                      (stream_media_to_sharepoint net (media_url media)
                         (form_folder +:+ "/" +:+ col_folder_name) filename
                         (with_naming fmt (with_stats (add_total_media 1) self)))))).
    { eapply List.Forall_impl; [|exact Hurls].
      intros url [-> | ->].
      - apply (below_form_folder self col_folder_name ("/" +:+ filename +:+ ":/content")).
      - apply (below_form_folder self col_folder_name
                 ("/" +:+ filename +:+ ":/createUploadSession")). }
    destruct Hout as [[_ ->] | [_ ->]]; cbn [fst snd];
      (destruct (Hids (state_after
                         (stream_media_to_sharepoint net (media_url media)
                            (form_folder +:+ "/" +:+ col_folder_name) filename
                            (with_naming fmt (with_stats (add_total_media 1) self)))))
         as [Hs Hd];
       [destruct Hstate as [[_ (k & _ & ->)] | [_ ->]]; [left; eauto | right; reflexivity]
       |repeat split; assumption]).
Qed.

End Addresses.

(** *** The form *)

Section Form.

Variable net : network.

(** What [process_form_media] does before the loop: the flag is reset and
    set again from the first submission; nothing else changes. *)
Lemma process_form_media_run data form_name main_folder existing_files self
    (R : form_state -> form_state -> list request -> Prop) :
  (forall s, R s s []) ->
  (forall s1 s2 s3 log1 log2,
      R s1 s2 log1 -> R s2 s3 log2 -> R s1 s3 (log1 ++ log2)%list) ->
  (forall col_folder_name submission row_num media,
      keeps R (process_media net existing_files
                 (Re.sub (Re.Chr not_word_space_dash) "_" form_name)
                 ((main_folder +:+ "/" +:+ Re.sub (Re.Chr not_word_space_dash) "_" form_name)
                  +:+ "/" +:+ col_folder_name) submission row_num media)) ->
  exists fmt,
    let out := process_form_media net data form_name main_folder existing_files self in
    R (with_naming fmt self, mk_form_stats 0 0 0)
      (snd (fst out), fst (fst out)) (snd out).
Proof.
  intros Hrefl Htrans Hmedia. unfold process_form_media.
  destruct data as [|first_submission data'].
  - exists fallback. apply Hrefl.
  - destruct (create_filename_state first_submission 1 "test.jpg" "Date" "Receipt_Type"
                (with_naming fallback self)) as [fmt Hstate].
    destruct (create_filename first_submission 1 "test.jpg" "Date" "Receipt_Type"
                (with_naming fallback self)) as [test_filename self1].
    cbn [snd] in Hstate. subst self1. exists fmt.
    pose proof (process_submissions_keeps net existing_files _ _ R Hrefl Htrans Hmedia
                  (first_submission :: data') 1
                  (with_naming fmt (with_naming fallback self), mk_form_stats 0 0 0))
      as Hrun.
    unfold state_after, requests_of in Hrun.
    destruct (process_submissions _ _ _ _ _ _ _) as [[r [self' form_stats]] log].
    cbn [fst snd] in *. exact Hrun.
Qed.

(** The counters a form reports agree with those of the object: the
    transfers, failures and skips the object counts during the form are
    those the form reports, and each is a media that was counted as
    found. *)
Theorem form_counters_agree data form_name main_folder existing_files self :
  let out := process_form_media net data form_name main_folder existing_files self in
  let form_stats := fst (fst out) in
  let self' := snd (fst out) in
  transferred (stats self') = transferred (stats self) + processed form_stats
  /\ failed (stats self') = failed (stats self) + form_failed form_stats
  /\ skipped (stats self') = skipped (stats self) + form_skipped form_stats
  /\ 0 <= processed form_stats /\ 0 <= form_failed form_stats
  /\ 0 <= form_skipped form_stats
  /\ total_media (stats self) + processed form_stats + form_failed form_stats
     + form_skipped form_stats <= total_media (stats self').
Proof.
  cbv zeta.
  destruct (process_form_media_run data form_name main_folder existing_files self
              counters_agree counters_agree_refl counters_agree_trans)
    as [fmt H].
  { intros. apply counters_agree_media. }
  cbv zeta in H. unfold counters_agree in H. cbn [fst snd with_naming stats
    processed form_failed form_skipped] in H.
  destruct H as (? & ? & ? & ? & ? & ? & ? & ?). repeat split; lia.
Qed.

(** The source is asked once for every media that is not skipped: the
    number of download requests of a form is the number of its transfers
    plus the number of its failures. *)
Theorem one_download_per_unskipped_media
    data form_name main_folder existing_files self :
  let out := process_form_media net data form_name main_folder existing_files self in
  downloads (snd out) = processed (fst (fst out)) + form_failed (fst (fst out)).
Proof.
  cbv zeta.
  destruct (process_form_media_run data form_name main_folder existing_files self
              counters_agree counters_agree_refl counters_agree_trans)
    as [fmt H].
  { intros. apply counters_agree_media. }
  cbv zeta in H. unfold counters_agree in H. cbn [fst snd with_naming stats
    processed form_failed form_skipped] in H.
  destruct H as (? & ? & ? & ? & ? & ? & ? & ?). lia.
Qed.

(** Without a catalog, or with an empty one, no media is skipped. *)
Theorem without_catalog_nothing_is_skipped data form_name main_folder self :
  let out := process_form_media net data form_name main_folder ∅ self in
  form_skipped (fst (fst out)) = 0
  /\ skipped (stats (snd (fst out))) = skipped (stats self).
Proof.
  cbv zeta.
  destruct (process_form_media_run data form_name main_folder ∅ self
              (skips_nothing ∅) (skips_nothing_refl ∅) (skips_nothing_trans ∅))
    as [fmt H].
  { intros. apply skips_nothing_media. }
  cbv zeta in H. apply H. reflexivity.
Qed.

(** Whatever the submissions hold, the uploads and upload sessions of a
    form are addressed below the folder of the form, on the drive of the
    object. *)
Theorem uploads_stay_in_form_folder data form_name main_folder existing_files self :
  let out := process_form_media net data form_name main_folder existing_files self in
  let safe_form_name := Re.sub (Re.Chr not_word_space_dash) "_" form_name in
  Forall (fun url =>
            Py.startswith
              (drive_root self +:+ (main_folder +:+ "/" +:+ safe_form_name) +:+ "/")
              url = true)
         (written_addresses (snd out))
  /\ site_id (snd (fst out)) = site_id self
  /\ sp_drive_id (snd (fst out)) = sp_drive_id self.
Proof.
  cbv zeta.
  destruct (process_form_media_run data form_name main_folder existing_files self
              (writes_below
                 (main_folder +:+ "/" +:+ Re.sub (Re.Chr not_word_space_dash) "_" form_name))
              (writes_below_refl _) (writes_below_trans _))
    as [fmt H].
  { intros. apply writes_below_media. }
  cbv zeta in H. unfold writes_below in H. cbn [fst snd] in H.
  destruct H as (Hs & Hd & Hurls). repeat split; assumption.
Qed.

End Form.

(** ** Folders at the destination: [create_sharepoint_folder] *)

Section PathParts.

Implicit Types (s : string) (sep : ascii) (l : list string).

(** Joining the parts of a split gives the text back. *)
Lemma join_split sep s : Py.join (Py.str1 sep) (Py.split sep s) = s.
Proof.
  induction s as [|c s IH]; [reflexivity|].
  cbn [Py.split]. pose proof (split_nonempty sep s) as Hne.
  destruct (Ascii.eqb_spec c sep) as [-> | Hc].
  - destruct (Py.split sep s) as [|p ps] eqn:Hsplit; [contradiction|].
    cbn [Py.join]. rewrite append_nil.
    change (Py.join (Py.str1 sep) (p :: ps)) with
      (Py.join (Py.str1 sep) (p :: ps)) in IH.
    unfold Py.str1 at 1. rewrite append_cons, append_nil.
    cbn [Py.join] in IH |- *. rewrite IH. reflexivity.
  - destruct (Py.split sep s) as [|p ps] eqn:Hsplit; [contradiction|].
    cbn [Py.join] in IH |- *.
    destruct ps as [|q ps].
    + rewrite IH. reflexivity.
    + rewrite append_cons, IH. reflexivity.
Qed.

Lemma join_snoc sepstr l part :
  l <> [] ->
  Py.join sepstr (l ++ [part]) = Py.join sepstr l +:+ sepstr +:+ part.
Proof.
  induction l as [|x l IH]; [contradiction|]. intros _.
  destruct l as [|y l].
  - reflexivity.
  - cbn [app Py.join] in IH |- *. rewrite IH by discriminate.
    rewrite !append_assoc. reflexivity.
Qed.

(** A path of more parts is longer. *)
Lemma join_longer sepstr l more :
  (0 < String.length sepstr)%nat ->
  l <> [] -> more <> [] ->
  (String.length (Py.join sepstr l) < String.length (Py.join sepstr (l ++ more)))%nat.
Proof.
  intros Hsep Hl Hmore. revert l Hl.
  induction more as [|part more IH] using rev_ind; [contradiction|].
  intros l Hl. rewrite app_assoc, join_snoc.
  - rewrite !length_append.
    destruct more as [|part' more'].
    + rewrite app_nil_r. lia.
    + assert (Hm : part' :: more' <> []) by discriminate.
      specialize (IH Hm l Hl). lia.
  - destruct l; [contradiction | discriminate].
Qed.

(** The parts of a split hold no separator. *)
Lemma split_parts_plain sep s :
  Forall (fun p => Py.char_in sep p = false) (Py.split sep s).
Proof.
  induction s as [|c s IH]; cbn [Py.split].
  - apply List.Forall_cons; [reflexivity | apply List.Forall_nil].
  - pose proof (split_nonempty sep s) as Hne.
    destruct (Ascii.eqb_spec c sep) as [-> | Hc].
    + apply List.Forall_cons; [reflexivity | exact IH].
    + destruct (Py.split sep s) as [|p ps]; [contradiction|].
      inversion IH as [|? ? Hp Hps]; subst.
      apply List.Forall_cons; [|exact Hps].
      cbn [Py.char_in]. rewrite Hp, orb_false_r.
      destruct (Ascii.eqb_spec sep c); [congruence | reflexivity].
Qed.

End PathParts.

Section CreateFolder.

Variable g : graph.
Variable self : DirectMediaTransfer.

(** The request that creates the folder, and what becomes of the
    method when it has been made. *)
Lemma create_levels_last folder_path all_parts todo :
  forall done,
    done <> [] ->
    Py.join "/" done <> EmptyString ->
    Py.join "/" (done ++ todo) = folder_path ->
    create_levels g self folder_path all_parts todo (Py.join "/" done)
    = match todo with
      | [] => (Ok tt, [])
      | _ =>
          let url := create_url self all_parts in
          let body := folder_data (Py.last_item all_parts) in
          (match sp_post_json g url body with
           | Ok _ => Ok tt
           | Raise e => Raise e
           end,
           [SpPostJson url body])
      end.
Proof.
  induction todo as [|part todo IH]; intros done Hdone Hcurrent Hpath;
    [reflexivity|].
  cbn [create_levels].
  assert (Hnonempty : nonempty (Py.join "/" done) = true).
  { unfold nonempty.
    destruct (String.eqb_spec (Py.join "/" done) EmptyString); [contradiction|].
    reflexivity. }
  rewrite Hnonempty.
  rewrite <- (join_snoc "/" done part Hdone).
  assert (Hdone' : (done ++ [part])%list <> []) by (destruct done; discriminate).
  assert (Hcurrent' : Py.join "/" (done ++ [part]) <> EmptyString).
  { rewrite join_snoc by exact Hdone. intros H.
    apply (f_equal String.length) in H. rewrite !length_append in H.
    cbn [String.length] in H. lia. }
  assert (Hpath' : Py.join "/" ((done ++ [part]) ++ todo) = folder_path)
    by (rewrite <- app_assoc; exact Hpath).
  destruct todo as [|part' todo'].
  - rewrite app_nil_r in Hpath'. rewrite Hpath', String.eqb_refl.
    cbn [create_levels]. cbv zeta.
    destruct (sp_post_json g _ _); reflexivity.
  - destruct (String.eqb_spec (Py.join "/" (done ++ [part])) folder_path)
      as [Heq | _].
    + pose proof (join_longer "/" (done ++ [part])%list (part' :: todo')
                    ltac:(cbn; lia) Hdone' ltac:(discriminate)) as Hlt.
      rewrite Hpath', <- Heq in Hlt. lia.
    + apply (IH (done ++ [part])%list Hdone' Hcurrent' Hpath').
Qed.

(** The loop from its start, for a path whose first part is not
    empty. *)
Lemma create_levels_first folder_path all_parts p0 ps :
  p0 <> EmptyString ->
  Py.join "/" (p0 :: ps) = folder_path ->
  create_levels g self folder_path all_parts (p0 :: ps) EmptyString
  = let url := create_url self all_parts in
    let body := folder_data (Py.last_item all_parts) in
    (match sp_post_json g url body with
     | Ok _ => Ok tt
     | Raise e => Raise e
     end,
     [SpPostJson url body]).
Proof.
  intros Hp0 Hjoin. cbn [create_levels].
  change (nonempty EmptyString) with false. cbv iota.
  destruct ps as [|p1 ps].
  - cbn [Py.join] in Hjoin. rewrite Hjoin, String.eqb_refl.
    cbn [create_levels]. cbv zeta.
    destruct (sp_post_json g _ _); reflexivity.
  - destruct (String.eqb_spec p0 folder_path) as [Heq | _].
    + pose proof (join_longer "/" [p0] (p1 :: ps)
                    ltac:(cbn; lia) ltac:(discriminate) ltac:(discriminate)) as Hlt.
      cbn [app] in Hlt. rewrite Hjoin in Hlt.
      cbn [Py.join] in Hlt. rewrite Heq in Hlt. lia.
    + apply (create_levels_last folder_path all_parts (p1 :: ps) [p0]);
        [discriminate | exact Hp0 | exact Hjoin].
Qed.

(** Only the last level of a path is created: for a path that does not
    start with a slash the method checks the folder, and when the check
    does not answer 200 it makes one request, which creates the last part
    of the path among the children of the path before it (of the root
    when there is no path before it).  It returns [True] whatever the
    destination answers to that request, and [False] only when a request
    raises. *)
Theorem create_sharepoint_folder_creates_last_level folder_path :
  folder_path <> EmptyString ->
  Py.startswith "/" folder_path = false ->
  let check_url := drive self +:+ "/root:/" +:+ folder_path in
  let parts := Py.split "/" folder_path in
  let url := create_url self parts in
  let body := folder_data (Py.last_item parts) in
  create_sharepoint_folder g self folder_path
  = match sp_get g check_url with
    | Raise _ => (false, [SpGet check_url])
    | Ok check_response =>
        if status_code check_response =? 200 then (true, [SpGet check_url])
        else (match sp_post_json g url body with
              | Ok _ => true
              | Raise _ => false
              end,
              [SpGet check_url; SpPostJson url body])
    end.
Proof.
  intros Hne Hslash. cbv zeta. unfold create_sharepoint_folder.
  destruct (sp_get g _) as [check_response|e]; [|reflexivity].
  destruct (status_code check_response =? 200); [reflexivity|].
  pose proof (join_split "/" folder_path) as Hjoin.
  change (Py.str1 "/") with "/" in Hjoin.
  assert (Hparts : exists p0 ps,
             Py.split "/" folder_path = p0 :: ps /\ p0 <> EmptyString).
  { destruct folder_path as [|c path]; [contradiction|].
    assert (Hc : (c =? "/")%char = false).
    { unfold Py.startswith in Hslash. cbn [String.prefix] in Hslash.
      destruct (ascii_dec "/" c) as [<- |Hc].
      - rewrite prefix_empty in Hslash. discriminate.
      - apply Ascii.eqb_neq. congruence. }
    cbn [Py.split]. rewrite Hc.
    destruct (Py.split "/" path) as [|p ps]; eexists; eexists; split;
      try reflexivity; discriminate. }
  destruct Hparts as (p0 & ps & Hsplit & Hp0).
  set (parts := Py.split "/" folder_path) in *.
  replace (create_levels g self folder_path parts parts EmptyString)
    with (create_levels g self folder_path parts (p0 :: ps) EmptyString)
    by (rewrite <- Hsplit; reflexivity).
  rewrite (create_levels_first folder_path parts p0 ps Hp0)
    by (rewrite <- Hsplit; exact Hjoin).
  cbv zeta. destruct (sp_post_json g _ _); reflexivity.
Qed.

(** A path made of the parts passed never starts with a slash. *)
Lemma create_levels_leading_slash folder_path all_parts parts :
  Py.startswith "/" folder_path = true ->
  Forall (fun p => Py.char_in "/" p = false) parts ->
  forall current_path,
    Py.startswith "/" current_path = false ->
    create_levels g self folder_path all_parts parts current_path = (Ok tt, []).
Proof.
  intros Hslash Hparts. induction Hparts as [|part parts Hpart _ IH];
    intros current_path Hcurrent; [reflexivity|].
  cbn [create_levels].
  set (next := if nonempty current_path then current_path +:+ "/" +:+ part else part).
  assert (Hnext : Py.startswith "/" next = false).
  { unfold next, nonempty.
    destruct (String.eqb_spec current_path EmptyString) as [-> | Hne]; cbn [negb].
    - destruct part as [|c part]; [reflexivity|].
      unfold Py.startswith. cbn [String.prefix Py.char_in] in *.
      apply orb_false_iff in Hpart. destruct Hpart as [Hc _].
      destruct (ascii_dec "/" c) as [<- |]; [discriminate | reflexivity].
    - destruct current_path as [|c current]; [contradiction|].
      rewrite append_cons. unfold Py.startswith in *.
      cbn [String.prefix] in *.
      destruct (ascii_dec "/" c); [|reflexivity].
      rewrite prefix_empty in Hcurrent. discriminate. }
  destruct (String.eqb_spec next folder_path) as [Heq | _].
  - rewrite Heq in Hnext. congruence.
  - apply IH. exact Hnext.
Qed.

(** A path that starts with a slash is never created: the method checks
    it, makes no other request, and returns [True] all the same unless
    the check raises. *)
Theorem create_sharepoint_folder_leading_slash folder_path :
  Py.startswith "/" folder_path = true ->
  let check_url := drive self +:+ "/root:/" +:+ folder_path in
  create_sharepoint_folder g self folder_path
  = (match sp_get g check_url with Ok _ => true | Raise _ => false end,
     [SpGet check_url]).
Proof.
  intros Hslash. cbv zeta. unfold create_sharepoint_folder.
  destruct (sp_get g _) as [check_response|e]; [|reflexivity].
  destruct (status_code check_response =? 200); [reflexivity|].
  rewrite (create_levels_leading_slash folder_path); try assumption; try reflexivity.
  apply split_parts_plain.
Qed.

End CreateFolder.

(** ** The upload folder of a run *)

Section LatestFolder.

(** The order of dates. *)
Lemma lex_gt_trans a :
  forall b c,
    List.length a = List.length b -> List.length b = List.length c ->
    lex_gt a b = true -> lex_gt b c = true -> lex_gt a c = true.
Proof.
  induction a as [|x a IH]; intros [|y b] [|z c] Hab Hbc; cbn [lex_gt];
    try discriminate.
  cbn [List.length] in Hab, Hbc.
  rewrite !orb_true_iff, !andb_true_iff, !Z.ltb_lt, !Z.eqb_eq.
  intros [Hyx | [Hxy Hgt1]] [Hzy | [Hyz Hgt2]]; try (left; lia).
  right. split; [lia|]. apply (IH b c); congruence || lia.
Qed.

Lemma lex_gt_le a :
  forall b c,
    List.length a = List.length b -> List.length b = List.length c ->
    lex_gt a b = true -> lex_gt c b = false -> lex_gt a c = true.
Proof.
  induction a as [|x a IH]; intros [|y b] [|z c] Hab Hbc; cbn [lex_gt];
    try discriminate.
  cbn [List.length] in Hab, Hbc.
  rewrite orb_false_iff, andb_false_iff, !orb_true_iff, !andb_true_iff,
    !Z.ltb_lt, Z.ltb_ge, !Z.eqb_eq, Z.eqb_neq.
  intros [Hyx | [Hxy Hgt1]] [Hzy Hrest]; [left; lia|].
  destruct (Z.eq_dec z y) as [Hz | Hz]; [|left; lia].
  right. split; [lia|].
  destruct Hrest as [Hne | Hgt2]; [contradiction|].
  apply (IH b c); congruence || lia.
Qed.

Lemma datetime_gt_trans a b c :
  datetime_gt a b = true -> datetime_gt b c = true -> datetime_gt a c = true.
Proof. apply lex_gt_trans; reflexivity. Qed.

Lemma datetime_gt_le a b c :
  datetime_gt a b = true -> datetime_gt c b = false -> datetime_gt a c = true.
Proof. apply lex_gt_le; reflexivity. Qed.

(** What an item adds to the loop. *)
Lemma select_folder_step item root_items chosen result :
  select_folder (item :: root_items) chosen = Ok result ->
  select_folder root_items
    (match dated_folder item, chosen with
     | Some (folder_name, folder_datetime), Some (_, latest_folder_date) =>
         if datetime_gt folder_datetime latest_folder_date
         then Some (folder_name, folder_datetime) else chosen
     | Some found, None => Some found
     | None, _ => chosen
     end) = Ok result.
Proof.
  cbn [select_folder]. unfold dated_folder, rbind.
  destruct (kobo_folder_name item) as [[folder_name|]|e]; try discriminate;
    [|destruct chosen as [[? ?]|]; exact (fun H => H)].
  destruct (folder_date folder_name) as [folder_datetime|];
    [|destruct chosen as [[? ?]|]; exact (fun H => H)].
  destruct chosen as [[latest_name latest_folder_date]|]; [|exact (fun H => H)].
  destruct (datetime_gt folder_datetime latest_folder_date); exact (fun H => H).
Qed.

(** The loop keeps what it had, or takes an item that beats what it had
    and all the items before it, and that no later item beats. *)
Lemma select_folder_spec root_items :
  forall chosen result,
    select_folder root_items chosen = Ok result ->
    (result = chosen
     /\ forall item name date,
          In item root_items -> dated_folder item = Some (name, date) ->
          exists latest, chosen = Some latest /\ datetime_gt date (snd latest) = false)
    \/ (exists before item after name date,
          root_items = (before ++ item :: after)%list
          /\ dated_folder item = Some (name, date)
          /\ result = Some (name, date)
          /\ (forall latest, chosen = Some latest ->
                             datetime_gt date (snd latest) = true)
          /\ (forall item' name' date',
                In item' before -> dated_folder item' = Some (name', date') ->
                datetime_gt date date' = true)
          /\ (forall item' name' date',
                In item' after -> dated_folder item' = Some (name', date') ->
                datetime_gt date' date = false)).
Proof.
  induction root_items as [|item root_items IH]; intros chosen result Hrun.
  - left. cbn in Hrun. split; [congruence|]. intros ? ? ? [].
  - apply select_folder_step in Hrun.
    destruct (dated_folder item) as [[folder_name folder_datetime]|] eqn:Hitem.
    + destruct chosen as [[latest_name latest_folder_date]|].
      * destruct (datetime_gt folder_datetime latest_folder_date) eqn:Hgt.
        -- destruct (IH _ _ Hrun)
             as [[-> Hrest]
                | (before & item' & after & name & date & -> & Hd & -> & Hc & Hb & Ha)].
           ++ right. exists [], item, root_items, folder_name, folder_datetime.
              split; [reflexivity|]. split; [exact Hitem|]. split; [reflexivity|].
              split; [intros latest [= <-]; exact Hgt|].
              split; [intros ? ? ? []|].
              intros item' name' date' Hin Hd.
              destruct (Hrest item' name' date' Hin Hd) as (latest & [= <-] & H).
              exact H.
           ++ right. exists (item :: before), item', after, name, date.
              split; [reflexivity|]. split; [exact Hd|]. split; [reflexivity|].
              pose proof (Hc _ eq_refl) as Hbeats. cbn [snd] in Hbeats.
              split; [intros latest [= <-];
                      apply (datetime_gt_trans _ folder_datetime); assumption|].
              split; [|exact Ha].
              intros item'' name'' date'' [<- | Hin] Hd''.
              ** rewrite Hitem in Hd''. injection Hd'' as <- <-. exact Hbeats.
              ** apply (Hb item'' name'' date'' Hin Hd'').
        -- destruct (IH _ _ Hrun)
             as [[-> Hrest]
                | (before & item' & after & name & date & -> & Hd & -> & Hc & Hb & Ha)].
           ++ left. split; [reflexivity|].
              intros item' name' date' [<- | Hin] Hd.
              ** rewrite Hitem in Hd. injection Hd as <- <-.
                 eexists. split; [reflexivity | exact Hgt].
              ** apply (Hrest item' name' date' Hin Hd).
           ++ right. exists (item :: before), item', after, name, date.
              split; [reflexivity|]. split; [exact Hd|]. split; [reflexivity|].
              split; [exact Hc|]. split; [|exact Ha].
              pose proof (Hc _ eq_refl) as Hbeats. cbn [snd] in Hbeats.
              intros item'' name'' date'' [<- | Hin] Hd''.
              ** rewrite Hitem in Hd''. injection Hd'' as <- <-.
                 apply (datetime_gt_le _ latest_folder_date); assumption.
              ** apply (Hb item'' name'' date'' Hin Hd'').
      * destruct (IH _ _ Hrun)
          as [[-> Hrest]
             | (before & item' & after & name & date & -> & Hd & -> & Hc & Hb & Ha)].
        -- right. exists [], item, root_items, folder_name, folder_datetime.
           split; [reflexivity|]. split; [exact Hitem|]. split; [reflexivity|].
           split; [intros latest; discriminate|].
           split; [intros ? ? ? []|].
           intros item' name' date' Hin Hd.
           destruct (Hrest item' name' date' Hin Hd) as (latest & [= <-] & H).
           exact H.
        -- right. exists (item :: before), item', after, name, date.
           split; [reflexivity|]. split; [exact Hd|]. split; [reflexivity|].
           split; [intros latest; discriminate|]. split; [|exact Ha].
           pose proof (Hc _ eq_refl) as Hbeats. cbn [snd] in Hbeats.
           intros item'' name'' date'' [<- | Hin] Hd''.
           ++ rewrite Hitem in Hd''. injection Hd'' as <- <-. exact Hbeats.
           ++ apply (Hb item'' name'' date'' Hin Hd'').
    + destruct (IH chosen result)
        as [[-> Hrest]
           | (before & item' & after & name & date & -> & Hd & -> & Hc & Hb & Ha)].
      { destruct chosen as [[? ?]|]; exact Hrun. }
      * left. split; [reflexivity|].
        intros item' name' date' [<- | Hin] Hd; [congruence|].
        apply (Hrest item' name' date' Hin Hd).
      * right. exists (item :: before), item', after, name, date.
        split; [reflexivity|]. split; [exact Hd|]. split; [reflexivity|].
        split; [exact Hc|]. split; [|exact Ha].
        intros item'' name'' date'' [<- | Hin] Hd''; [congruence|].
        apply (Hb item'' name'' date'' Hin Hd'').
Qed.

(** The loop of [run] over the items of the root settles on the folder
    of an earlier run with the latest date in its name, and on the first
    of them in the listing when several carry that date; it settles on
    none when no item is such a folder. *)
Theorem select_folder_picks_latest root_items result :
  select_folder root_items None = Ok result ->
  match result with
  | Some (name, date) =>
      exists before item after,
        root_items = (before ++ item :: after)%list
        /\ dated_folder item = Some (name, date)
        /\ (forall item' name' date',
              In item' before -> dated_folder item' = Some (name', date') ->
              datetime_gt date date' = true)
        /\ (forall item' name' date',
              In item' after -> dated_folder item' = Some (name', date') ->
              datetime_gt date' date = false)
  | None => forall item, In item root_items -> dated_folder item = None
  end.
Proof.
  intros Hrun.
  destruct (select_folder_spec root_items None result Hrun)
    as [[-> Hrest]
       | (before & item & after & name & date & -> & Hd & -> & _ & Hb & Ha)].
  - intros item Hin. destruct (dated_folder item) as [[name date]|] eqn:Hd;
      [|reflexivity].
    destruct (Hrest item name date Hin Hd) as (latest & Hlatest & _). discriminate.
  - exists before, item, after. repeat split; assumption.
Qed.

(** The date of a folder is read from the third part of its name alone:
    the time of day that follows it there plays no part. *)
Theorem folder_date_ignores_time_of_day day time :
  Py.char_in "_" day = false ->
  folder_date ("KoboMedia_Direct_" +:+ day +:+ "_" +:+ time)
  = folder_date ("KoboMedia_Direct_" +:+ day).
Proof.
  intros Hday. unfold folder_date.
  change ("KoboMedia_Direct_" +:+ day +:+ "_" +:+ time)
    with ("KoboMedia" +:+ String "_" ("Direct" +:+ String "_" (day +:+ String "_" time))).
  change ("KoboMedia_Direct_" +:+ day)
    with ("KoboMedia" +:+ String "_" ("Direct" +:+ String "_" day)).
  rewrite !split_app_sep.
  rewrite (split_without_sep "_" "KoboMedia") by reflexivity.
  rewrite (split_without_sep "_" "Direct") by reflexivity.
  rewrite (split_without_sep "_" day) by exact Hday.
  pose proof (split_nonempty "_" time) as Hne.
  destruct (Py.split "_" time) as [|t ts]; [contradiction|].
  reflexivity.
Qed.

End LatestFolder.

(** ** The submissions of a form: [fetch_form_data_safe] *)

Section Fetch.

Variable kobo_session_get : kobo_api.
Variable DictReader : string -> result (list pyval).

(** A JSON endpoint hands the method on to the next one exactly when it
    gives nothing. *)
Lemma try_json_endpoint_none url :
  gives_nothing kobo_session_get url = true
  <-> try_json_endpoint kobo_session_get url = Ok None.
Proof.
  unfold gives_nothing, try_json_endpoint, rbind.
  destruct (kobo_session_get url) as [response|e]; [|split; discriminate].
  destruct (status_code response =? 200); cbn [negb orb]; [|split; reflexivity].
  destruct (json response) as [data|e].
  - destruct data as [| | | | |l|d]; cbn [results_of]; try (split; reflexivity);
      try (split; discriminate).
    destruct (Val.dict_get d "results"); split; try reflexivity; discriminate.
  - destruct (is_JSONDecodeError e); split; try reflexivity; discriminate.
Qed.

(** The method asks the data endpoint; it asks the export endpoint
    exactly when the data endpoint answers and gives nothing, and the
    CSV endpoint exactly when the export endpoint answers and gives
    nothing too: its requests are the first one, two or three of the
    list of the endpoints. *)
Theorem fetch_form_data_safe_asks_in_order form_uid :
  snd (fetch_form_data_safe kobo_session_get DictReader form_uid)
  = KoboSessionGet (data_url form_uid)
    :: (if gives_nothing kobo_session_get (data_url form_uid)
        then KoboSessionGet (export_url form_uid)
             :: (if gives_nothing kobo_session_get (export_url form_uid)
                 then [KoboSessionGet (csv_url form_uid)]
                 else [])
        else [])
  /\ exists k,
       (1 <= k <= 3)%nat
       /\ snd (fetch_form_data_safe kobo_session_get DictReader form_uid)
          = firstn k (endpoints form_uid).
Proof.
  pose proof (try_json_endpoint_none (data_url form_uid)) as Hdata.
  pose proof (try_json_endpoint_none (export_url form_uid)) as Hexport.
  unfold fetch_form_data_safe, endpoints.
  destruct (try_json_endpoint kobo_session_get (data_url form_uid)) as [[results|]|e].
  - destruct (gives_nothing kobo_session_get (data_url form_uid));
      [destruct Hdata as [Hdata _]; discriminate (Hdata eq_refl)|].
    split; [reflexivity|]. exists 1%nat. split; [lia | reflexivity].
  - rewrite (proj2 Hdata eq_refl).
    destruct (try_json_endpoint kobo_session_get (export_url form_uid))
      as [[results|]|e].
    + destruct (gives_nothing kobo_session_get (export_url form_uid));
        [destruct Hexport as [Hexport _]; discriminate (Hexport eq_refl)|].
      split; [reflexivity|]. exists 2%nat. split; [lia | reflexivity].
    + rewrite (proj2 Hexport eq_refl).
      split; [reflexivity|]. exists 3%nat. split; [lia | reflexivity].
    + destruct (gives_nothing kobo_session_get (export_url form_uid));
        [destruct Hexport as [Hexport _]; discriminate (Hexport eq_refl)|].
      split; [reflexivity|]. exists 2%nat. split; [lia | reflexivity].
  - destruct (gives_nothing kobo_session_get (data_url form_uid));
      [destruct Hdata as [Hdata _]; discriminate (Hdata eq_refl)|].
    split; [reflexivity|]. exists 1%nat. split; [lia | reflexivity].
Qed.

(** When every request is refused or raises, the method returns the empty
    list: it does not raise. *)
Theorem fetch_form_data_safe_without_answer form_uid :
  (forall url,
      match kobo_session_get url with
      | Ok response => status_code response <> 200
      | Raise _ => True
      end) ->
  fst (fetch_form_data_safe kobo_session_get DictReader form_uid) = PList [].
Proof.
  intros Hrefused.
  assert (Hjson : forall url,
             try_json_endpoint kobo_session_get url = Ok None
             \/ exists e, try_json_endpoint kobo_session_get url = Raise e).
  { intros url. unfold try_json_endpoint, rbind. specialize (Hrefused url).
    destruct (kobo_session_get url) as [response|e]; [|right; eauto].
    apply Z.eqb_neq in Hrefused. rewrite Hrefused. left. reflexivity. }
  unfold fetch_form_data_safe.
  destruct (Hjson (data_url form_uid)) as [-> | [e ->]]; [|reflexivity].
  destruct (Hjson (export_url form_uid)) as [-> | [e ->]]; [|reflexivity].
  cbn [fst]. unfold try_csv_endpoint, rbind.
  specialize (Hrefused (csv_url form_uid)).
  destruct (kobo_session_get (csv_url form_uid)) as [response|e]; [|reflexivity].
  apply Z.eqb_neq in Hrefused. rewrite Hrefused. reflexivity.
Qed.

End Fetch.

(** ** The catalog of the destination: [get_existing_files_in_sharepoint] *)

Section Catalog.

Variable g : graph.
Variable self : DirectMediaTransfer.
Variable main_folder : string.

Implicit Types (form_name : string) (form_files files : gset string).

Lemma union_singleton_grows (x : string) form_files files :
  {[ x ]} ∪ form_files ⊆ files -> form_files ⊆ files /\ x ∈ files.
Proof. intros H. split; set_solver. Qed.

(** The loop over a subfolder adds the names of its files, and nothing
    else. *)
Lemma scan_subfolder_items_complete subfolder_items :
  forall form_files files,
    scan_subfolder_items subfolder_items form_files = Scanned files ->
    form_files ⊆ files
    /\ forall item name,
         In item subfolder_items -> shows item name false -> name ∈ files.
Proof.
  induction subfolder_items as [|item items IH]; intros form_files files;
    cbn [scan_subfolder_items].
  - intros [= <-]. split; [reflexivity | intros ? ? []].
  - destruct (is_folder item) as [[]|e] eqn:Hfolder; try discriminate.
    + intros Hscan. destruct (IH _ _ Hscan) as [Hsub Hitems].
      split; [exact Hsub|].
      intros item' name [<- | Hin] [Hname Hisfile]; [congruence|].
      apply (Hitems item' name Hin). split; assumption.
    + destruct (text_name item) as [filename| |] eqn:Hname; try discriminate.
      intros Hscan. destruct (IH _ _ Hscan) as [Hsub Hitems].
      apply union_singleton_grows in Hsub. destruct Hsub as [Hsub Hfile].
      split; [exact Hsub|].
      intros item' name [<- | Hin] [Hname' Hisfile].
      * rewrite Hname in Hname'. injection Hname' as <-. exact Hfile.
      * apply (Hitems item' name Hin). split; assumption.
Qed.

Lemma scan_subfolder_items_sound subfolder_items :
  forall form_files files,
    scan_subfolder_items subfolder_items form_files = Scanned files ->
    forall name,
      name ∈ files ->
      name ∈ form_files
      \/ exists item, In item subfolder_items /\ shows item name false.
Proof.
  induction subfolder_items as [|item items IH]; intros form_files files;
    cbn [scan_subfolder_items].
  - intros [= <-] name Hin. left. exact Hin.
  - destruct (is_folder item) as [[]|e] eqn:Hfolder; try discriminate.
    + intros Hscan name Hin.
      destruct (IH _ _ Hscan name Hin) as [H | (item' & Hin' & Hshows)];
        [left; exact H|].
      right. exists item'. split; [right; exact Hin' | exact Hshows].
    + destruct (text_name item) as [filename| |] eqn:Hname; try discriminate.
      intros Hscan name Hin.
      destruct (IH _ _ Hscan name Hin) as [H | (item' & Hin' & Hshows)].
      * apply elem_of_union in H. destruct H as [H | H]; [|left; exact H].
        apply elem_of_singleton in H. subst name.
        right. exists item. split; [left; reflexivity | split; assumption].
      * right. exists item'. split; [right; exact Hin' | exact Hshows].
Qed.

(** The loop over a form folder adds the names of its files and of the
    files of its subfolders, and nothing else. *)
Lemma scan_form_items_complete form_name form_items :
  forall form_files files log,
    scan_form_items g self main_folder form_name form_items form_files
    = (Scanned files, log) ->
    form_files ⊆ files
    /\ (forall item name,
          In item form_items -> shows item name false -> name ∈ files)
    /\ (forall item item_name name,
          In item form_items -> shows item item_name true ->
          listed_at g (subfolder_url self main_folder form_name item_name) name false ->
          name ∈ files).
Proof.
  induction form_items as [|item items IH]; intros form_files files log;
    cbn [scan_form_items].
  - intros [= <- _]. split; [reflexivity|]. split; [intros ? ? [] | intros ? ? ? []].
  - destruct (text_name item) as [item_name| |] eqn:Hname; try discriminate.
    destruct (is_folder item) as [[]|e] eqn:Hfolder; try discriminate.
    + fold (subfolder_url self main_folder form_name item_name).
      destruct (sp_get g (subfolder_url self main_folder form_name item_name))
        as [subfolder_response|e] eqn:Hget; try discriminate.
      destruct (status_code subfolder_response =? 200) eqn:Hstatus.
      * destruct (items_of subfolder_response) as [subfolder_items|e] eqn:Hitems;
          try discriminate.
        destruct (scan_subfolder_items subfolder_items form_files)
          as [form_files'| |] eqn:Hsub; try discriminate.
        destruct (scan_form_items g self main_folder form_name items form_files')
          as [r log'] eqn:Hrest.
        intros [= -> _].
        destruct (IH _ _ _ Hrest) as (Hgrow & Hfiles & Hsubs).
        destruct (scan_subfolder_items_complete _ _ _ Hsub) as [Hgrow' Hsubfiles].
        split; [etrans; eassumption|]. split.
        -- intros item' name [<- | Hin] [Hn Hf]; [congruence|].
           apply (Hfiles item' name Hin). split; assumption.
        -- intros item' item_name' name [<- | Hin] [Hn Hf] Hlisted.
           ++ rewrite Hname in Hn. injection Hn as <-.
              destruct Hlisted as (response & listed & item' & Hget' & _ & Hitems'
                                   & Hin' & Hshows).
              rewrite Hget in Hget'. injection Hget' as <-.
              rewrite Hitems in Hitems'. injection Hitems' as <-.
              apply Hgrow. apply (Hsubfiles item' name Hin' Hshows).
           ++ apply (Hsubs item' item_name' name Hin); [split; assumption|].
              exact Hlisted.
      * destruct (scan_form_items g self main_folder form_name items form_files)
          as [r log'] eqn:Hrest.
        intros [= -> _].
        destruct (IH _ _ _ Hrest) as (Hgrow & Hfiles & Hsubs).
        split; [exact Hgrow|]. split.
        -- intros item' name [<- | Hin] [Hn Hf]; [congruence|].
           apply (Hfiles item' name Hin). split; assumption.
        -- intros item' item_name' name [<- | Hin] [Hn Hf] Hlisted.
           ++ rewrite Hname in Hn. injection Hn as <-.
              destruct Hlisted as (response & listed & item' & Hget' & Hcode & _).
              rewrite Hget in Hget'. injection Hget' as <-.
              rewrite Hcode in Hstatus. discriminate.
           ++ apply (Hsubs item' item_name' name Hin); [split; assumption|].
              exact Hlisted.
    + intros Hrest.
      destruct (IH _ _ _ Hrest) as (Hgrow & Hfiles & Hsubs).
      apply union_singleton_grows in Hgrow. destruct Hgrow as [Hgrow Hfile].
      split; [exact Hgrow|]. split.
      * intros item' name [<- | Hin] [Hn Hf].
        -- rewrite Hname in Hn. injection Hn as <-. exact Hfile.
        -- apply (Hfiles item' name Hin). split; assumption.
      * intros item' item_name' name [<- | Hin] [Hn Hf] Hlisted; [congruence|].
        apply (Hsubs item' item_name' name Hin); [split; assumption|].
        exact Hlisted.
Qed.

Lemma scan_form_items_sound form_name form_items :
  forall form_files files log,
    scan_form_items g self main_folder form_name form_items form_files
    = (Scanned files, log) ->
    forall name,
      name ∈ files ->
      name ∈ form_files
      \/ (exists item, In item form_items /\ shows item name false)
      \/ (exists item item_name,
            In item form_items /\ shows item item_name true
            /\ listed_at g (subfolder_url self main_folder form_name item_name)
                    name false).
Proof.
  induction form_items as [|item items IH]; intros form_files files log;
    cbn [scan_form_items].
  - intros [= <- _] name Hin. left. exact Hin.
  - destruct (text_name item) as [item_name| |] eqn:Hname; try discriminate.
    destruct (is_folder item) as [[]|e] eqn:Hfolder; try discriminate.
    + fold (subfolder_url self main_folder form_name item_name).
      destruct (sp_get g (subfolder_url self main_folder form_name item_name))
        as [subfolder_response|e] eqn:Hget; try discriminate.
      destruct (status_code subfolder_response =? 200) eqn:Hstatus.
      * destruct (items_of subfolder_response) as [subfolder_items|e] eqn:Hitems;
          try discriminate.
        destruct (scan_subfolder_items subfolder_items form_files)
          as [form_files'| |] eqn:Hsub; try discriminate.
        destruct (scan_form_items g self main_folder form_name items form_files')
          as [r log'] eqn:Hrest.
        intros [= -> _] name Hin.
        destruct (IH _ _ _ Hrest name Hin)
          as [H | [(item' & Hin' & Hs) | (item' & d & Hin' & Hs & Hl)]].
        -- destruct (scan_subfolder_items_sound _ _ _ Hsub name H)
             as [H' | (item' & Hin' & Hs)]; [left; exact H'|].
           right. right. exists item, item_name.
           split; [left; reflexivity|]. split; [split; assumption|].
           exists subfolder_response, subfolder_items, item'.
           apply Z.eqb_eq in Hstatus. repeat split; try assumption; apply Hs.
        -- right. left. exists item'. split; [right; exact Hin' | exact Hs].
        -- right. right. exists item', d.
           split; [right; exact Hin'|]. split; assumption.
      * destruct (scan_form_items g self main_folder form_name items form_files)
          as [r log'] eqn:Hrest.
        intros [= -> _] name Hin.
        destruct (IH _ _ _ Hrest name Hin)
          as [H | [(item' & Hin' & Hs) | (item' & d & Hin' & Hs & Hl)]].
        -- left. exact H.
        -- right. left. exists item'. split; [right; exact Hin' | exact Hs].
        -- right. right. exists item', d.
           split; [right; exact Hin'|]. split; assumption.
    + intros Hrest name Hin.
      destruct (IH _ _ _ Hrest name Hin)
        as [H | [(item' & Hin' & Hs) | (item' & d & Hin' & Hs & Hl)]].
      * apply elem_of_union in H. destruct H as [H | H]; [|left; exact H].
        apply elem_of_singleton in H. subst name.
        right. left. exists item. split; [left; reflexivity | split; assumption].
      * right. left. exists item'. split; [right; exact Hin' | exact Hs].
      * right. right. exists item', d.
        split; [right; exact Hin'|]. split; assumption.
Qed.

(** The names found for a form folder are the names of the files its
    listing shows and of the files the listings of its subfolders show:
    what lies deeper is not looked at. *)
Theorem scan_form_finds_two_levels form_name files :
  fst (scan_form g self main_folder form_name) = Scanned files ->
  forall name,
    name ∈ files ->
    listed_at g (form_url self main_folder form_name) name false
    \/ exists item_name,
         listed_at g (form_url self main_folder form_name) item_name true
         /\ listed_at g (subfolder_url self main_folder form_name item_name) name false.
Proof.
  unfold scan_form. fold (form_url self main_folder form_name).
  destruct (sp_get g (form_url self main_folder form_name)) as [form_response|e] eqn:Hget;
    [|discriminate].
  destruct (status_code form_response =? 200) eqn:Hstatus.
  - destruct (items_of form_response) as [form_items|e] eqn:Hitems; [|discriminate].
    destruct (scan_form_items g self main_folder form_name form_items ∅)
      as [r log] eqn:Hscan.
    cbn [fst]. intros -> name Hin. apply Z.eqb_eq in Hstatus.
    destruct (scan_form_items_sound _ _ _ _ _ Hscan name Hin)
      as [H | [(item & Hin' & Hs) | (item & d & Hin' & Hs & Hl)]].
    + set_solver.
    + left. exists form_response, form_items, item. repeat split; try assumption;
        apply Hs.
    + right. exists d. split; [|exact Hl].
      exists form_response, form_items, item. repeat split; try assumption; apply Hs.
  - cbn [fst]. intros [= <-] name Hin. set_solver.
Qed.

(** The other way round, for a form folder that was scanned to its
    end. *)
Lemma scan_form_complete form_name files :
  fst (scan_form g self main_folder form_name) = Scanned files ->
  forall name,
    listed_at g (form_url self main_folder form_name) name false
    \/ (exists item_name,
          listed_at g (form_url self main_folder form_name) item_name true
          /\ listed_at g (subfolder_url self main_folder form_name item_name)
                  name false) ->
    name ∈ files.
Proof.
  unfold scan_form. fold (form_url self main_folder form_name).
  intros Hscan name Hlisted.
  assert (Hform : exists form_response form_items,
             sp_get g (form_url self main_folder form_name) = Ok form_response
             /\ status_code form_response = 200
             /\ items_of form_response = Ok form_items
             /\ ((exists item, In item form_items /\ shows item name false)
                 \/ exists item item_name,
                      In item form_items /\ shows item item_name true
                      /\ listed_at g (subfolder_url self main_folder form_name item_name)
                              name false)).
  { destruct Hlisted as [(r & items & item & H1 & H2 & H3 & H4 & H5)
                        | (d & (r & items & item & H1 & H2 & H3 & H4 & H5) & Hl)];
      exists r, items; repeat split; try assumption; [left | right]; eauto. }
  destruct Hform as (form_response & form_items & Hget & Hcode & Hitems & Hwhere).
  rewrite Hget in Hscan. apply Z.eqb_eq in Hcode. rewrite Hcode, Hitems in Hscan.
  destruct (scan_form_items g self main_folder form_name form_items ∅)
    as [r log] eqn:Hloop.
  cbn [fst] in Hscan. subst r.
  destruct (scan_form_items_complete _ _ _ _ _ Hloop) as (_ & Hfiles & Hsubs).
  destruct Hwhere as [(item & Hin & Hs) | (item & d & Hin & Hs & Hl)].
  - apply (Hfiles item name Hin Hs).
  - apply (Hsubs item d name Hin Hs Hl).
Qed.

(** What the loop over the main folder stores under a name is what the
    scan of the form folder of that name finds. *)
Lemma scan_main_items_entries items :
  forall existing_files r catalog log,
    scan_main_items g self main_folder items existing_files = (r, catalog, log) ->
    forall form_name files,
      catalog !! form_name = Some files ->
      existing_files !! form_name = Some files
      \/ (fst (scan_form g self main_folder form_name) = Scanned files
          /\ exists item, In item items /\ shows item form_name true).
Proof.
  induction items as [|item items IH]; intros existing_files r catalog log;
    cbn [scan_main_items].
  - intros [= _ <- _] form_name files H. left. exact H.
  - destruct (is_folder item) as [[]|e] eqn:Hfolder.
    + destruct (text_name item) as [name| |] eqn:Hname.
      * destruct (scan_form g self main_folder name) as [[form_files| |] log1]
          eqn:Hform.
        -- destruct (scan_main_items g self main_folder items
                       (<[name := form_files]> existing_files))
             as [[r' catalog'] log'] eqn:Hrest.
           intros [= _ <- _] form_name files Hlookup.
           destruct (IH _ _ _ _ Hrest form_name files Hlookup)
             as [H | (Hscan & item' & Hin & Hs)].
           ++ apply lookup_insert_Some in H.
              destruct H as [[<- <-] | [_ H]]; [|left; exact H].
              right. rewrite Hform. split; [reflexivity|].
              exists item. split; [left; reflexivity | split; assumption].
           ++ right. split; [exact Hscan|].
              exists item'. split; [right; exact Hin | exact Hs].
        -- intros [= _ <- _] form_name files H. left. exact H.
        -- intros [= _ <- _] form_name files H. left. exact H.
      * intros [= _ <- _] form_name files H. left. exact H.
      * intros [= _ <- _] form_name files H. left. exact H.
    + intros Hrest form_name files Hlookup.
      destruct (IH _ _ _ _ Hrest form_name files Hlookup)
        as [H | (Hscan & item' & Hin & Hs)]; [left; exact H|].
      right. split; [exact Hscan|].
      exists item'. split; [right; exact Hin | exact Hs].
    + intros [= _ <- _] form_name files H. left. exact H.
Qed.

(** What the method returns, with the listing of the main folder. *)
Lemma get_existing_files_cases catalog :
  fst (get_existing_files_in_sharepoint g self main_folder) = Some catalog ->
  catalog = ∅
  \/ exists response items r log,
       sp_get g (children_url self main_folder) = Ok response
       /\ status_code response = 200
       /\ items_of response = Ok items
       /\ scan_main_items g self main_folder items ∅ = (r, catalog, log).
Proof.
  unfold get_existing_files_in_sharepoint.
  destruct (sp_get g (children_url self main_folder)) as [response|e] eqn:Hget;
    [|intros [= <-]; left; reflexivity].
  destruct (status_code response =? 200) eqn:Hstatus; cbn [negb];
    [|intros [= <-]; left; reflexivity].
  destruct (items_of response) as [items|e] eqn:Hitems;
    [|intros [= <-]; left; reflexivity].
  destruct (scan_main_items g self main_folder items ∅) as [[r existing] log]
    eqn:Hscan.
  apply Z.eqb_eq in Hstatus.
  destruct r; cbn [fst]; intros [= <-]; right;
    exists response, items; eauto 10.
Qed.

(** The entries of the catalog: a name the catalog knows is the name of
    a folder that the listing of the main folder shows, and the set
    stored under it is what the scan of that form folder finds. *)
Theorem catalog_entries_are_scanned_form_folders catalog form_name files :
  fst (get_existing_files_in_sharepoint g self main_folder) = Some catalog ->
  catalog !! form_name = Some files ->
  listed_at g (children_url self main_folder) form_name true
  /\ fst (scan_form g self main_folder form_name) = Scanned files.
Proof.
  intros Hcatalog Hlookup.
  destruct (get_existing_files_cases catalog Hcatalog)
    as [-> | (response & items & r & log & Hget & Hcode & Hitems & Hscan)].
  - rewrite lookup_empty in Hlookup. discriminate.
  - destruct (scan_main_items_entries _ _ _ _ _ Hscan form_name files Hlookup)
      as [H | (Hform & item & Hin & Hs)].
    + rewrite lookup_empty in H. discriminate.
    + split; [|exact Hform].
      exists response, items, item. repeat split; try assumption; apply Hs.
Qed.

(** A file that the destination lists in a form folder, or in a
    subfolder of it, is taken for uploaded: when the catalog knows the
    form folder, a name that the listing of the folder or of one of its
    subfolders shows as a file is a duplicate for that form, whatever
    the naming scheme. *)
Theorem listed_file_is_taken_for_uploaded catalog form_name files name transfer :
  fst (get_existing_files_in_sharepoint g self main_folder) = Some catalog ->
  catalog !! form_name = Some files ->
  listed_at g (form_url self main_folder form_name) name false
  \/ (exists item_name,
        listed_at g (form_url self main_folder form_name) item_name true
        /\ listed_at g (subfolder_url self main_folder form_name item_name)
                name false) ->
  is_file_already_uploaded transfer name form_name catalog = true.
Proof.
  intros Hcatalog Hlookup Hlisted.
  assert (Hscan : fst (scan_form g self main_folder form_name) = Scanned files).
  { destruct (get_existing_files_cases catalog Hcatalog)
      as [-> | (response & items & r & log & Hget & Hcode & Hitems & Hscan)].
    - rewrite lookup_empty in Hlookup. discriminate.
    - destruct (scan_main_items_entries _ _ _ _ _ Hscan form_name files Hlookup)
        as [H | [Hform _]]; [|exact Hform].
      rewrite lookup_empty in H. discriminate. }
  pose proof (scan_form_complete form_name files Hscan name Hlisted) as Hin.
  unfold is_file_already_uploaded. rewrite Hlookup.
  rewrite bool_decide_eq_true_2 by exact Hin. reflexivity.
Qed.

(** When the main folder cannot be listed the catalog is empty, and a
    form that is processed with it skips nothing. *)
Theorem unlistable_main_folder_skips_nothing :
  unlistable g (children_url self main_folder) ->
  get_existing_files_in_sharepoint g self main_folder
  = (Some ∅, [SpGet (children_url self main_folder)])
  /\ forall net data form_name transfer catalog,
       fst (get_existing_files_in_sharepoint g self main_folder) = Some catalog ->
       let out := process_form_media net data form_name main_folder catalog transfer in
       form_skipped (fst (fst out)) = 0
       /\ skipped (stats (snd (fst out))) = skipped (stats transfer).
Proof.
  intros Hno.
  assert (Hempty : get_existing_files_in_sharepoint g self main_folder
                   = (Some ∅, [SpGet (children_url self main_folder)])).
  { unfold get_existing_files_in_sharepoint. unfold unlistable in Hno.
    destruct (sp_get g (children_url self main_folder)) as [response|e];
      [|reflexivity].
    apply Z.eqb_neq in Hno. rewrite Hno. reflexivity. }
  split; [exact Hempty|].
  intros net data form_name transfer catalog Hcatalog.
  rewrite Hempty in Hcatalog. injection Hcatalog as <-. cbv zeta.
  destruct (process_form_media_run net data form_name main_folder ∅ transfer
              (skips_nothing ∅) (skips_nothing_refl ∅) (skips_nothing_trans ∅))
    as [fmt H].
  { intros. apply skips_nothing_media. }
  cbv zeta in H. apply H. reflexivity.
Qed.

End Catalog.

(** ** Worked instances for the folders, the form data and the catalog *)

(** A folder of two levels that the destination does not know yet: one
    check, and one request that creates [Form] among the children of
    [Main]. *)
Lemma create_sharepoint_folder_creates_last_level_witness :
  create_sharepoint_folder (sample_graph 404) sample_self "Main/Form"
  = (true,
     [SpGet (drive sample_self +:+ "/root:/" +:+ "Main/Form");
      SpPostJson (children_url sample_self "Main") (folder_data "Form")]).
Proof.
  apply (create_sharepoint_folder_creates_last_level (sample_graph 404) sample_self
           "Main/Form");
    [discriminate | reflexivity].
Defined.

(** The same folder asked for with a slash in front: one check, and no
    request to create anything. *)
Lemma create_sharepoint_folder_leading_slash_witness :
  create_sharepoint_folder (sample_graph 404) sample_self "/Main/Form"
  = (true, [SpGet (drive sample_self +:+ "/root:/" +:+ "/Main/Form")]).
Proof.
  apply (create_sharepoint_folder_leading_slash (sample_graph 404) sample_self
           "/Main/Form").
  reflexivity.
Defined.

(** Of two folders of the 26th the loop settles on the one listed first,
    though the other was made later that day. *)
Lemma select_folder_picks_latest_witness :
  let date := Datetime.mk_fields 2025 6 26 0 0 0 0 in
  exists before item after,
    sample_root = (before ++ item :: after)%list
    /\ dated_folder item = Some ("KoboMedia_Direct_20250626_080000", date)
    /\ (forall item' name' date',
          In item' before -> dated_folder item' = Some (name', date') ->
          datetime_gt date date' = true)
    /\ (forall item' name' date',
          In item' after -> dated_folder item' = Some (name', date') ->
          datetime_gt date' date = false).
Proof.
  cbv zeta.
  apply (select_folder_picks_latest sample_root
           (Some ("KoboMedia_Direct_20250626_080000",
                  Datetime.mk_fields 2025 6 26 0 0 0 0))).
  vm_compute. reflexivity.
Defined.

Lemma folder_date_ignores_time_of_day_witness :
  folder_date ("KoboMedia_Direct_" +:+ "20250626" +:+ "_" +:+ "200000")
  = folder_date ("KoboMedia_Direct_" +:+ "20250626").
Proof.
  apply (folder_date_ignores_time_of_day "20250626" "200000"). reflexivity.
Defined.

Lemma fetch_form_data_safe_without_answer_witness :
  fst (fetch_form_data_safe refusing_kobo (fun _ => Ok []) "aBcD") = PList [].
Proof.
  apply (fetch_form_data_safe_without_answer refusing_kobo (fun _ => Ok []) "aBcD").
  intros url. cbn. discriminate.
Defined.

(** The file of the column folder is found through the listing of the
    form folder and that of the column folder. *)
Lemma scan_form_finds_two_levels_witness :
  listed_at sample_drive (form_url sample_self "Main" "Form") "row2_b.jpg" false
  \/ exists item_name,
       listed_at sample_drive (form_url sample_self "Main" "Form") item_name true
       /\ listed_at sample_drive (subfolder_url sample_self "Main" "Form" item_name)
            "row2_b.jpg" false.
Proof.
  apply (scan_form_finds_two_levels sample_drive sample_self "Main" "Form"
           ({[ "row2_b.jpg" ]} ∪ ({[ "row1_a.jpg" ]} ∪ ∅))).
  - vm_compute. reflexivity.
  - apply elem_of_union_l, elem_of_singleton. reflexivity.
Defined.

Lemma catalog_entries_are_scanned_form_folders_witness :
  listed_at sample_drive (children_url sample_self "Main") "Form" true
  /\ fst (scan_form sample_drive sample_self "Main" "Form")
     = Scanned ({[ "row2_b.jpg" ]} ∪ ({[ "row1_a.jpg" ]} ∪ ∅)).
Proof.
  apply (catalog_entries_are_scanned_form_folders sample_drive sample_self "Main"
           (<[ "Form" := {[ "row2_b.jpg" ]} ∪ ({[ "row1_a.jpg" ]} ∪ ∅) ]> ∅)).
  - vm_compute. reflexivity.
  - apply lookup_insert_eq.
Defined.

(** A second photo of row 2 is taken for uploaded under its own name:
    the drive lists [row2_b.jpg] in the column folder. *)
Lemma listed_file_is_taken_for_uploaded_witness :
  is_file_already_uploaded sample_self "row2_b.jpg" "Form"
    (<[ "Form" := {[ "row2_b.jpg" ]} ∪ ({[ "row1_a.jpg" ]} ∪ ∅) ]> ∅) = true.
Proof.
  apply (listed_file_is_taken_for_uploaded sample_drive sample_self "Main"
           (<[ "Form" := {[ "row2_b.jpg" ]} ∪ ({[ "row1_a.jpg" ]} ∪ ∅) ]> ∅)
           "Form" ({[ "row2_b.jpg" ]} ∪ ({[ "row1_a.jpg" ]} ∪ ∅)) "row2_b.jpg"
           sample_self).
  - vm_compute. reflexivity.
  - apply lookup_insert_eq.
  - right. exists "photo". split.
    + exists (listing [file_item "row1_a.jpg"; folder_item "photo"]),
        [file_item "row1_a.jpg"; folder_item "photo"], (folder_item "photo").
      repeat split; try reflexivity. right. left. reflexivity.
    + exists (listing [file_item "row2_b.jpg"; folder_item "deeper"]),
        [file_item "row2_b.jpg"; folder_item "deeper"], (file_item "row2_b.jpg").
      repeat split; try reflexivity. left. reflexivity.
Defined.

(** A main folder that the destination does not know. *)
Lemma unlistable_main_folder_skips_nothing_witness :
  get_existing_files_in_sharepoint (sample_graph 404) sample_self "Main"
  = (Some ∅, [SpGet (children_url sample_self "Main")]).
Proof.
  apply (proj1 (unlistable_main_folder_skips_nothing (sample_graph 404) sample_self
                  "Main" ltac:(cbn; discriminate))).
Defined.

(** ** The credentials: [__init__] and the check of [main] *)

Section Strip.

Variable p : ascii -> bool.

(** What [lstrip_by] removes and what it leaves. *)
Lemma lstrip_by_spec s :
  exists l, s = l +:+ Py.lstrip_by p s
            /\ Py.forall_chars p l = true
            /\ forall c, first_char (Py.lstrip_by p s) = Some c -> p c = false.
Proof.
  induction s as [|c s (l & Hs & Hl & Hfirst)].
  - exists EmptyString. repeat split; try reflexivity. discriminate.
  - cbn [Py.lstrip_by]. destruct (p c) eqn:Hc.
    + exists (String c l). rewrite append_cons, <- Hs. cbn [Py.forall_chars].
      rewrite Hc, Hl. repeat split; try reflexivity. exact Hfirst.
    + exists EmptyString. repeat split; try reflexivity.
      intros c' [= <-]. exact Hc.
Qed.

(** What [rstrip_by] removes and what it leaves. *)
Lemma rstrip_by_spec s :
  exists r, s = Py.rstrip_by p s +:+ r
            /\ Py.forall_chars p r = true
            /\ forall c, last_char (Py.rstrip_by p s) = Some c -> p c = false.
Proof.
  induction s as [|c s (r & Hs & Hr & Hlast)].
  - exists EmptyString. repeat split; try reflexivity. discriminate.
  - cbn [Py.rstrip_by]. destruct (Py.rstrip_by p s) as [|d rest] eqn:Hrest.
    + destruct (p c) eqn:Hc.
      * rewrite append_nil in Hs. subst s.
        exists (String c r). rewrite append_nil. cbn [Py.forall_chars].
        rewrite Hc, Hr. repeat split; try reflexivity. discriminate.
      * exists r. unfold Py.str1. rewrite append_cons, <- Hs.
        repeat split; try reflexivity; [exact Hr|].
        intros c' [= <-]. exact Hc.
    + exists r. rewrite append_cons, <- Hs. repeat split; try reflexivity;
        [exact Hr | exact Hlast].
Qed.

(** What is left of a text is a prefix of it. *)
Lemma rstrip_by_prefix s : String.prefix (Py.rstrip_by p s) s = true.
Proof.
  destruct (rstrip_by_spec s) as (r & Hs & _).
  rewrite Hs at 2. apply prefix_app. clear Hs.
  induction (Py.rstrip_by p s) as [|c t IH]; [reflexivity|].
  cbn [String.prefix]. destruct (ascii_dec c c); [exact IH | contradiction].
Qed.

(** A prefix that does not end with a character to strip stays. *)
Lemma rstrip_by_keeps_prefix pre :
  forall s c,
    last_char pre = Some c -> p c = false ->
    String.prefix pre s = true -> String.prefix pre (Py.rstrip_by p s) = true.
Proof.
  induction pre as [|a pre IH]; intros s c Hlast Hc Hprefix; [discriminate|].
  destruct s as [|b s]; [discriminate|].
  cbn [String.prefix] in Hprefix.
  destruct (ascii_dec a b) as [<- |]; [|discriminate].
  cbn [Py.rstrip_by]. destruct pre as [|a' pre'].
  - injection Hlast as <-.
    destruct (Py.rstrip_by p s); [rewrite Hc|]; cbn [String.prefix Py.str1];
      destruct (ascii_dec a a); try contradiction; reflexivity.
  - specialize (IH s c Hlast Hc Hprefix).
    destruct (Py.rstrip_by p s) as [|d rest]; [discriminate|].
    cbn [String.prefix]. destruct (ascii_dec a a); [exact IH | contradiction].
Qed.

Lemma forall_chars_first s c :
  Py.forall_chars p s = true -> first_char s = Some c -> p c = true.
Proof.
  destruct s as [|d s]; [discriminate|]. cbn [Py.forall_chars first_char].
  intros H [= <-]. apply andb_true_iff in H. apply H.
Qed.

End Strip.

Section Credentials.

Variable getenv : environment.

(** The two checks of the constructor together: all five are set. *)
Lemma init_cases :
  (forallb (fun var => is_set (getenv var)) required_vars = true
   /\ exists object,
        init getenv = Ok object
        /\ Initial.site_id object = strip_chars quotes (value_of (getenv "SITE_ID")))
  \/ (forallb (fun var => is_set (getenv var)) required_vars = false
      /\ init getenv = Raise ValueError).
Proof.
  unfold init, required_vars. cbn [forallb].
  destruct (is_set (getenv "API_TOKEN")); cbn [negb andb]; [|right; split; reflexivity].
  destruct (is_set (getenv "TENANT_ID")); cbn [negb andb]; [|right; split; reflexivity].
  destruct (is_set (getenv "CLIENT_ID")); cbn [negb andb]; [|right; split; reflexivity].
  destruct (is_set (getenv "CLIENT_SECRET")); cbn [negb andb];
    [|right; split; reflexivity].
  destruct (is_set (getenv "SITE_ID")); cbn [negb andb]; [|right; split; reflexivity].
  left. split; [reflexivity|]. eexists. split; reflexivity.
Qed.

Lemma missing_vars_none :
  missing_vars getenv = []
  <-> forallb (fun var => is_set (getenv var)) required_vars = true.
Proof.
  unfold missing_vars. generalize required_vars. intros vars.
  induction vars as [|var vars IH]; cbn [List.filter forallb]; [split; reflexivity|].
  destruct (is_set (getenv var)); cbn [negb andb]; [exact IH|].
  split; discriminate.
Qed.

(** The check of [main] covers that of the constructor: [main] exits
    with status 1 exactly when the constructor would raise, so that the
    constructor it calls returns. *)
Theorem main_check_covers_init :
  match main_startup getenv with
  | Exit status =>
      status = 1 /\ missing_vars getenv <> [] /\ init getenv = Raise ValueError
  | Constructed object =>
      missing_vars getenv = [] /\ exists o, object = Ok o
  end.
Proof.
  unfold main_startup. pose proof missing_vars_none as Hnone.
  destruct init_cases as [[Hall (object & Hinit & _)] | [Hsome Hinit]].
  - rewrite (proj2 Hnone Hall). split; [reflexivity|]. exists object. exact Hinit.
  - destruct (missing_vars getenv) as [|var vars].
    + rewrite (proj1 Hnone eq_refl) in Hsome. discriminate.
    + repeat split; [discriminate | exact Hinit].
Qed.

(** The site identifier the object keeps is the value of [SITE_ID]
    without the quotes at its two ends: it neither starts nor ends with a
    quote.  The value is tested before it is stripped, so that the
    identifier kept is empty when the value is made of quotes only. *)
Theorem init_strips_quotes_of_site_id object :
  init getenv = Ok object ->
  exists raw l r,
    getenv "SITE_ID" = Some raw
    /\ raw = l +:+ Initial.site_id object +:+ r
    /\ Py.forall_chars is_quote l = true
    /\ Py.forall_chars is_quote r = true
    /\ (forall c, first_char (Initial.site_id object) = Some c -> is_quote c = false)
    /\ (forall c, last_char (Initial.site_id object) = Some c -> is_quote c = false)
    /\ (Initial.site_id object = EmptyString <-> Py.forall_chars is_quote raw = true).
Proof.
  intros Hinit.
  destruct init_cases as [[Hall (object' & Hinit' & Hsite)] | [_ Hraise]];
    [|congruence].
  assert (object' = object) by congruence. subst object'.
  assert (Hset : is_set (getenv "SITE_ID") = true).
  { unfold required_vars in Hall. cbn [forallb] in Hall.
    rewrite !andb_true_iff in Hall. apply Hall. }
  destruct (getenv "SITE_ID") as [raw|]; [|discriminate].
  cbn [value_of] in Hsite. exists raw.
  unfold strip_chars, Py.rstrip in Hsite. fold is_quote in Hsite.
  destruct (lstrip_by_spec is_quote raw) as (l & Hraw & Hl & Hfirst).
  destruct (rstrip_by_spec is_quote (Py.lstrip_by is_quote raw))
    as (r & Hmid & Hr & Hlast).
  rewrite <- Hsite in Hmid, Hlast.
  exists l, r.
  assert (Hfirst' : forall c, first_char (Initial.site_id object) = Some c ->
                              is_quote c = false).
  { intros c Hc. apply Hfirst. rewrite Hmid.
    destruct (Initial.site_id object); [discriminate | exact Hc]. }
  split; [reflexivity|]. split; [rewrite <- Hmid; exact Hraw|].
  split; [exact Hl|]. split; [exact Hr|]. split; [exact Hfirst'|].
  split; [exact Hlast|]. split.
  - intros Hempty. rewrite Hempty, append_nil in Hmid.
    rewrite Hraw, Hmid, forall_chars_app, Hl, Hr. reflexivity.
  - intros Hquotes.
    destruct (Initial.site_id object) as [|c site] eqn:Hobject; [reflexivity|].
    pose proof (Hfirst' c eq_refl) as Hc.
    rewrite Hraw, Hmid, !forall_chars_app in Hquotes.
    cbn [Py.forall_chars] in Hquotes. rewrite Hc in Hquotes.
    cbn [andb] in Hquotes. rewrite andb_false_r in Hquotes. discriminate.
Qed.

End Credentials.

(** ** The URL scan: [extract_urls_fallback] *)

Section UrlScan.

Lemma prefix_trans a :
  forall b c,
    String.prefix a b = true -> String.prefix b c = true -> String.prefix a c = true.
Proof.
  induction a as [|x a IH]; intros [|y b] [|z c]; cbn [String.prefix];
    try reflexivity; try discriminate.
  destruct (ascii_dec x y) as [<- |]; [|discriminate].
  destruct (ascii_dec x z) as [<- |]; [|discriminate]. apply IH.
Qed.

(** The parts of a split hold no character that the text does not
    hold. *)
Lemma split_parts_without c sep s :
  Py.char_in c s = false ->
  Forall (fun part => Py.char_in c part = false) (Py.split sep s).
Proof.
  induction s as [|d s IH]; cbn [Py.split Py.char_in].
  - intros _. apply List.Forall_cons; [reflexivity | apply List.Forall_nil].
  - intros H. apply orb_false_iff in H. destruct H as [Hd Hs].
    specialize (IH Hs). pose proof (split_nonempty sep s) as Hne.
    destruct (d =? sep)%char.
    + apply List.Forall_cons; [reflexivity | exact IH].
    + destruct (Py.split sep s) as [|part parts]; [contradiction|].
      inversion IH as [|? ? Hpart Hparts]; subst.
      apply List.Forall_cons; [|exact Hparts].
      cbn [Py.char_in]. rewrite Hd, Hpart. reflexivity.
Qed.

Lemma last_item_in (l : list string) : l <> [] -> In (Py.last_item l) l.
Proof.
  unfold Py.last_item. induction l as [|x l IH]; [contradiction|]. intros _.
  destruct l as [|y l]; [left; reflexivity|].
  right. apply IH. discriminate.
Qed.

(** The name made for a URL is not empty and holds neither a slash nor
    a question mark. *)
Lemma url_filename_plain url default :
  default <> EmptyString ->
  Py.char_in "/" default = false -> Py.char_in "?" default = false ->
  url_filename url default <> EmptyString
  /\ Py.char_in "/" (url_filename url default) = false
  /\ Py.char_in "?" (url_filename url default) = false.
Proof.
  intros Hne Hslash Hmark. unfold url_filename. cbv zeta.
  set (last := Py.last_item (Py.split "/" url)).
  assert (Hlast : Py.char_in "/" last = false).
  { pose proof (split_parts_plain "/" url) as Hall.
    rewrite List.Forall_forall in Hall. apply Hall.
    apply last_item_in. apply split_nonempty. }
  pose proof (split_parts_without "/" "?" last Hlast) as Hslashes.
  pose proof (split_parts_plain "?" last) as Hmarks.
  pose proof (split_nonempty "?" last) as Hparts.
  destruct (Py.split "?" last) as [|name parts]; [contradiction|].
  cbn [hd]. inversion Hslashes; subst. inversion Hmarks; subst.
  destruct (String.eqb_spec name EmptyString); repeat split; assumption.
Qed.

(** What the scan returns is well formed: each record holds an address
    and a name and nothing else; the address starts with [http], occurs
    in the text and shows one of the six extensions; the name is not
    empty and holds neither a slash nor a question mark. *)
Theorem extract_urls_fallback_records text record :
  In record (extract_urls_fallback text) ->
  exists url filename,
    record = PDict [("download_url", PStr url); ("filename", PStr filename)]
    /\ Py.startswith "http" url = true
    /\ Py.contains url text = true
    /\ any_in_lower [".jpg"; ".jpeg"; ".png"; ".gif"; ".pdf"; ".mp4"] url = true
    /\ filename <> EmptyString
    /\ Py.char_in "/" filename = false
    /\ Py.char_in "?" filename = false.
Proof.
  unfold extract_urls_fallback. cbv zeta. intros Hin.
  apply in_flat_map in Hin. destruct Hin as (found & Hfound & Hrecord).
  set (url := Py.rstrip (Py.str1 Py.squote)
                (Py.rstrip (Py.str1 Py.dquote)
                   (Py.rstrip (Py.str1 Py.backslash) found))) in *.
  destruct (any_in_lower _ url) eqn:Hext; [|contradiction].
  destruct Hrecord as [<- | []].
  destruct (findall_from_sound url_pattern text 0 found Hfound)
    as (Hmatch & rest & n & Htail).
  apply url_match_prefix in Hmatch.
  assert (Hprefix : String.prefix url found = true).
  { unfold url, Py.rstrip.
    set (a := Py.rstrip_by _ found). set (b := Py.rstrip_by _ a).
    pose proof (rstrip_by_prefix (fun c => Py.char_in c (Py.str1 Py.backslash)) found)
      as Ha.
    pose proof (rstrip_by_prefix (fun c => Py.char_in c (Py.str1 Py.dquote)) a) as Hb.
    pose proof (rstrip_by_prefix (fun c => Py.char_in c (Py.str1 Py.squote)) b) as Hc.
    fold a in Ha. fold b in Hb.
    apply (prefix_trans _ b); [exact Hc|]. apply (prefix_trans _ a); assumption. }
  exists url, (url_filename url "media_file").
  split; [reflexivity|]. split; [|split; [|split; [exact Hext|]]].
  - unfold url, Py.rstrip, Py.startswith.
    repeat (apply (rstrip_by_keeps_prefix _ "http" _ "p"); [reflexivity | reflexivity |]).
    exact Hmatch.
  - apply (prefix_of_tail_contains url text n). rewrite Htail.
    apply prefix_app. exact Hprefix.
  - apply url_filename_plain; [discriminate | reflexivity | reflexivity].
Qed.

End UrlScan.

(** Worked instances. *)

Lemma init_strips_quotes_of_site_id_witness :
  exists raw l r,
    sample_environment "SITE_ID" = Some raw
    /\ raw = l +:+ "contoso.sharepoint.com,1,2" +:+ r
    /\ Py.forall_chars is_quote l = true
    /\ Py.forall_chars is_quote r = true
    /\ (forall c, first_char "contoso.sharepoint.com,1,2" = Some c -> is_quote c = false)
    /\ (forall c, last_char "contoso.sharepoint.com,1,2" = Some c -> is_quote c = false)
    /\ ("contoso.sharepoint.com,1,2" = EmptyString
        <-> Py.forall_chars is_quote raw = true).
Proof.
  apply (init_strips_quotes_of_site_id sample_environment
           (Initial.mk "secret" "secret" "secret" "secret"
              "contoso.sharepoint.com,1,2" None None (mk_stats 0 0 0 0 0) fallback)).
  reflexivity.
Defined.

Lemma extract_urls_fallback_records_witness :
  exists url filename,
    PDict [("download_url", PStr "http://x/a/b.jpg?size=1"); ("filename", PStr "b.jpg")]
    = PDict [("download_url", PStr url); ("filename", PStr filename)]
    /\ Py.startswith "http" url = true
    /\ Py.contains url "see 'http://x/a/b.jpg?size=1', and more" = true
    /\ any_in_lower [".jpg"; ".jpeg"; ".png"; ".gif"; ".pdf"; ".mp4"] url = true
    /\ filename <> EmptyString
    /\ Py.char_in "/" filename = false
    /\ Py.char_in "?" filename = false.
Proof.
  apply (extract_urls_fallback_records "see 'http://x/a/b.jpg?size=1', and more").
  vm_compute. left. reflexivity.
Defined.
